(** * Auto-scoring of reading / listening attempts

    A shallow embedding of [normalize_answer] and [calculate_auto_score]
    from [attempts/views.py], together with the properties of the scoring
    specification that concern them.

    Conventions of the embedding:
    - Python values that can reach the two functions (the decoded form
      data and the model fields) are the inductive type [pyval];
    - a Python [str] is a [string] whose characters stand for the code
      points U+0000 .. U+00FF;
    - Python exceptions are explicit: every operation that can raise
      returns a [result];
    - a Python [float] is an IEEE 754 binary64 number, a [spec_float]
      operated on with the operations of [SpecFloat] at precision 53 and
      maximal exponent 1024;
    - the two mutable counters of the scoring loops are threaded through
      the loops as a pair. *)

From Stdlib Require Import ZArith QArith Qpower Lia Lqa Bool Ascii String List.
From Stdlib Require Import SpecFloat.
From stdpp Require Import base strings pretty list gmap.

Set Warnings "-register-all".

Local Open Scope Z_scope.

(** ** Exceptions and the error monad *)

Inductive exn : Type :=
  | IndexError
  | KeyError
  | ZeroDivisionError
  | OverflowError
  | ValueError
  | TypeError
  | RecursionError.

Inductive result (A : Type) : Type :=
  | Ok (a : A)
  | Raise (e : exn).

Arguments Ok {A} a.
Arguments Raise {A} e.

Definition bind {A B : Type} (m : result A) (k : A -> result B) : result B :=
  match m with
  | Ok a => k a
  | Raise e => Raise e
  end.

Notation "'let*' x ':=' m 'in' k" := (bind m (fun x => k))
  (at level 10, x name, m at level 100, k at level 200).

(** A [for] loop whose body updates the loop state and may raise. *)
Fixpoint for_each {A S : Type} (body : S -> A -> result S) (l : list A) (st : S)
  : result S :=
  match l with
  | [] => Ok st
  | x :: l' => let* st' := body st x in for_each body l' st'
  end.

(** ** Python values *)

Inductive pyval : Type :=
  | VNone
  | VBool (b : bool)
  | VInt (z : Z)
  | VStr (s : string)
  | VList (l : list pyval).

(** Truth value of an object, as tested by [not ans]. *)
Definition py_truthy (v : pyval) : bool :=
  match v with
  | VNone => false
  | VBool b => b
  | VInt z => negb (z =? 0)
  | VStr s => negb (String.eqb s "")
  | VList l => match l with [] => false | _ :: _ => true end
  end.

(** [isinstance(ans, list)] *)
Definition isinstance_list (v : pyval) : bool :=
  match v with
  | VList _ => true
  | _ => false
  end.

(** [ans[i]] on a list, for a non-negative index. *)
Definition list_getitem (l : list pyval) (i : nat) : result pyval :=
  match l !! i with
  | Some x => Ok x
  | None => Raise IndexError
  end.

(** [s[i]] on a string, for a non-negative index: a one-character string. *)
Definition str_getitem (s : string) (i : nat) : result string :=
  match String.get i s with
  | Some c => Ok (String c "")
  | None => Raise IndexError
  end.

(** [v[i]] on any object: only lists and strings can be subscripted. *)
Definition py_getitem (v : pyval) (i : nat) : result pyval :=
  match v with
  | VList l => list_getitem l i
  | VStr s => let* c := str_getitem s i in Ok (VStr c)
  | _ => Raise TypeError
  end.

(** *** [repr] and [str] *)

Definition hex_digit (n : N) : ascii :=
  match String.get (N.to_nat n) "0123456789abcdef" with
  | Some c => c
  | None => "f"%char
  end.

(** Code points below U+0100 that [repr] prints as they are. *)
Definition printable (c : ascii) : bool :=
  let n := N_of_ascii c in
  ((32 <=? n) && (n <=? 126) || (161 <=? n) && negb (n =? 173))%N.

Definition repr_char (quote : ascii) (c : ascii) : string :=
  if Ascii.eqb c "\" then "\\"
  else if Ascii.eqb c quote then String "\" (String quote "")
  else if Ascii.eqb c "009" then "\t"
  else if Ascii.eqb c "010" then "\n"
  else if Ascii.eqb c "013" then "\r"
  else if printable c then String c ""
  else let n := N_of_ascii c in
       String "\" (String "x" (String (hex_digit (n / 16)) (String (hex_digit (n mod 16)) ""))).

Fixpoint str_contains (c : ascii) (s : string) : bool :=
  match s with
  | EmptyString => false
  | String d s' => Ascii.eqb c d || str_contains c s'
  end.

Fixpoint str_concat_map (f : ascii -> string) (s : string) : string :=
  match s with
  | EmptyString => EmptyString
  | String c s' => f c +:+ str_concat_map f s'
  end.

Definition repr_str (s : string) : string :=
  let quote : ascii :=
    if str_contains "'" s && negb (str_contains "034" s) then "034"%char else "'"%char in
  String quote (str_concat_map (repr_char quote) s) +:+ String quote "".

Fixpoint join (sep : string) (l : list string) : string :=
  match l with
  | [] => ""
  | [x] => x
  | x :: l' => x +:+ sep +:+ join sep l'
  end.

Fixpoint py_repr (v : pyval) : string :=
  match v with
  | VNone => "None"
  | VBool true => "True"
  | VBool false => "False"
  | VInt z => pretty z
  | VStr s => repr_str s
  | VList l => "[" +:+ join ", " (List.map py_repr l) +:+ "]"
  end.

(** [str(v)]: the string itself for a string, [repr] otherwise. *)
Definition py_str (v : pyval) : string :=
  match v with
  | VStr s => s
  | _ => py_repr v
  end.

(** *** [str.strip] and [str.lower] *)

(** [str.isspace] on the code points below U+0100. *)
Definition is_space (c : ascii) : bool :=
  let n := N_of_ascii c in
  ((9 <=? n) && (n <=? 13) || (28 <=? n) && (n <=? 32) || (n =? 133) || (n =? 160))%N.

Fixpoint lstrip (s : string) : string :=
  match s with
  | EmptyString => EmptyString
  | String c s' => if is_space c then lstrip s' else s
  end.

Fixpoint rstrip (s : string) : string :=
  match s with
  | EmptyString => EmptyString
  | String c s' =>
      match rstrip s' with
      | EmptyString => if is_space c then EmptyString else String c EmptyString
      | t => String c t
      end
  end.

Definition strip (s : string) : string := rstrip (lstrip s).

Definition lower_char (c : ascii) : ascii :=
  let n := N_of_ascii c in
  if ((65 <=? n) && (n <=? 90) || (192 <=? n) && (n <=? 222) && negb (n =? 215))%N
  then ascii_of_N (n + 32)
  else c.

Fixpoint lower (s : string) : string :=
  match s with
  | EmptyString => EmptyString
  | String c s' => String (lower_char c) (lower s')
  end.

(** ** [normalize_answer] *)

Definition normalize_answer (ans : pyval) : result string :=
  if negb (py_truthy ans) then Ok ""%string
  else
    let* ans := (if isinstance_list ans then py_getitem ans 0 else Ok ans) in
    let ans := strip (py_str ans) in
    if negb (String.eqb ans "") then
      let* c := str_getitem ans 0 in Ok (lower c)
    else Ok ""%string.

(** ** Floating-point numbers

    Binary64 operations; [*] and [/] on floats, the conversion of an
    [int], the true division of two [int]s, [round] and [min]. *)

Definition prec : Z := 53.
Definition emax : Z := 1024.

Definition float_of_int (z : Z) : spec_float := binary_normalize prec emax z 0 false.

Definition float_mul (x y : spec_float) : spec_float := SFmul prec emax x y.

Definition is_zero (x : spec_float) : bool :=
  match x with
  | S754_zero _ => true
  | _ => false
  end.

(** [x / y] on floats raises on a zero divisor. *)
Definition float_truediv (x y : spec_float) : result spec_float :=
  if is_zero y then Raise ZeroDivisionError else Ok (SFdiv prec emax x y).

(** [a / b] on integers: the quotient of the two integers, rounded once. *)
Definition int_truediv (a b : Z) : result spec_float :=
  if b =? 0 then Raise ZeroDivisionError
  else
    let s := xorb (a <? 0) (b <? 0) in
    match a with
    | Z0 => Ok (S754_zero s)
    | _ =>
        match SFdiv prec emax (S754_finite (a <? 0) (Z.to_pos (Z.abs a)) 0)
                              (S754_finite (b <? 0) (Z.to_pos (Z.abs b)) 0) with
        | S754_infinity _ => Raise OverflowError
        | q => Ok q
        end
    end.

(** The integer nearest to [m * 2^e], a tie going to the even one. *)
Definition round_half_even (m e : Z) : Z :=
  match e with
  | Zneg k =>
      let d := Z.pow_pos 2 k in
      let q := m / d in
      let r := m mod d in
      match 2 * r ?= d with
      | Lt => q
      | Gt => q + 1
      | Eq => if Z.even q then q else q + 1
      end
  | _ => m * 2 ^ e
  end.

(** [round(x)] with a single argument: an [int]. *)
Definition py_round (x : spec_float) : result Z :=
  match x with
  | S754_nan => Raise ValueError
  | S754_infinity _ => Raise OverflowError
  | S754_zero _ => Ok 0
  | S754_finite s m e => Ok (cond_Zopp s (round_half_even (Zpos m) e))
  end.

(** [min(a, b)]: [b] replaces [a] only when [b < a]. *)
Definition py_min (a b : spec_float) : spec_float :=
  if SFltb b a then b else a.

(** The literals [0.0] and [9.0]. *)
Definition zero : spec_float := S754_zero false.
Definition nine : spec_float := S754_finite false 5066549580791808 (-49).

(** ** Exams and answers *)

(** Modelled from the spec: the exam models ([exams.models]) are not part of
    the sources at hand.  The records carry the fields that
    [calculate_auto_score] reads; a related manager's [.all()] is the list
    of the related rows, in the order the loop visits them. *)
Record SubQuestion : Type := {
  id : pyval;
  correct_answer : pyval
}.

Record Question : Type := {
  subquestions : list SubQuestion
}.

Record ReadingPassage : Type := {
  passage_questions : list Question
}.

Record ListeningAudio : Type := {
  audio_questions : list Question
}.

Record Exam : Type := {
  section_type : string;
  reading_passages : list ReadingPassage;
  listening_audios : list ListeningAudio
}.

(** The decoded answers of an attempt: a [dict] with string keys. *)
Definition answers_t : Type := gmap string pyval.

(** [key in d] *)
Definition dict_contains (key : string) (d : answers_t) : bool :=
  bool_decide (is_Some (d !! key)).

(** [d[key]] *)
Definition dict_getitem (d : answers_t) (key : string) : result pyval :=
  match d !! key with
  | Some v => Ok v
  | None => Raise KeyError
  end.

(** ** [calculate_auto_score] *)

(** The state of the loops: [(correct_count, total_questions)]. *)
Definition counters : Type := (Z * Z)%type.

(** The body of the innermost loop, the same in both branches. *)
Definition score_subq (answers : answers_t) (st : counters) (subq : SubQuestion)
  : result counters :=
  let '(correct_count, total_questions) := st in
  let total_questions := total_questions + 1 in
  let question_key := "q_" +:+ py_str (id subq) in
  if dict_contains question_key answers then
    let* submitted := dict_getitem answers question_key in
    let* student_answer := normalize_answer submitted in
    let* correct_answer := normalize_answer (correct_answer subq) in
    if String.eqb student_answer correct_answer
    then Ok (correct_count + 1, total_questions)
    else Ok (correct_count, total_questions)
  else Ok (correct_count, total_questions).

Definition score_question (answers : answers_t) (st : counters) (question : Question)
  : result counters :=
  for_each (score_subq answers) (subquestions question) st.

Definition score_passage (answers : answers_t) (st : counters) (passage : ReadingPassage)
  : result counters :=
  for_each (score_question answers) (passage_questions passage) st.

Definition score_audio (answers : answers_t) (st : counters) (audio : ListeningAudio)
  : result counters :=
  for_each (score_question answers) (audio_questions audio) st.

(** The two counters when the loops are over. *)
Definition count_answers (exam : Exam) (answers : answers_t) : result counters :=
  if String.eqb (section_type exam) "reading" then
    for_each (score_passage answers) (reading_passages exam) (0, 0)
  else if String.eqb (section_type exam) "listening" then
    for_each (score_audio answers) (listening_audios exam) (0, 0)
  else Ok (0, 0).

(** The conversion of the two counters to a band: [band] as it is before
    the final [min], and the value returned. *)
Definition band_before_clamp (correct_count total_questions : Z) : result spec_float :=
  let* ratio := int_truediv correct_count total_questions in
  let percentage := float_mul ratio (float_of_int 100) in
  let* raw_band := float_truediv percentage (float_of_int 10) in
  let* doubled := py_round (float_mul raw_band (float_of_int 2)) in
  int_truediv doubled 2.

Definition band_of_counts (correct_count total_questions : Z) : result spec_float :=
  if total_questions =? 0 then Ok zero
  else
    let* band := band_before_clamp correct_count total_questions in
    Ok (py_min band nine).

Definition calculate_auto_score (exam : Exam) (answers : answers_t) : result spec_float :=
  let* st := count_answers exam answers in
  band_of_counts (fst st) (snd st).

(** ** The vocabulary of the specification *)

(** The token of a value in the specification's words: the empty token for
    an absent or empty value; otherwise the first element of a sequence (the
    value itself when it is no sequence), as a string, trimmed, lower-cased
    and cut to its first character. *)
Definition first_char (s : string) : string :=
  match s with
  | EmptyString => EmptyString
  | String c _ => String c EmptyString
  end.

Definition spec_normalize (v : pyval) : string :=
  if negb (py_truthy v) then ""%string
  else
    let v := match v with VList (x :: _) => x | _ => v end in
    first_char (lower (strip (py_str v))).

(** The leaf grading units of an exam, in the order the loops visit them. *)
Definition question_units (questions : list Question) : list SubQuestion :=
  flat_map subquestions questions.

Definition leaf_units (exam : Exam) : list SubQuestion :=
  if String.eqb (section_type exam) "reading" then
    flat_map (fun passage => question_units (passage_questions passage)) (reading_passages exam)
  else if String.eqb (section_type exam) "listening" then
    flat_map (fun audio => question_units (audio_questions audio)) (listening_audios exam)
  else [].

(** The key [q_<unit.id>] of a unit. *)
Definition unit_key (subq : SubQuestion) : string := "q_" +:+ py_str (id subq).

(** A unit is counted as correct: its key is in the mapping and the token of
    the submitted value is the token of [correct_answer]. *)
Definition counted_correct (answers : answers_t) (subq : SubQuestion) : bool :=
  match answers !! unit_key subq with
  | Some submitted =>
      String.eqb (spec_normalize submitted) (spec_normalize (correct_answer subq))
  | None => false
  end.

Fixpoint count_if {A : Type} (f : A -> bool) (l : list A) : Z :=
  match l with
  | [] => 0
  | x :: l' => (if f x then 1 else 0) + count_if f l'
  end.

(** [correct] and [total] of the specification. *)
Definition correct_units (exam : Exam) (answers : answers_t) : Z :=
  count_if (counted_correct answers) (leaf_units exam).

Definition total_units (exam : Exam) : Z := Z.of_nat (length (leaf_units exam)).

(** The band [k / 2] as a float, and the rational value of a finite float. *)
Definition half_band (k : Z) : spec_float := binary_normalize prec emax k (-1) false.

Definition pow2 (e : Z) : Q := Qpower 2 e.

(** The rational [m * 2^e]. *)
Definition F2Q (m e : Z) : Q := inject_Z m * pow2 e.

Definition float_value (x : spec_float) : Q :=
  match x with
  | S754_finite s m e => F2Q (cond_Zopp s (Zpos m)) e
  | _ => 0
  end.

(** A float that is a zero or finite (no infinity, no NaN). *)
Definition is_finite_float (x : spec_float) : bool :=
  match x with
  | S754_zero _ | S754_finite _ _ _ => true
  | _ => false
  end.

(** A non-negative finite float of value at most [V] and exponent at most [E]. *)
Definition bounded_float (V : Q) (E : Z) (x : spec_float) : Prop :=
  x = S754_zero false
  \/ exists m e, x = S754_finite false m e /\ (F2Q (Zpos m) e <= V)%Q /\ e <= E.

(** The band formula in the order the specification writes it:
    [min(round(((100 * correct / total) / 10) * 2) / 2, 9.0)]. *)
Definition spec_band_of_counts (correct total : Z) : result spec_float :=
  let* percentage := int_truediv (100 * correct) total in
  let* raw_band := float_truediv percentage (float_of_int 10) in
  let* doubled := py_round (float_mul raw_band (float_of_int 2)) in
  let* band := int_truediv doubled 2 in
  Ok (py_min band nine).

(** A call returns the band of rational value [q]. *)
Definition returns_band (r : result spec_float) (q : Q) : Prop :=
  exists x, r = Ok x /\ is_finite_float x = true /\ (float_value x == q)%Q.

(** Well-typed inputs: string [correct_answer]s; submitted values that are
    strings or sequences of strings. *)
Definition is_str (v : pyval) : bool :=
  match v with
  | VStr _ => true
  | _ => false
  end.

Definition well_typed_value (v : pyval) : bool :=
  match v with
  | VStr _ => true
  | VList l => forallb is_str l
  | _ => false
  end.

Definition well_typed_exam (exam : Exam) : Prop :=
  Forall (fun subq => is_str (correct_answer subq) = true) (leaf_units exam).

Definition well_typed_answers (answers : answers_t) : Prop :=
  map_Forall (fun _ v => well_typed_value v = true) answers.

(** ** Sample exams *)

Definition unit_of (n : nat) (letter : string) : SubQuestion :=
  {| id := VInt (Z.of_nat n); correct_answer := VStr letter |}.

Definition reading_exam (units : list SubQuestion) : Exam :=
  {| section_type := "reading";
     reading_passages := [ {| passage_questions := [ {| subquestions := units |} ] |} ];
     listening_audios := [] |}.

Definition listening_exam (units : list SubQuestion) : Exam :=
  {| section_type := "listening";
     reading_passages := [];
     listening_audios := [ {| audio_questions := [ {| subquestions := units |} ] |} ] |}.

(** The submission that answers [letter] to the units numbered in [ns]. *)
Definition answer_all (ns : list nat) (letter : string) (answers : answers_t) : answers_t :=
  foldr (fun n acc => <[ ("q_" +:+ pretty (Z.of_nat n))%string := VStr letter ]> acc) answers ns.

(** Forty units keyed A, the first twenty-three answered A, the rest B. *)
Definition exam40 : Exam := reading_exam (List.map (fun n => unit_of n "A") (seq 1 40)).
Definition answers23 : answers_t :=
  answer_all (seq 1 23) "a" (answer_all (seq 24 17) "b" ∅).

(** Three units, of which the submission gets one or two right. *)
Definition exam3 : Exam := listening_exam [unit_of 1 "A"; unit_of 2 "B"; unit_of 3 "C"].
Definition answers3_one : answers_t :=
  <[ "q_1"%string := VStr "a" ]> (<[ "q_2"%string := VList [VStr "c"; VStr "b"] ]> ∅).
Definition answers3_two : answers_t :=
  <[ "q_1"%string := VStr " A" ]> (<[ "q_2"%string := VStr "b" ]> (<[ "q_3"%string := VStr "" ]> ∅)).

Definition answers3_all : answers_t :=
  <[ "q_1"%string := VStr "a" ]> (<[ "q_2"%string := VStr "B" ]> (<[ "q_3"%string := VStr "cx" ]> ∅)).

Definition empty_exam : Exam :=
  {| section_type := "reading"; reading_passages := []; listening_audios := [] |}.

(** A unit without a [correct_answer], and a submission that leaves it blank. *)
Definition blank_unit : SubQuestion := {| id := VInt 7; correct_answer := VNone |}.
Definition blank_answers : answers_t := <[ "q_7"%string := VStr "  " ]> ∅.

(** An exam in which the unit without a [correct_answer] stands between two
    others. *)
Definition blank_exam : Exam := reading_exam [unit_of 1 "A"; blank_unit; unit_of 3 "C"].

(** ** Form data and the answers of a submission *)

(** [request.POST]: the value lists of the form fields, in key order. *)
Definition QueryDict : Type := list (string * list string).

(** [request.POST.keys()] *)
Definition querydict_keys (post : QueryDict) : list string := List.map fst post.

(** [request.POST.getlist(key)]: the values of the key, none for a key
    that is not there. *)
Fixpoint getlist (post : QueryDict) (key : string) : list string :=
  match post with
  | [] => []
  | (k, values) :: post' => if String.eqb k key then values else getlist post' key
  end.

(** [request.POST.get(key)]: the last value of the key; [None] stands for
    the default, returned for a missing key and for an empty value list. *)
Definition querydict_get (post : QueryDict) (key : string) : option string :=
  last (getlist post key).

(** [s.startswith(prefix)], [s.endswith(suffix)] and [s[:-n]] for a
    positive [n]. *)
Definition startswith (s pre : string) : bool := String.prefix pre s.

Definition endswith (s suf : string) : bool :=
  (String.length suf <=? String.length s)%nat
  && String.eqb (substring (String.length s - String.length suf) (String.length suf) s) suf.

Definition drop_last (n : nat) (s : string) : string :=
  substring 0 (String.length s - n) s.

(** The prefixes of the keys that carry answers. *)
Definition answer_prefixes : list string := ["q_"; "part_"; "task_"]%string.

(** [values if len(values) > 1 else values[0]] *)
Definition pack_values (values : list string) : result pyval :=
  if (1 <? length values)%nat then Ok (VList (List.map VStr values))
  else list_getitem (List.map VStr values) 0.

(** The key under which the values of a field are kept. *)
Definition norm_key (key : string) : string :=
  if endswith key "[]" then drop_last 2 key else key.

(** The body of the loop over the form fields in [submit_attempt]. *)
Definition collect_step (post : QueryDict) (answers : answers_t) (key : string)
  : result answers_t :=
  let norm_key := norm_key key in
  if existsb (startswith norm_key) answer_prefixes then
    let values := getlist post key in
    let* packed := pack_values values in
    Ok (<[ norm_key := packed ]> answers)
  else Ok answers.

(** The answers [submit_attempt] builds from the form. *)
Definition collect_answers (post : QueryDict) : result answers_t :=
  for_each (collect_step post) (querydict_keys post) ∅.

(** ** The part number of an uploaded recording *)

(** [s.split(sep)] for a separator of one character. *)
Fixpoint split_on (sep : ascii) (s : string) : list string :=
  match s with
  | EmptyString => [EmptyString]
  | String c s' =>
      if Ascii.eqb c sep then EmptyString :: split_on sep s'
      else match split_on sep s' with
           | [] => [String c EmptyString]
           | piece :: pieces => String c piece :: pieces
           end
  end.

(** [l[-n]] for a positive [n]. *)
Definition getitem_from_end {A : Type} (l : list A) (n : nat) : result A :=
  if (n <=? length l)%nat then
    match nth_error l (length l - n) with
    | Some x => Ok x
    | None => Raise IndexError
    end
  else Raise IndexError.

Definition digit_value (c : ascii) : option Z :=
  let n := N_of_ascii c in
  if ((48 <=? n) && (n <=? 57))%N then Some (Z.of_N n - 48) else None.

(** Decimal digits in which single underscores may separate digits. *)
Fixpoint parse_digits (s : string) (acc : Z) (after_digit : bool) : option Z :=
  match s with
  | EmptyString => if after_digit then Some acc else None
  | String c s' =>
      match digit_value c with
      | Some d => parse_digits s' (10 * acc + d) true
      | None =>
          if Ascii.eqb c "_" && after_digit then parse_digits s' acc false else None
      end
  end.

(** The whitespace [int] skips around a number: that of [str.isspace]
    without the separators U+001C .. U+001F. *)
Definition is_int_space (c : ascii) : bool :=
  let n := N_of_ascii c in
  ((9 <=? n) && (n <=? 13) || (n =? 32) || (n =? 133) || (n =? 160))%N.

Fixpoint lstrip_int (s : string) : string :=
  match s with
  | EmptyString => EmptyString
  | String c s' => if is_int_space c then lstrip_int s' else s
  end.

Fixpoint rstrip_int (s : string) : string :=
  match s with
  | EmptyString => EmptyString
  | String c s' =>
      match rstrip_int s' with
      | EmptyString => if is_int_space c then EmptyString else String c EmptyString
      | t => String c t
      end
  end.

(** The number of decimal digits in a string, and the greatest number of
    digits that [int] converts ([sys.get_int_max_str_digits()]). *)
Fixpoint count_digits (s : string) : nat :=
  match s with
  | EmptyString => 0
  | String c s' =>
      match digit_value c with
      | Some _ => S (count_digits s')
      | None => count_digits s'
      end
  end.

Definition max_str_digits : nat := 4300.

(** [int(s)] on a string: surrounding whitespace, a sign, decimal digits;
    a [ValueError] for anything else and for more than 4300 digits. *)
Definition py_int (s : string) : result Z :=
  let number := rstrip_int (lstrip_int s) in
  let parsed :=
    match number with
    | String "+" digits => parse_digits digits 0 false
    | String "-" digits => option_map Z.opp (parse_digits digits 0 false)
    | digits => parse_digits digits 0 false
    end in
  match parsed with
  | Some z => if (max_str_digits <? count_digits number)%nat then Raise ValueError else Ok z
  | None => Raise ValueError
  end.

(** [int(key.split('_')[-2])] *)
Definition audio_part_id (key : string) : result Z :=
  let* part := getitem_from_end (split_on "_" key) 2 in
  py_int part.

(** ** The bands a mentor can give *)

(** The literal [0.5]. *)
Definition half : spec_float := S754_finite false 4503599627370496 (-53).

(** [[i * 0.5 for i in range(19)]] *)
Definition band_scores : list spec_float :=
  List.map (fun i => float_mul (float_of_int (Z.of_nat i)) half) (seq 0 19).

Definition float_add (x y : spec_float) : spec_float := SFadd prec emax x y.

(** [(task_achievement + coherence_cohesion + lexical_resource
      + grammatical_range) / 4] *)
Definition overall_score (task_achievement coherence_cohesion lexical_resource
                          grammatical_range : spec_float) : result spec_float :=
  float_truediv
    (float_add (float_add (float_add task_achievement coherence_cohesion) lexical_resource)
       grammatical_range)
    (float_of_int 4).

(** Three units spread over two recordings, in another order than [exam3]. *)
Definition exam3_regrouped : Exam :=
  {| section_type := "listening";
     reading_passages := [];
     listening_audios :=
       [ {| audio_questions := [ {| subquestions := [unit_of 3 "C"] |} ] |};
         {| audio_questions := [ {| subquestions := [unit_of 1 "A"] |};
                                 {| subquestions := [unit_of 2 "B"] |} ] |} ] |}.

(** Structural comparison of two floats, and a check over [0 .. n). *)
Definition same_float (x y : spec_float) : bool :=
  match x, y with
  | S754_zero s, S754_zero s' => Bool.eqb s s'
  | S754_infinity s, S754_infinity s' => Bool.eqb s s'
  | S754_nan, S754_nan => true
  | S754_finite s m e, S754_finite s' m' e' => Bool.eqb s s' && Pos.eqb m m' && Z.eqb e e'
  | _, _ => false
  end.

Definition all_below (n : nat) (f : Z -> bool) : bool :=
  forallb (fun i => f (Z.of_nat i)) (seq 0 n).

(** A form field whose values are kept as an answer. *)
Definition is_answer_key (key : string) : bool :=
  existsb (startswith (norm_key key)) answer_prefixes.

(** A form as the exam page posts it: a token, a radio button and a group
    of check boxes. *)
Definition sample_post : QueryDict :=
  [ ("csrfmiddlewaretoken", ["x7"]); ("q_1", ["a"]); ("q_2[]", ["c"; "b"]) ]%string.

(** What the collected answers look like. *)
Definition answers_shape (answers : answers_t) : Prop :=
  well_typed_answers answers
  /\ map_Forall (fun key _ => existsb (startswith key) answer_prefixes = true) answers.

(** An answer field without a value. *)
Definition empty_field (post : QueryDict) (key : string) : Prop :=
  is_answer_key key = true /\ getlist post key = [].

(** What [collect_answers] makes of [sample_post]. *)
Definition sample_answers : answers_t :=
  <[ "q_2"%string := VList [VStr "c"; VStr "b"] ]> (<[ "q_1"%string := VStr "a" ]> ∅).



(** ** The database

    Modelled from the fields and queries of [views.py]: the models
    ([attempts.models], [exams.models], [groups.models]) are not part of the
    sources at hand.  A table maps primary keys to rows; a foreign key holds
    the primary key of the row it points to; a query that filters on fields
    looks at all rows. *)

Record User : Type := {
  user_pk : Z;
  role : string            (* [request.user.profile.role] *)
}.

Record GroupStudent : Type := {
  gs_student : Z;
  gs_group : Z
}.

Record Attempt : Type := {
  attempt_exam : Z;
  attempt_student : Z;
  attempt_group : option Z;
  status : string;
  submitted_at : option Z;
  completed_at : option Z;
  attempt_answers : option string;
  reading_score : option spec_float;
  listening_score : option spec_float;
  total_score : option spec_float
}.

Record AttemptAudio : Type := {
  audio_attempt : Z;
  part_id : Z;
  audio_file : string      (* the uploaded file *)
}.

Record Review : Type := {
  review_of : Z;           (* the attempt *)
  mentor : Z;
  task_achievement : spec_float;
  coherence_cohesion : spec_float;
  lexical_resource : spec_float;
  grammatical_range : spec_float;
  review_overall : spec_float;
  feedback : string;
  reviewed_at : Z
}.

Record WritingTask : Type := {
  task_exam : Z;
  task_title : string;
  task_description : string;
  task_image : string;
  task_type_display : string
}.

Record Database : Type := {
  exams : gmap Z Exam;
  group_students : gmap Z GroupStudent;
  attempts : gmap Z Attempt;
  attempt_audios : gmap Z AttemptAudio;
  reviews : gmap Z Review;
  writing_tasks : gmap Z WritingTask
}.

Definition with_attempts (db : Database) (t : gmap Z Attempt) : Database :=
  {| exams := exams db; group_students := group_students db; attempts := t;
     attempt_audios := attempt_audios db; reviews := reviews db;
     writing_tasks := writing_tasks db |}.

Definition with_attempt_audios (db : Database) (t : gmap Z AttemptAudio) : Database :=
  {| exams := exams db; group_students := group_students db; attempts := attempts db;
     attempt_audios := t; reviews := reviews db; writing_tasks := writing_tasks db |}.

Definition with_reviews (db : Database) (t : gmap Z Review) : Database :=
  {| exams := exams db; group_students := group_students db; attempts := attempts db;
     attempt_audios := attempt_audios db; reviews := t; writing_tasks := writing_tasks db |}.

(** What a view can raise besides the exceptions of the operations above. *)
Inductive view_exn : Type :=
  | PyError (e : exn)
  | AttributeError
  | Http404
  | DoesNotExist
  | MultipleObjectsReturned
  | DatabaseError.

Inductive outcome (A : Type) : Type :=
  | Done (a : A)
  | Failed (e : view_exn).

Arguments Done {A} a.
Arguments Failed {A} e.

(** A step of a view: it reads and writes the database and may raise; what
    it wrote before raising stays written (every query is committed on its
    own). *)
Definition view (A : Type) : Type := Database -> outcome A * Database.

Definition vret {A : Type} (a : A) : view A := fun db => (Done a, db).

Definition vraise {A : Type} (e : view_exn) : view A := fun db => (Failed e, db).

Definition vbind {A B : Type} (m : view A) (k : A -> view B) : view B :=
  fun db =>
    match m db with
    | (Done a, db') => k a db'
    | (Failed e, db') => (Failed e, db')
    end.

Notation "'let+' x ':=' m 'in' k" := (vbind m (fun x => k))
  (at level 10, x pattern, m at level 100, k at level 200).

(** A query that only reads, a write, and an operation of the Python layer. *)
Definition query {A : Type} (f : Database -> outcome A) : view A := fun db => (f db, db).

Definition write (f : Database -> Database) : view unit := fun db => (Done tt, f db).

Definition lift {A : Type} (r : result A) : view A :=
  match r with
  | Ok a => vret a
  | Raise e => vraise (PyError e)
  end.

Fixpoint vfor_each {A : Type} (body : A -> view unit) (l : list A) : view unit :=
  match l with
  | [] => vret tt
  | x :: l' => let+ _ := body x in vfor_each body l'
  end.

(** The rows of a table that pass a filter, with their primary keys. *)
Definition rows_where {R : Type} (p : R -> bool) (t : gmap Z R) : list (Z * R) :=
  List.filter (fun row => p (snd row)) (map_to_list t).

(** [Model.objects.get(...)] *)
Definition objects_get {R : Type} (p : R -> bool) (t : gmap Z R) : outcome (Z * R) :=
  match rows_where p t with
  | [] => Failed DoesNotExist
  | [row] => Done row
  | _ :: _ :: _ => Failed MultipleObjectsReturned
  end.

(** The primary key of a new row: one above the keys in use. *)
Definition next_pk {R : Type} (t : gmap Z R) : Z :=
  1 + map_fold (fun pk _ acc => Z.max pk acc) 0 t.

(** [get_object_or_404(Model, id=pk)] *)
Definition get_object_or_404 {R : Type} (t : gmap Z R) (pk : Z) : outcome R :=
  match t !! pk with
  | Some row => Done row
  | None => Failed Http404
  end.

(** ** Requests and responses *)

Record Request : Type := {
  method : string;
  user : User;
  POST : QueryDict;
  FILES : list (string * string);   (* [request.FILES.items()] *)
  clock : nat -> Z                  (* the successive readings of [timezone.now()] *)
}.

Inductive json_value : Type :=
  | JsonDict (d : answers_t)
  | JsonOther.

Record TaskView : Type := {
  view_id : Z;
  view_title : string;
  view_description : string;
  view_image : string;
  view_task_type : string;
  student_answer : option pyval
}.

Record ReviewContext : Type := {
  ctx_attempt : Attempt;
  ctx_answers : json_value;
  ctx_audio_files : gmap Z string;
  ctx_band_scores : list spec_float;
  ctx_writing_tasks : list TaskView
}.

Inductive response : Type :=
  | JsonError (status_code : Z) (error : string)
      (* [JsonResponse({'error': error}, status=status_code)] *)
  | JsonSuccess (message redirect_url : string)
      (* [JsonResponse({'success': True, 'message': ..., 'redirect_url': ...})] *)
  | JsonServerError (e : view_exn)
      (* [JsonResponse({'success': False, 'error': f'Server error: {str(e)}'}, status=500)] *)
  | Redirect (to : string) (message : string)
      (* a flash message followed by [redirect(to)] *)
  | RenderReview (context : ReviewContext)
      (* [render(request, "attempts/review_attempt.html", context)] *)
  | RenderPending (pending_attempts : gmap Z Attempt).
      (* [render(request, 'attempts/pending_reviews.html', context)], the rows
         of the query set without their order *)

(** ** The views *)

Section Views.

(** What the views take from libraries and from the models and is not
    modelled here: [json.dumps] on the collected answers; [json.loads]
    ([None] for a [JSONDecodeError]); [float] on a string; the values a new
    [Attempt] has in the fields that [submit_attempt] does not give. *)
Variable json_dumps : answers_t -> string.
Variable json_loads : string -> option json_value.
Variable py_float : string -> result spec_float.
Variable attempt_defaults : Attempt.

(** The integers that the column [part_id] of [AttemptAudio] holds.  The
    model is not among the sources; an integer column of a database is
    bounded, and a query or an insertion with a value outside it fails
    with an error of the database ([DataError], or [OverflowError] when the
    value is bound), which is neither a [ValueError] nor an
    [IndexError]. *)
Variable part_id_column : Z -> bool.

(** [Model.objects.get_or_create(<filter>, defaults=...)]: the row found and
    [False], or the row made and [True]. *)
Definition get_or_create {R : Type} (p : R -> bool) (made : R)
    (table : Database -> gmap Z R) (store : Database -> gmap Z R -> Database)
  : view (Z * R * bool) :=
  fun db =>
    match objects_get p (table db) with
    | Done (pk, row) => (Done (pk, row, false), db)
    | Failed DoesNotExist =>
        let pk := next_pk (table db) in
        (Done (pk, made, true), store db (<[ pk := made ]> (table db)))
    | Failed e => (Failed e, db)
    end.

(** [row.save()] of a row that has a primary key. *)
Definition save {R : Type} (table : Database -> gmap Z R)
    (store : Database -> gmap Z R -> Database) (pk : Z) (row : R) : view unit :=
  write (fun db => store db (<[ pk := row ]> (table db))).

(** [GroupStudent.objects.get(student=request.user).group], [None] when the
    student is in no group. *)
Definition student_group_of (student : Z) : view (option Z) :=
  fun db =>
    match objects_get (fun gs => gs_student gs =? student) (group_students db) with
    | Done (_, gs) => (Done (Some (gs_group gs)), db)
    | Failed DoesNotExist => (Done None, db)
    | Failed e => (Failed e, db)
    end.

Definition new_attempt (exam_id student : Z) (group : option Z) (now : Z) : Attempt :=
  {| attempt_exam := exam_id;
     attempt_student := student;
     attempt_group := group;
     status := "submitted";
     submitted_at := Some now;
     completed_at := completed_at attempt_defaults;
     attempt_answers := attempt_answers attempt_defaults;
     reading_score := reading_score attempt_defaults;
     listening_score := listening_score attempt_defaults;
     total_score := total_score attempt_defaults |}.

Definition is_attempt_of (exam_id student : Z) (a : Attempt) : bool :=
  (attempt_exam a =? exam_id) && (attempt_student a =? student).

Definition is_audio_of (attempt_pk part : Z) (audio : AttemptAudio) : bool :=
  (audio_attempt audio =? attempt_pk) && (part_id audio =? part).

(** The body of the loop over the uploaded files. *)
Definition audio_step (attempt_pk : Z) (upload : string * string) : view unit :=
  let '(key, file) := upload in
  if endswith key "_audio" then
    match audio_part_id key with
    | Ok part =>
        if part_id_column part then
          let+ found :=
            get_or_create (is_audio_of attempt_pk part)
              {| audio_attempt := attempt_pk; part_id := part; audio_file := file |}
              attempt_audios with_attempt_audios in
          let '(pk, audio_obj, created) := found in
          if negb created then
            save attempt_audios with_attempt_audios pk
              {| audio_attempt := audio_attempt audio_obj;
                 part_id := part_id audio_obj;
                 audio_file := file |}
          else vret tt
        else vraise DatabaseError
    | Raise ValueError | Raise IndexError => vret tt
    | Raise e => vraise (PyError e)
    end
  else vret tt.

(** The attempt after the automatic scoring. *)
Definition scored (attempt : Attempt) (reading : bool) (score : spec_float) (now : Z) : Attempt :=
  {| attempt_exam := attempt_exam attempt;
     attempt_student := attempt_student attempt;
     attempt_group := attempt_group attempt;
     status := "completed";
     submitted_at := submitted_at attempt;
     completed_at := Some now;
     attempt_answers := attempt_answers attempt;
     reading_score := if reading then Some score else reading_score attempt;
     listening_score := if reading then listening_score attempt else Some score;
     total_score := Some score |}.

(** The attempt with the answers, marked as submitted. *)
Definition submitted (attempt : Attempt) (answers : answers_t) (now : Z) : Attempt :=
  {| attempt_exam := attempt_exam attempt;
     attempt_student := attempt_student attempt;
     attempt_group := attempt_group attempt;
     status := "submitted";
     submitted_at := Some now;
     completed_at := completed_at attempt;
     attempt_answers := Some (json_dumps answers);
     reading_score := reading_score attempt;
     listening_score := listening_score attempt;
     total_score := total_score attempt |}.

Definition is_auto_scored (exam : Exam) : bool :=
  String.eqb (section_type exam) "reading" || String.eqb (section_type exam) "listening".

(** [submit_attempt], inside its [try]. *)
Definition submit_attempt_body (req : Request) (exam_id : Z) : view response :=
  if negb (String.eqb (method req) "POST") then
    vret (JsonError 405 "POST method required")
  else
    let+ exam := query (fun db => get_object_or_404 (exams db) exam_id) in
    if negb (String.eqb (role (user req)) "student") then
      vret (JsonError 403 "Only students can submit attempts")
    else
      let+ student_group := student_group_of (user_pk (user req)) in
      let+ found :=
        get_or_create (is_attempt_of exam_id (user_pk (user req)))
          (new_attempt exam_id (user_pk (user req)) student_group (clock req 0))
          attempts with_attempts in
      let '(pk, attempt, created) := found in
      if negb created && negb (String.eqb (status attempt) "in_progress") then
        vret (JsonError 400 "Attempt already submitted")
      else
        let+ answers := lift (collect_answers (POST req)) in
        let+ _ := vfor_each (audio_step pk) (FILES req) in
        let attempt := submitted attempt answers (clock req 1) in
        let+ attempt :=
          (if is_auto_scored exam then
             let+ score := lift (calculate_auto_score exam answers) in
             vret (scored attempt (String.eqb (section_type exam) "reading") score (clock req 2))
           else vret attempt) in
        let+ _ := save attempts with_attempts pk attempt in
        vret (JsonSuccess "Javoblar muvaffaqiyatli yuborildi!"
                ("/exams/" +:+ pretty exam_id +:+ "/")).

(** [submit_attempt]: whatever the body raises becomes a response of
    status 500. *)
Definition submit_attempt (req : Request) (exam_id : Z) (db : Database)
  : response * Database :=
  match submit_attempt_body req exam_id db with
  | (Done resp, db') => (resp, db')
  | (Failed e, db') => (JsonServerError e, db')
  end.

(** [float(request.POST.get(key, 0))] *)
Definition float_field (req : Request) (key : string) : view spec_float :=
  match querydict_get (POST req) key with
  | Some text => lift (py_float text)
  | None => vret (float_of_int 0)
  end.

Definition is_review_of (attempt_pk mentor_pk : Z) (r : Review) : bool :=
  (review_of r =? attempt_pk) && (mentor r =? mentor_pk).

(** The attempt after a review. *)
Definition reviewed (attempt : Attempt) (overall : spec_float) (now : Z) : Attempt :=
  {| attempt_exam := attempt_exam attempt;
     attempt_student := attempt_student attempt;
     attempt_group := attempt_group attempt;
     status := "completed";
     submitted_at := submitted_at attempt;
     completed_at := Some now;
     attempt_answers := attempt_answers attempt;
     reading_score := reading_score attempt;
     listening_score := listening_score attempt;
     total_score := Some overall |}.

(** [answers] of [review_attempt]: the stored text parsed, an empty dict
    when there is no text or no JSON in that text. *)
Definition parsed_answers (attempt : Attempt) : json_value :=
  match attempt_answers attempt with
  | Some text =>
      if negb (String.eqb text "") then
        match json_loads text with
        | Some answers => answers
        | None => JsonDict ∅
        end
      else JsonDict ∅
  | None => JsonDict ∅
  end.

(** [answers.get(key, None)] *)
Definition json_get (answers : json_value) (key : string) : outcome (option pyval) :=
  match answers with
  | JsonDict d => Done (d !! key)
  | JsonOther => Failed AttributeError
  end.

Fixpoint task_views (answers : json_value) (tasks : list (Z * WritingTask))
  : outcome (list TaskView) :=
  match tasks with
  | [] => Done []
  | (pk, task) :: tasks' =>
      match json_get answers ("task_" +:+ pretty pk) with
      | Done answer =>
          match task_views answers tasks' with
          | Done views =>
              Done ({| view_id := pk;
                       view_title := task_title task;
                       view_description := task_description task;
                       view_image := task_image task;
                       view_task_type := task_type_display task;
                       student_answer := answer |} :: views)
          | Failed e => Failed e
          end
      | Failed e => Failed e
      end
  end.

(** [review_attempt] *)
Definition review_attempt (req : Request) (attempt_id : Z) : view response :=
  let+ attempt := query (fun db => get_object_or_404 (attempts db) attempt_id) in
  if negb (String.eqb (role (user req)) "mentor") then
    vret (Redirect "exams:exam_list" "Faqat mentorlar baholash qila oladi.")
  else
    let answers := parsed_answers attempt in
    let+ exam := query (fun db =>
                   match exams db !! attempt_exam attempt with
                   | Some exam => Done exam
                   | None => Failed DoesNotExist
                   end) in
    let+ audio_files := query (fun db =>
                   Done (if String.eqb (section_type exam) "speaking" then
                           fold_left (fun files row =>
                                        <[ part_id (snd row) := audio_file (snd row) ]> files)
                             (rows_where (fun audio => audio_attempt audio =? attempt_id)
                                (attempt_audios db)) ∅
                         else ∅)) in
    let+ tasks := query (fun db =>
                   if String.eqb (section_type exam) "writing" then
                     task_views answers
                       (rows_where (fun task => task_exam task =? attempt_exam attempt)
                          (writing_tasks db))
                   else Done []) in
    if String.eqb (method req) "POST" then
      let+ ta := float_field req "task_achievement" in
      let+ cc := float_field req "coherence_cohesion" in
      let+ lr := float_field req "lexical_resource" in
      let+ gr := float_field req "grammatical_range" in
      let+ overall := lift (overall_score ta cc lr gr) in
      let text := match querydict_get (POST req) "feedback" with
                  | Some text => text
                  | None => ""%string
                  end in
      let+ found :=
        get_or_create (is_review_of attempt_id (user_pk (user req)))
          {| review_of := attempt_id; mentor := user_pk (user req);
             task_achievement := ta; coherence_cohesion := cc;
             lexical_resource := lr; grammatical_range := gr;
             review_overall := overall; feedback := text;
             reviewed_at := clock req 0 |}
          reviews with_reviews in
      let '(pk, review, created) := found in
      let+ ticks :=
        (if negb created then
           let+ _ := save reviews with_reviews pk
                       {| review_of := review_of review; mentor := mentor review;
                          task_achievement := ta; coherence_cohesion := cc;
                          lexical_resource := lr; grammatical_range := gr;
                          review_overall := overall; feedback := text;
                          reviewed_at := clock req 1 |} in
           vret 2%nat
         else vret 1%nat) in
      let+ _ := save attempts with_attempts attempt_id
                  (reviewed attempt overall (clock req ticks)) in
      vret (Redirect "pending_reviews" "Baholash muvaffaqiyatli saqlandi!")
    else
      vret (RenderReview
              {| ctx_attempt := attempt; ctx_answers := answers;
                 ctx_audio_files := audio_files; ctx_band_scores := band_scores;
                 ctx_writing_tasks := tasks |}).

(** The filter of [pending_reviews]. *)
Definition is_pending (db : Database) (attempt : Attempt) : bool :=
  String.eqb (status attempt) "submitted"
  && match exams db !! attempt_exam attempt with
     | Some exam =>
         String.eqb (section_type exam) "writing" || String.eqb (section_type exam) "speaking"
     | None => false
     end.

(** [pending_reviews] *)
Definition pending_reviews (req : Request) (db : Database) : response :=
  if negb (String.eqb (role (user req)) "mentor") then
    Redirect "exams:exam_list" "Faqat mentorlar baholash qila oladi."
  else
    RenderPending (filter (fun row => is_pending db (snd row) = true) (attempts db)).

End Views.

(** ** Consistency of the database *)

(** No two rows of a table agree on [key]. *)
Definition unique_on {R K : Type} (key : R -> K) (t : gmap Z R) : Prop :=
  forall pk1 pk2 r1 r2,
    t !! pk1 = Some r1 -> t !! pk2 = Some r2 -> key r1 = key r2 -> pk1 = pk2.

Definition attempt_key (a : Attempt) : Z * Z := (attempt_exam a, attempt_student a).
Definition audio_key (a : AttemptAudio) : Z * Z := (audio_attempt a, part_id a).
Definition review_key (r : Review) : Z * Z := (review_of r, mentor r).

(** What the views rely on and keep: one attempt per exam and student, one
    recording per attempt and part, one review per attempt and mentor, one
    group per student. *)
Definition consistent (db : Database) : Prop :=
  unique_on attempt_key (attempts db)
  /\ unique_on audio_key (attempt_audios db)
  /\ unique_on review_key (reviews db)
  /\ unique_on gs_student (group_students db).

(** ** A sample database and sample requests *)

Definition writing_exam : Exam :=
  {| section_type := "writing"; reading_passages := []; listening_audios := [] |}.

Definition speaking_exam : Exam :=
  {| section_type := "speaking"; reading_passages := []; listening_audios := [] |}.

Definition sample_db : Database :=
  {| exams := <[ 1 := exam3 ]> (<[ 2 := writing_exam ]> (<[ 3 := speaking_exam ]> ∅));
     group_students := <[ 1 := {| gs_student := 10; gs_group := 5 |} ]> ∅;
     attempts := ∅;
     attempt_audios := ∅;
     reviews := ∅;
     writing_tasks := ∅ |}.

Definition sample_defaults : Attempt :=
  {| attempt_exam := 0; attempt_student := 0; attempt_group := None;
     status := "in_progress"; submitted_at := None; completed_at := None;
     attempt_answers := None; reading_score := None; listening_score := None;
     total_score := None |}.

Definition student_request (post : QueryDict) (files : list (string * string)) : Request :=
  {| method := "POST"; user := {| user_pk := 10; role := "student" |};
     POST := post; FILES := files; clock := fun i => 100 + Z.of_nat i |}.

Definition mentor_request (http_method : string) (post : QueryDict) : Request :=
  {| method := http_method; user := {| user_pk := 20; role := "mentor" |};
     POST := post; FILES := []; clock := fun i => 200 + Z.of_nat i |}.

(** Stand-ins for [json.dumps], [json.loads] and [float] in the samples:
    the text is not looked at, and the only numerals are the two below. *)
Definition sample_dumps (answers : answers_t) : string := "{...}".
Definition sample_loads (text : string) : option json_value := Some (JsonDict ∅).
Definition sample_float (text : string) : result spec_float :=
  if String.eqb text "6.5" then Ok (half_band 13)
  else if String.eqb text "6.0" then Ok (half_band 12)
  else Raise ValueError.

Definition sample_review_post : QueryDict :=
  [ ("task_achievement", ["6.5"]); ("coherence_cohesion", ["6.0"]);
    ("lexical_resource", ["6.0"]); ("grammatical_range", ["6.0"]);
    ("feedback", ["ok"]) ]%string.

(** Two states of the database that differ in the recordings at most. *)
Definition same_but_audios (db db' : Database) : Prop :=
  exams db' = exams db
  /\ group_students db' = group_students db
  /\ attempts db' = attempts db
  /\ reviews db' = reviews db
  /\ writing_tasks db' = writing_tasks db.

(** The part under which the loop of [submit_attempt] files an upload, none
    for an upload that it skips. *)
Definition upload_part (key : string) : option Z :=
  if endswith key "_audio" then
    match audio_part_id key with
    | Ok part => Some part
    | Raise _ => None
    end
  else None.

(** The recording of a part of an attempt. *)
Definition recording (db : Database) (attempt_pk part : Z) (file : string) : Prop :=
  exists pk, attempt_audios db !! pk
             = Some {| audio_attempt := attempt_pk; part_id := part; audio_file := file |}.

(** Uploads as a speaking exam posts them: two takes of part 2, a stray
    field and a recording without a number. *)
Definition sample_files : list (string * string) :=
  [ ("speaking_part_2_audio", "take1.webm"); ("notes", "n.txt");
    ("speaking_part_x_audio", "bad.webm"); ("retake_part_2_audio", "take2.webm") ]%string.


(** The uploads whose part number the column [part_id] holds: all of them
    that have one. *)
Definition fits (column : Z -> bool) (key : string) : Prop :=
  match upload_part key with
  | Some part => column part = true
  | None => True
  end.

Definition uploads_fit (column : Z -> bool) (files : list (string * string)) : Prop :=
  Forall (fun upload => fits column (fst upload)) files.

(** A column of signed integers of 32 bits. *)
Definition sample_column (part : Z) : bool := (-2147483648 <=? part) && (part <=? 2147483647).

(** ** Sample runs of the views *)

Definition sample_submission : Request := student_request sample_post sample_files.

Definition sample_review : Request := mentor_request "POST" sample_review_post.

Definition success_message : string := "Javoblar muvaffaqiyatli yuborildi!".

Definition saved_message : string := "Baholash muvaffaqiyatli saqlandi!".

(** The sample database after the submission to the listening exam 1, after
    the submission to the writing exam 2, and after the review of the
    latter. *)
Definition scored_db : Database :=
  snd (submit_attempt sample_dumps sample_defaults sample_column sample_submission 1 sample_db).

Definition submitted_db : Database :=
  snd (submit_attempt sample_dumps sample_defaults sample_column sample_submission 2 sample_db).

Definition reviewed_db : Database :=
  snd (review_attempt sample_loads sample_float sample_review 1 submitted_db).

(** ** What the review page shows *)

(** The entry of [writing_tasks] for a task, with the answer stored under
    [task_<id>]. *)
Definition task_view_of (answers : answers_t) (row : Z * WritingTask) : TaskView :=
  {| view_id := fst row;
     view_title := task_title (snd row);
     view_description := task_description (snd row);
     view_image := task_image (snd row);
     view_task_type := task_type_display (snd row);
     student_answer := answers !! ("task_" +:+ pretty (fst row)) |}.

(** A writing submission: one essay for task 1 of the writing exam 2.  The
    stand-ins for [json.dumps] and [json.loads] know this one dict. *)
Definition essay_post : QueryDict := [ ("task_1", ["My essay"]) ]%string.

Definition essay_answers : answers_t := <[ "task_1"%string := VStr "My essay" ]> ∅.

Definition essay_dumps (answers : answers_t) : string := "{task_1: My essay}".

Definition essay_loads (text : string) : option json_value := Some (JsonDict essay_answers).

Definition essay_task : WritingTask :=
  {| task_exam := 2; task_title := "Task 1"; task_description := "Describe the chart";
     task_image := "chart.png"; task_type_display := "Task 1" |}.

Definition writing_db : Database :=
  {| exams := exams sample_db;
     group_students := group_students sample_db;
     attempts := ∅;
     attempt_audios := ∅;
     reviews := ∅;
     writing_tasks := <[ 1 := essay_task ]> ∅ |}.

Definition essay_db : Database :=
  snd (submit_attempt essay_dumps sample_defaults sample_column (student_request essay_post []) 2 writing_db).

(** The sample database after a submission to the speaking exam 3. *)
Definition spoken_db : Database :=
  snd (submit_attempt sample_dumps sample_defaults sample_column sample_submission 3 sample_db).

Definition spoken_attempt : Attempt :=
  {| attempt_exam := 3; attempt_student := 10; attempt_group := Some 5;
     status := "submitted"; submitted_at := Some 101; completed_at := None;
     attempt_answers := Some (sample_dumps sample_answers);
     reading_score := None; listening_score := None; total_score := None |}.

(** * [normalize_answer] over all of Unicode

    The definitions above keep to the code points below U+0100 and give
    every value a string form.  This module embeds [normalize_answer]
    without the two restrictions: a [str] is the list of its code points,
    [str.strip], [str.lower] and [repr] follow the Unicode tables of
    CPython, and [str()] fails where CPython's does: with a [ValueError] on
    an [int] of more than 4300 decimal digits and with a [RecursionError]
    when the nesting of lists uses up the calls that the interpreter still
    allows. *)

Module Unicode.

(** A [str]: its code points. *)
Definition pystr : Type := list Z.

(** The [str] of an ASCII literal. *)
Definition text (s : string) : pystr :=
  List.map (fun c => Z.of_N (N_of_ascii c)) (list_ascii_of_string s).

Inductive pyval : Type :=
  | VNone
  | VBool (b : bool)
  | VInt (z : Z)
  | VStr (s : pystr)
  | VList (l : list pyval).

(** Truth value of an object, as tested by [not ans]. *)
Definition py_truthy (v : pyval) : bool :=
  match v with
  | VNone => false
  | VBool b => b
  | VInt z => negb (z =? 0)
  | VStr s => match s with [] => false | _ :: _ => true end
  | VList l => match l with [] => false | _ :: _ => true end
  end.

(** [isinstance(ans, list)] *)
Definition isinstance_list (v : pyval) : bool :=
  match v with
  | VList _ => true
  | _ => false
  end.

(** [ans[i]] on a list and on a string, for a non-negative index. *)
Definition list_getitem (l : list pyval) (i : nat) : result pyval :=
  match nth_error l i with
  | Some x => Ok x
  | None => Raise IndexError
  end.

Definition str_getitem (s : pystr) (i : nat) : result pystr :=
  match nth_error s i with
  | Some c => Ok [c]
  | None => Raise IndexError
  end.

Definition py_getitem (v : pyval) (i : nat) : result pyval :=
  match v with
  | VList l => list_getitem l i
  | VStr s => let* c := str_getitem s i in Ok (VStr c)
  | _ => Raise TypeError
  end.

(** *** The tables *)

Definition in_ranges (c : Z) (ranges : list (Z * Z)) : bool :=
  existsb (fun r => (fst r <=? c) && (c <=? snd r)) ranges.

(** [str.isspace], which is the whitespace of [str.strip]. *)
Definition space_ranges : list (Z * Z) :=
  [ (9, 13); (28, 32); (133, 133); (160, 160); (5760, 5760); (8192, 8202);
    (8232, 8233); (8239, 8239); (8287, 8287); (12288, 12288) ].

Definition is_space (c : Z) : bool := in_ranges c space_ranges.

(** The code points for which [str.isprintable] is false, as closed ranges
    (Unicode 14.0): the categories Cc, Cf, Cs, Co, Cn, Zl, Zp and Zs but the
    space. *)
Definition unprintable_ranges : list (Z * Z) :=
  [
    (0, 31); (127, 160); (173, 173); (888, 889); (896, 899); (907, 907);
    (909, 909); (930, 930); (1328, 1328); (1367, 1368); (1419, 1420); (1424, 1424);
    (1480, 1487); (1515, 1518); (1525, 1541); (1564, 1564); (1757, 1757); (1806, 1807);
    (1867, 1868); (1970, 1983); (2043, 2044); (2094, 2095); (2111, 2111); (2140, 2141);
    (2143, 2143); (2155, 2159); (2191, 2199); (2274, 2274); (2436, 2436); (2445, 2446);
    (2449, 2450); (2473, 2473); (2481, 2481); (2483, 2485); (2490, 2491); (2501, 2502);
    (2505, 2506); (2511, 2518); (2520, 2523); (2526, 2526); (2532, 2533); (2559, 2560);
    (2564, 2564); (2571, 2574); (2577, 2578); (2601, 2601); (2609, 2609); (2612, 2612);
    (2615, 2615); (2618, 2619); (2621, 2621); (2627, 2630); (2633, 2634); (2638, 2640);
    (2642, 2648); (2653, 2653); (2655, 2661); (2679, 2688); (2692, 2692); (2702, 2702);
    (2706, 2706); (2729, 2729); (2737, 2737); (2740, 2740); (2746, 2747); (2758, 2758);
    (2762, 2762); (2766, 2767); (2769, 2783); (2788, 2789); (2802, 2808); (2816, 2816);
    (2820, 2820); (2829, 2830); (2833, 2834); (2857, 2857); (2865, 2865); (2868, 2868);
    (2874, 2875); (2885, 2886); (2889, 2890); (2894, 2900); (2904, 2907); (2910, 2910);
    (2916, 2917); (2936, 2945); (2948, 2948); (2955, 2957); (2961, 2961); (2966, 2968);
    (2971, 2971); (2973, 2973); (2976, 2978); (2981, 2983); (2987, 2989); (3002, 3005);
    (3011, 3013); (3017, 3017); (3022, 3023); (3025, 3030); (3032, 3045); (3067, 3071);
    (3085, 3085); (3089, 3089); (3113, 3113); (3130, 3131); (3141, 3141); (3145, 3145);
    (3150, 3156); (3159, 3159); (3163, 3164); (3166, 3167); (3172, 3173); (3184, 3190);
    (3213, 3213); (3217, 3217); (3241, 3241); (3252, 3252); (3258, 3259); (3269, 3269);
    (3273, 3273); (3278, 3284); (3287, 3292); (3295, 3295); (3300, 3301); (3312, 3312);
    (3315, 3327); (3341, 3341); (3345, 3345); (3397, 3397); (3401, 3401); (3408, 3411);
    (3428, 3429); (3456, 3456); (3460, 3460); (3479, 3481); (3506, 3506); (3516, 3516);
    (3518, 3519); (3527, 3529); (3531, 3534); (3541, 3541); (3543, 3543); (3552, 3557);
    (3568, 3569); (3573, 3584); (3643, 3646); (3676, 3712); (3715, 3715); (3717, 3717);
    (3723, 3723); (3748, 3748); (3750, 3750); (3774, 3775); (3781, 3781); (3783, 3783);
    (3790, 3791); (3802, 3803); (3808, 3839); (3912, 3912); (3949, 3952); (3992, 3992);
    (4029, 4029); (4045, 4045); (4059, 4095); (4294, 4294); (4296, 4300); (4302, 4303);
    (4681, 4681); (4686, 4687); (4695, 4695); (4697, 4697); (4702, 4703); (4745, 4745);
    (4750, 4751); (4785, 4785); (4790, 4791); (4799, 4799); (4801, 4801); (4806, 4807);
    (4823, 4823); (4881, 4881); (4886, 4887); (4955, 4956); (4989, 4991); (5018, 5023);
    (5110, 5111); (5118, 5119); (5760, 5760); (5789, 5791); (5881, 5887); (5910, 5918);
    (5943, 5951); (5972, 5983); (5997, 5997); (6001, 6001); (6004, 6015); (6110, 6111);
    (6122, 6127); (6138, 6143); (6158, 6158); (6170, 6175); (6265, 6271); (6315, 6319);
    (6390, 6399); (6431, 6431); (6444, 6447); (6460, 6463); (6465, 6467); (6510, 6511);
    (6517, 6527); (6572, 6575); (6602, 6607); (6619, 6621); (6684, 6685); (6751, 6751);
    (6781, 6782); (6794, 6799); (6810, 6815); (6830, 6831); (6863, 6911); (6989, 6991);
    (7039, 7039); (7156, 7163); (7224, 7226); (7242, 7244); (7305, 7311); (7355, 7356);
    (7368, 7375); (7419, 7423); (7958, 7959); (7966, 7967); (8006, 8007); (8014, 8015);
    (8024, 8024); (8026, 8026); (8028, 8028); (8030, 8030); (8062, 8063); (8117, 8117);
    (8133, 8133); (8148, 8149); (8156, 8156); (8176, 8177); (8181, 8181); (8191, 8207);
    (8232, 8239); (8287, 8303); (8306, 8307); (8335, 8335); (8349, 8351); (8385, 8399);
    (8433, 8447); (8588, 8591); (9255, 9279); (9291, 9311); (11124, 11125); (11158, 11158);
    (11508, 11512); (11558, 11558); (11560, 11564); (11566, 11567); (11624, 11630); (11633, 11646);
    (11671, 11679); (11687, 11687); (11695, 11695); (11703, 11703); (11711, 11711); (11719, 11719);
    (11727, 11727); (11735, 11735); (11743, 11743); (11870, 11903); (11930, 11930); (12020, 12031);
    (12246, 12271); (12284, 12288); (12352, 12352); (12439, 12440); (12544, 12548); (12592, 12592);
    (12687, 12687); (12772, 12783); (12831, 12831); (42125, 42127); (42183, 42191); (42540, 42559);
    (42744, 42751); (42955, 42959); (42962, 42962); (42964, 42964); (42970, 42993); (43053, 43055);
    (43066, 43071); (43128, 43135); (43206, 43213); (43226, 43231); (43348, 43358); (43389, 43391);
    (43470, 43470); (43482, 43485); (43519, 43519); (43575, 43583); (43598, 43599); (43610, 43611);
    (43715, 43738); (43767, 43776); (43783, 43784); (43791, 43792); (43799, 43807); (43815, 43815);
    (43823, 43823); (43884, 43887); (44014, 44015); (44026, 44031); (55204, 55215); (55239, 55242);
    (55292, 63743); (64110, 64111); (64218, 64255); (64263, 64274); (64280, 64284); (64311, 64311);
    (64317, 64317); (64319, 64319); (64322, 64322); (64325, 64325); (64451, 64466); (64912, 64913);
    (64968, 64974); (64976, 65007); (65050, 65055); (65107, 65107); (65127, 65127); (65132, 65135);
    (65141, 65141); (65277, 65280); (65471, 65473); (65480, 65481); (65488, 65489); (65496, 65497);
    (65501, 65503); (65511, 65511); (65519, 65531); (65534, 65535); (65548, 65548); (65575, 65575);
    (65595, 65595); (65598, 65598); (65614, 65615); (65630, 65663); (65787, 65791); (65795, 65798);
    (65844, 65846); (65935, 65935); (65949, 65951); (65953, 65999); (66046, 66175); (66205, 66207);
    (66257, 66271); (66300, 66303); (66340, 66348); (66379, 66383); (66427, 66431); (66462, 66462);
    (66500, 66503); (66518, 66559); (66718, 66719); (66730, 66735); (66772, 66775); (66812, 66815);
    (66856, 66863); (66916, 66926); (66939, 66939); (66955, 66955); (66963, 66963); (66966, 66966);
    (66978, 66978); (66994, 66994); (67002, 67002); (67005, 67071); (67383, 67391); (67414, 67423);
    (67432, 67455); (67462, 67462); (67505, 67505); (67515, 67583); (67590, 67591); (67593, 67593);
    (67638, 67638); (67641, 67643); (67645, 67646); (67670, 67670); (67743, 67750); (67760, 67807);
    (67827, 67827); (67830, 67834); (67868, 67870); (67898, 67902); (67904, 67967); (68024, 68027);
    (68048, 68049); (68100, 68100); (68103, 68107); (68116, 68116); (68120, 68120); (68150, 68151);
    (68155, 68158); (68169, 68175); (68185, 68191); (68256, 68287); (68327, 68330); (68343, 68351);
    (68406, 68408); (68438, 68439); (68467, 68471); (68498, 68504); (68509, 68520); (68528, 68607);
    (68681, 68735); (68787, 68799); (68851, 68857); (68904, 68911); (68922, 69215); (69247, 69247);
    (69290, 69290); (69294, 69295); (69298, 69375); (69416, 69423); (69466, 69487); (69514, 69551);
    (69580, 69599); (69623, 69631); (69710, 69713); (69750, 69758); (69821, 69821); (69827, 69839);
    (69865, 69871); (69882, 69887); (69941, 69941); (69960, 69967); (70007, 70015); (70112, 70112);
    (70133, 70143); (70162, 70162); (70207, 70271); (70279, 70279); (70281, 70281); (70286, 70286);
    (70302, 70302); (70314, 70319); (70379, 70383); (70394, 70399); (70404, 70404); (70413, 70414);
    (70417, 70418); (70441, 70441); (70449, 70449); (70452, 70452); (70458, 70458); (70469, 70470);
    (70473, 70474); (70478, 70479); (70481, 70486); (70488, 70492); (70500, 70501); (70509, 70511);
    (70517, 70655); (70748, 70748); (70754, 70783); (70856, 70863); (70874, 71039); (71094, 71095);
    (71134, 71167); (71237, 71247); (71258, 71263); (71277, 71295); (71354, 71359); (71370, 71423);
    (71451, 71452); (71468, 71471); (71495, 71679); (71740, 71839); (71923, 71934); (71943, 71944);
    (71946, 71947); (71956, 71956); (71959, 71959); (71990, 71990); (71993, 71994); (72007, 72015);
    (72026, 72095); (72104, 72105); (72152, 72153); (72165, 72191); (72264, 72271); (72355, 72367);
    (72441, 72703); (72713, 72713); (72759, 72759); (72774, 72783); (72813, 72815); (72848, 72849);
    (72872, 72872); (72887, 72959); (72967, 72967); (72970, 72970); (73015, 73017); (73019, 73019);
    (73022, 73022); (73032, 73039); (73050, 73055); (73062, 73062); (73065, 73065); (73103, 73103);
    (73106, 73106); (73113, 73119); (73130, 73439); (73465, 73647); (73649, 73663); (73714, 73726);
    (74650, 74751); (74863, 74863); (74869, 74879); (75076, 77711); (77811, 77823); (78895, 82943);
    (83527, 92159); (92729, 92735); (92767, 92767); (92778, 92781); (92863, 92863); (92874, 92879);
    (92910, 92911); (92918, 92927); (92998, 93007); (93018, 93018); (93026, 93026); (93048, 93052);
    (93072, 93759); (93851, 93951); (94027, 94030); (94088, 94094); (94112, 94175); (94181, 94191);
    (94194, 94207); (100344, 100351); (101590, 101631); (101641, 110575); (110580, 110580); (110588, 110588);
    (110591, 110591); (110883, 110927); (110931, 110947); (110952, 110959); (111356, 113663); (113771, 113775);
    (113789, 113791); (113801, 113807); (113818, 113819); (113824, 118527); (118574, 118575); (118599, 118607);
    (118724, 118783); (119030, 119039); (119079, 119080); (119155, 119162); (119275, 119295); (119366, 119519);
    (119540, 119551); (119639, 119647); (119673, 119807); (119893, 119893); (119965, 119965); (119968, 119969);
    (119971, 119972); (119975, 119976); (119981, 119981); (119994, 119994); (119996, 119996); (120004, 120004);
    (120070, 120070); (120075, 120076); (120085, 120085); (120093, 120093); (120122, 120122); (120127, 120127);
    (120133, 120133); (120135, 120137); (120145, 120145); (120486, 120487); (120780, 120781); (121484, 121498);
    (121504, 121504); (121520, 122623); (122655, 122879); (122887, 122887); (122905, 122906); (122914, 122914);
    (122917, 122917); (122923, 123135); (123181, 123183); (123198, 123199); (123210, 123213); (123216, 123535);
    (123567, 123583); (123642, 123646); (123648, 124895); (124903, 124903); (124908, 124908); (124911, 124911);
    (124927, 124927); (125125, 125126); (125143, 125183); (125260, 125263); (125274, 125277); (125280, 126064);
    (126133, 126208); (126270, 126463); (126468, 126468); (126496, 126496); (126499, 126499); (126501, 126502);
    (126504, 126504); (126515, 126515); (126520, 126520); (126522, 126522); (126524, 126529); (126531, 126534);
    (126536, 126536); (126538, 126538); (126540, 126540); (126544, 126544); (126547, 126547); (126549, 126550);
    (126552, 126552); (126554, 126554); (126556, 126556); (126558, 126558); (126560, 126560); (126563, 126563);
    (126565, 126566); (126571, 126571); (126579, 126579); (126584, 126584); (126589, 126589); (126591, 126591);
    (126602, 126602); (126620, 126624); (126628, 126628); (126634, 126634); (126652, 126703); (126706, 126975);
    (127020, 127023); (127124, 127135); (127151, 127152); (127168, 127168); (127184, 127184); (127222, 127231);
    (127406, 127461); (127491, 127503); (127548, 127551); (127561, 127567); (127570, 127583); (127590, 127743);
    (128728, 128732); (128749, 128751); (128765, 128767); (128884, 128895); (128985, 128991); (129004, 129007);
    (129009, 129023); (129036, 129039); (129096, 129103); (129114, 129119); (129160, 129167); (129198, 129199);
    (129202, 129279); (129620, 129631); (129646, 129647); (129653, 129655); (129661, 129663); (129671, 129679);
    (129709, 129711); (129723, 129727); (129734, 129743); (129754, 129759); (129768, 129775); (129783, 129791);
    (129939, 129939); (129995, 130031); (130042, 131071); (173792, 173823); (177977, 177983); (178206, 178207);
    (183970, 183983); (191457, 194559); (195102, 196607); (201547, 917759); (918000, 1114111) ].

Definition printable (c : Z) : bool :=
  (0 <=? c) && (c <=? 1114111) && negb (in_ranges c unprintable_ranges).

(** The code points that [str.lower] changes, each with the code point it
    gives (Unicode 14.0, the tables of CPython 3.11); U+0130, which gives two
    code points, is not in the list. *)
Definition lower_pairs : list (Z * Z) :=
  [
    (65, 97); (66, 98); (67, 99); (68, 100); (69, 101); (70, 102);
    (71, 103); (72, 104); (73, 105); (74, 106); (75, 107); (76, 108);
    (77, 109); (78, 110); (79, 111); (80, 112); (81, 113); (82, 114);
    (83, 115); (84, 116); (85, 117); (86, 118); (87, 119); (88, 120);
    (89, 121); (90, 122); (192, 224); (193, 225); (194, 226); (195, 227);
    (196, 228); (197, 229); (198, 230); (199, 231); (200, 232); (201, 233);
    (202, 234); (203, 235); (204, 236); (205, 237); (206, 238); (207, 239);
    (208, 240); (209, 241); (210, 242); (211, 243); (212, 244); (213, 245);
    (214, 246); (216, 248); (217, 249); (218, 250); (219, 251); (220, 252);
    (221, 253); (222, 254); (256, 257); (258, 259); (260, 261); (262, 263);
    (264, 265); (266, 267); (268, 269); (270, 271); (272, 273); (274, 275);
    (276, 277); (278, 279); (280, 281); (282, 283); (284, 285); (286, 287);
    (288, 289); (290, 291); (292, 293); (294, 295); (296, 297); (298, 299);
    (300, 301); (302, 303); (306, 307); (308, 309); (310, 311); (313, 314);
    (315, 316); (317, 318); (319, 320); (321, 322); (323, 324); (325, 326);
    (327, 328); (330, 331); (332, 333); (334, 335); (336, 337); (338, 339);
    (340, 341); (342, 343); (344, 345); (346, 347); (348, 349); (350, 351);
    (352, 353); (354, 355); (356, 357); (358, 359); (360, 361); (362, 363);
    (364, 365); (366, 367); (368, 369); (370, 371); (372, 373); (374, 375);
    (376, 255); (377, 378); (379, 380); (381, 382); (385, 595); (386, 387);
    (388, 389); (390, 596); (391, 392); (393, 598); (394, 599); (395, 396);
    (398, 477); (399, 601); (400, 603); (401, 402); (403, 608); (404, 611);
    (406, 617); (407, 616); (408, 409); (412, 623); (413, 626); (415, 629);
    (416, 417); (418, 419); (420, 421); (422, 640); (423, 424); (425, 643);
    (428, 429); (430, 648); (431, 432); (433, 650); (434, 651); (435, 436);
    (437, 438); (439, 658); (440, 441); (444, 445); (452, 454); (453, 454);
    (455, 457); (456, 457); (458, 460); (459, 460); (461, 462); (463, 464);
    (465, 466); (467, 468); (469, 470); (471, 472); (473, 474); (475, 476);
    (478, 479); (480, 481); (482, 483); (484, 485); (486, 487); (488, 489);
    (490, 491); (492, 493); (494, 495); (497, 499); (498, 499); (500, 501);
    (502, 405); (503, 447); (504, 505); (506, 507); (508, 509); (510, 511);
    (512, 513); (514, 515); (516, 517); (518, 519); (520, 521); (522, 523);
    (524, 525); (526, 527); (528, 529); (530, 531); (532, 533); (534, 535);
    (536, 537); (538, 539); (540, 541); (542, 543); (544, 414); (546, 547);
    (548, 549); (550, 551); (552, 553); (554, 555); (556, 557); (558, 559);
    (560, 561); (562, 563); (570, 11365); (571, 572); (573, 410); (574, 11366);
    (577, 578); (579, 384); (580, 649); (581, 652); (582, 583); (584, 585);
    (586, 587); (588, 589); (590, 591); (880, 881); (882, 883); (886, 887);
    (895, 1011); (902, 940); (904, 941); (905, 942); (906, 943); (908, 972);
    (910, 973); (911, 974); (913, 945); (914, 946); (915, 947); (916, 948);
    (917, 949); (918, 950); (919, 951); (920, 952); (921, 953); (922, 954);
    (923, 955); (924, 956); (925, 957); (926, 958); (927, 959); (928, 960);
    (929, 961); (931, 963); (932, 964); (933, 965); (934, 966); (935, 967);
    (936, 968); (937, 969); (938, 970); (939, 971); (975, 983); (984, 985);
    (986, 987); (988, 989); (990, 991); (992, 993); (994, 995); (996, 997);
    (998, 999); (1000, 1001); (1002, 1003); (1004, 1005); (1006, 1007); (1012, 952);
    (1015, 1016); (1017, 1010); (1018, 1019); (1021, 891); (1022, 892); (1023, 893);
    (1024, 1104); (1025, 1105); (1026, 1106); (1027, 1107); (1028, 1108); (1029, 1109);
    (1030, 1110); (1031, 1111); (1032, 1112); (1033, 1113); (1034, 1114); (1035, 1115);
    (1036, 1116); (1037, 1117); (1038, 1118); (1039, 1119); (1040, 1072); (1041, 1073);
    (1042, 1074); (1043, 1075); (1044, 1076); (1045, 1077); (1046, 1078); (1047, 1079);
    (1048, 1080); (1049, 1081); (1050, 1082); (1051, 1083); (1052, 1084); (1053, 1085);
    (1054, 1086); (1055, 1087); (1056, 1088); (1057, 1089); (1058, 1090); (1059, 1091);
    (1060, 1092); (1061, 1093); (1062, 1094); (1063, 1095); (1064, 1096); (1065, 1097);
    (1066, 1098); (1067, 1099); (1068, 1100); (1069, 1101); (1070, 1102); (1071, 1103);
    (1120, 1121); (1122, 1123); (1124, 1125); (1126, 1127); (1128, 1129); (1130, 1131);
    (1132, 1133); (1134, 1135); (1136, 1137); (1138, 1139); (1140, 1141); (1142, 1143);
    (1144, 1145); (1146, 1147); (1148, 1149); (1150, 1151); (1152, 1153); (1162, 1163);
    (1164, 1165); (1166, 1167); (1168, 1169); (1170, 1171); (1172, 1173); (1174, 1175);
    (1176, 1177); (1178, 1179); (1180, 1181); (1182, 1183); (1184, 1185); (1186, 1187);
    (1188, 1189); (1190, 1191); (1192, 1193); (1194, 1195); (1196, 1197); (1198, 1199);
    (1200, 1201); (1202, 1203); (1204, 1205); (1206, 1207); (1208, 1209); (1210, 1211);
    (1212, 1213); (1214, 1215); (1216, 1231); (1217, 1218); (1219, 1220); (1221, 1222);
    (1223, 1224); (1225, 1226); (1227, 1228); (1229, 1230); (1232, 1233); (1234, 1235);
    (1236, 1237); (1238, 1239); (1240, 1241); (1242, 1243); (1244, 1245); (1246, 1247);
    (1248, 1249); (1250, 1251); (1252, 1253); (1254, 1255); (1256, 1257); (1258, 1259);
    (1260, 1261); (1262, 1263); (1264, 1265); (1266, 1267); (1268, 1269); (1270, 1271);
    (1272, 1273); (1274, 1275); (1276, 1277); (1278, 1279); (1280, 1281); (1282, 1283);
    (1284, 1285); (1286, 1287); (1288, 1289); (1290, 1291); (1292, 1293); (1294, 1295);
    (1296, 1297); (1298, 1299); (1300, 1301); (1302, 1303); (1304, 1305); (1306, 1307);
    (1308, 1309); (1310, 1311); (1312, 1313); (1314, 1315); (1316, 1317); (1318, 1319);
    (1320, 1321); (1322, 1323); (1324, 1325); (1326, 1327); (1329, 1377); (1330, 1378);
    (1331, 1379); (1332, 1380); (1333, 1381); (1334, 1382); (1335, 1383); (1336, 1384);
    (1337, 1385); (1338, 1386); (1339, 1387); (1340, 1388); (1341, 1389); (1342, 1390);
    (1343, 1391); (1344, 1392); (1345, 1393); (1346, 1394); (1347, 1395); (1348, 1396);
    (1349, 1397); (1350, 1398); (1351, 1399); (1352, 1400); (1353, 1401); (1354, 1402);
    (1355, 1403); (1356, 1404); (1357, 1405); (1358, 1406); (1359, 1407); (1360, 1408);
    (1361, 1409); (1362, 1410); (1363, 1411); (1364, 1412); (1365, 1413); (1366, 1414);
    (4256, 11520); (4257, 11521); (4258, 11522); (4259, 11523); (4260, 11524); (4261, 11525);
    (4262, 11526); (4263, 11527); (4264, 11528); (4265, 11529); (4266, 11530); (4267, 11531);
    (4268, 11532); (4269, 11533); (4270, 11534); (4271, 11535); (4272, 11536); (4273, 11537);
    (4274, 11538); (4275, 11539); (4276, 11540); (4277, 11541); (4278, 11542); (4279, 11543);
    (4280, 11544); (4281, 11545); (4282, 11546); (4283, 11547); (4284, 11548); (4285, 11549);
    (4286, 11550); (4287, 11551); (4288, 11552); (4289, 11553); (4290, 11554); (4291, 11555);
    (4292, 11556); (4293, 11557); (4295, 11559); (4301, 11565); (5024, 43888); (5025, 43889);
    (5026, 43890); (5027, 43891); (5028, 43892); (5029, 43893); (5030, 43894); (5031, 43895);
    (5032, 43896); (5033, 43897); (5034, 43898); (5035, 43899); (5036, 43900); (5037, 43901);
    (5038, 43902); (5039, 43903); (5040, 43904); (5041, 43905); (5042, 43906); (5043, 43907);
    (5044, 43908); (5045, 43909); (5046, 43910); (5047, 43911); (5048, 43912); (5049, 43913);
    (5050, 43914); (5051, 43915); (5052, 43916); (5053, 43917); (5054, 43918); (5055, 43919);
    (5056, 43920); (5057, 43921); (5058, 43922); (5059, 43923); (5060, 43924); (5061, 43925);
    (5062, 43926); (5063, 43927); (5064, 43928); (5065, 43929); (5066, 43930); (5067, 43931);
    (5068, 43932); (5069, 43933); (5070, 43934); (5071, 43935); (5072, 43936); (5073, 43937);
    (5074, 43938); (5075, 43939); (5076, 43940); (5077, 43941); (5078, 43942); (5079, 43943);
    (5080, 43944); (5081, 43945); (5082, 43946); (5083, 43947); (5084, 43948); (5085, 43949);
    (5086, 43950); (5087, 43951); (5088, 43952); (5089, 43953); (5090, 43954); (5091, 43955);
    (5092, 43956); (5093, 43957); (5094, 43958); (5095, 43959); (5096, 43960); (5097, 43961);
    (5098, 43962); (5099, 43963); (5100, 43964); (5101, 43965); (5102, 43966); (5103, 43967);
    (5104, 5112); (5105, 5113); (5106, 5114); (5107, 5115); (5108, 5116); (5109, 5117);
    (7312, 4304); (7313, 4305); (7314, 4306); (7315, 4307); (7316, 4308); (7317, 4309);
    (7318, 4310); (7319, 4311); (7320, 4312); (7321, 4313); (7322, 4314); (7323, 4315);
    (7324, 4316); (7325, 4317); (7326, 4318); (7327, 4319); (7328, 4320); (7329, 4321);
    (7330, 4322); (7331, 4323); (7332, 4324); (7333, 4325); (7334, 4326); (7335, 4327);
    (7336, 4328); (7337, 4329); (7338, 4330); (7339, 4331); (7340, 4332); (7341, 4333);
    (7342, 4334); (7343, 4335); (7344, 4336); (7345, 4337); (7346, 4338); (7347, 4339);
    (7348, 4340); (7349, 4341); (7350, 4342); (7351, 4343); (7352, 4344); (7353, 4345);
    (7354, 4346); (7357, 4349); (7358, 4350); (7359, 4351); (7680, 7681); (7682, 7683);
    (7684, 7685); (7686, 7687); (7688, 7689); (7690, 7691); (7692, 7693); (7694, 7695);
    (7696, 7697); (7698, 7699); (7700, 7701); (7702, 7703); (7704, 7705); (7706, 7707);
    (7708, 7709); (7710, 7711); (7712, 7713); (7714, 7715); (7716, 7717); (7718, 7719);
    (7720, 7721); (7722, 7723); (7724, 7725); (7726, 7727); (7728, 7729); (7730, 7731);
    (7732, 7733); (7734, 7735); (7736, 7737); (7738, 7739); (7740, 7741); (7742, 7743);
    (7744, 7745); (7746, 7747); (7748, 7749); (7750, 7751); (7752, 7753); (7754, 7755);
    (7756, 7757); (7758, 7759); (7760, 7761); (7762, 7763); (7764, 7765); (7766, 7767);
    (7768, 7769); (7770, 7771); (7772, 7773); (7774, 7775); (7776, 7777); (7778, 7779);
    (7780, 7781); (7782, 7783); (7784, 7785); (7786, 7787); (7788, 7789); (7790, 7791);
    (7792, 7793); (7794, 7795); (7796, 7797); (7798, 7799); (7800, 7801); (7802, 7803);
    (7804, 7805); (7806, 7807); (7808, 7809); (7810, 7811); (7812, 7813); (7814, 7815);
    (7816, 7817); (7818, 7819); (7820, 7821); (7822, 7823); (7824, 7825); (7826, 7827);
    (7828, 7829); (7838, 223); (7840, 7841); (7842, 7843); (7844, 7845); (7846, 7847);
    (7848, 7849); (7850, 7851); (7852, 7853); (7854, 7855); (7856, 7857); (7858, 7859);
    (7860, 7861); (7862, 7863); (7864, 7865); (7866, 7867); (7868, 7869); (7870, 7871);
    (7872, 7873); (7874, 7875); (7876, 7877); (7878, 7879); (7880, 7881); (7882, 7883);
    (7884, 7885); (7886, 7887); (7888, 7889); (7890, 7891); (7892, 7893); (7894, 7895);
    (7896, 7897); (7898, 7899); (7900, 7901); (7902, 7903); (7904, 7905); (7906, 7907);
    (7908, 7909); (7910, 7911); (7912, 7913); (7914, 7915); (7916, 7917); (7918, 7919);
    (7920, 7921); (7922, 7923); (7924, 7925); (7926, 7927); (7928, 7929); (7930, 7931);
    (7932, 7933); (7934, 7935); (7944, 7936); (7945, 7937); (7946, 7938); (7947, 7939);
    (7948, 7940); (7949, 7941); (7950, 7942); (7951, 7943); (7960, 7952); (7961, 7953);
    (7962, 7954); (7963, 7955); (7964, 7956); (7965, 7957); (7976, 7968); (7977, 7969);
    (7978, 7970); (7979, 7971); (7980, 7972); (7981, 7973); (7982, 7974); (7983, 7975);
    (7992, 7984); (7993, 7985); (7994, 7986); (7995, 7987); (7996, 7988); (7997, 7989);
    (7998, 7990); (7999, 7991); (8008, 8000); (8009, 8001); (8010, 8002); (8011, 8003);
    (8012, 8004); (8013, 8005); (8025, 8017); (8027, 8019); (8029, 8021); (8031, 8023);
    (8040, 8032); (8041, 8033); (8042, 8034); (8043, 8035); (8044, 8036); (8045, 8037);
    (8046, 8038); (8047, 8039); (8072, 8064); (8073, 8065); (8074, 8066); (8075, 8067);
    (8076, 8068); (8077, 8069); (8078, 8070); (8079, 8071); (8088, 8080); (8089, 8081);
    (8090, 8082); (8091, 8083); (8092, 8084); (8093, 8085); (8094, 8086); (8095, 8087);
    (8104, 8096); (8105, 8097); (8106, 8098); (8107, 8099); (8108, 8100); (8109, 8101);
    (8110, 8102); (8111, 8103); (8120, 8112); (8121, 8113); (8122, 8048); (8123, 8049);
    (8124, 8115); (8136, 8050); (8137, 8051); (8138, 8052); (8139, 8053); (8140, 8131);
    (8152, 8144); (8153, 8145); (8154, 8054); (8155, 8055); (8168, 8160); (8169, 8161);
    (8170, 8058); (8171, 8059); (8172, 8165); (8184, 8056); (8185, 8057); (8186, 8060);
    (8187, 8061); (8188, 8179); (8486, 969); (8490, 107); (8491, 229); (8498, 8526);
    (8544, 8560); (8545, 8561); (8546, 8562); (8547, 8563); (8548, 8564); (8549, 8565);
    (8550, 8566); (8551, 8567); (8552, 8568); (8553, 8569); (8554, 8570); (8555, 8571);
    (8556, 8572); (8557, 8573); (8558, 8574); (8559, 8575); (8579, 8580); (9398, 9424);
    (9399, 9425); (9400, 9426); (9401, 9427); (9402, 9428); (9403, 9429); (9404, 9430);
    (9405, 9431); (9406, 9432); (9407, 9433); (9408, 9434); (9409, 9435); (9410, 9436);
    (9411, 9437); (9412, 9438); (9413, 9439); (9414, 9440); (9415, 9441); (9416, 9442);
    (9417, 9443); (9418, 9444); (9419, 9445); (9420, 9446); (9421, 9447); (9422, 9448);
    (9423, 9449); (11264, 11312); (11265, 11313); (11266, 11314); (11267, 11315); (11268, 11316);
    (11269, 11317); (11270, 11318); (11271, 11319); (11272, 11320); (11273, 11321); (11274, 11322);
    (11275, 11323); (11276, 11324); (11277, 11325); (11278, 11326); (11279, 11327); (11280, 11328);
    (11281, 11329); (11282, 11330); (11283, 11331); (11284, 11332); (11285, 11333); (11286, 11334);
    (11287, 11335); (11288, 11336); (11289, 11337); (11290, 11338); (11291, 11339); (11292, 11340);
    (11293, 11341); (11294, 11342); (11295, 11343); (11296, 11344); (11297, 11345); (11298, 11346);
    (11299, 11347); (11300, 11348); (11301, 11349); (11302, 11350); (11303, 11351); (11304, 11352);
    (11305, 11353); (11306, 11354); (11307, 11355); (11308, 11356); (11309, 11357); (11310, 11358);
    (11311, 11359); (11360, 11361); (11362, 619); (11363, 7549); (11364, 637); (11367, 11368);
    (11369, 11370); (11371, 11372); (11373, 593); (11374, 625); (11375, 592); (11376, 594);
    (11378, 11379); (11381, 11382); (11390, 575); (11391, 576); (11392, 11393); (11394, 11395);
    (11396, 11397); (11398, 11399); (11400, 11401); (11402, 11403); (11404, 11405); (11406, 11407);
    (11408, 11409); (11410, 11411); (11412, 11413); (11414, 11415); (11416, 11417); (11418, 11419);
    (11420, 11421); (11422, 11423); (11424, 11425); (11426, 11427); (11428, 11429); (11430, 11431);
    (11432, 11433); (11434, 11435); (11436, 11437); (11438, 11439); (11440, 11441); (11442, 11443);
    (11444, 11445); (11446, 11447); (11448, 11449); (11450, 11451); (11452, 11453); (11454, 11455);
    (11456, 11457); (11458, 11459); (11460, 11461); (11462, 11463); (11464, 11465); (11466, 11467);
    (11468, 11469); (11470, 11471); (11472, 11473); (11474, 11475); (11476, 11477); (11478, 11479);
    (11480, 11481); (11482, 11483); (11484, 11485); (11486, 11487); (11488, 11489); (11490, 11491);
    (11499, 11500); (11501, 11502); (11506, 11507); (42560, 42561); (42562, 42563); (42564, 42565);
    (42566, 42567); (42568, 42569); (42570, 42571); (42572, 42573); (42574, 42575); (42576, 42577);
    (42578, 42579); (42580, 42581); (42582, 42583); (42584, 42585); (42586, 42587); (42588, 42589);
    (42590, 42591); (42592, 42593); (42594, 42595); (42596, 42597); (42598, 42599); (42600, 42601);
    (42602, 42603); (42604, 42605); (42624, 42625); (42626, 42627); (42628, 42629); (42630, 42631);
    (42632, 42633); (42634, 42635); (42636, 42637); (42638, 42639); (42640, 42641); (42642, 42643);
    (42644, 42645); (42646, 42647); (42648, 42649); (42650, 42651); (42786, 42787); (42788, 42789);
    (42790, 42791); (42792, 42793); (42794, 42795); (42796, 42797); (42798, 42799); (42802, 42803);
    (42804, 42805); (42806, 42807); (42808, 42809); (42810, 42811); (42812, 42813); (42814, 42815);
    (42816, 42817); (42818, 42819); (42820, 42821); (42822, 42823); (42824, 42825); (42826, 42827);
    (42828, 42829); (42830, 42831); (42832, 42833); (42834, 42835); (42836, 42837); (42838, 42839);
    (42840, 42841); (42842, 42843); (42844, 42845); (42846, 42847); (42848, 42849); (42850, 42851);
    (42852, 42853); (42854, 42855); (42856, 42857); (42858, 42859); (42860, 42861); (42862, 42863);
    (42873, 42874); (42875, 42876); (42877, 7545); (42878, 42879); (42880, 42881); (42882, 42883);
    (42884, 42885); (42886, 42887); (42891, 42892); (42893, 613); (42896, 42897); (42898, 42899);
    (42902, 42903); (42904, 42905); (42906, 42907); (42908, 42909); (42910, 42911); (42912, 42913);
    (42914, 42915); (42916, 42917); (42918, 42919); (42920, 42921); (42922, 614); (42923, 604);
    (42924, 609); (42925, 620); (42926, 618); (42928, 670); (42929, 647); (42930, 669);
    (42931, 43859); (42932, 42933); (42934, 42935); (42936, 42937); (42938, 42939); (42940, 42941);
    (42942, 42943); (42944, 42945); (42946, 42947); (42948, 42900); (42949, 642); (42950, 7566);
    (42951, 42952); (42953, 42954); (42960, 42961); (42966, 42967); (42968, 42969); (42997, 42998);
    (65313, 65345); (65314, 65346); (65315, 65347); (65316, 65348); (65317, 65349); (65318, 65350);
    (65319, 65351); (65320, 65352); (65321, 65353); (65322, 65354); (65323, 65355); (65324, 65356);
    (65325, 65357); (65326, 65358); (65327, 65359); (65328, 65360); (65329, 65361); (65330, 65362);
    (65331, 65363); (65332, 65364); (65333, 65365); (65334, 65366); (65335, 65367); (65336, 65368);
    (65337, 65369); (65338, 65370); (66560, 66600); (66561, 66601); (66562, 66602); (66563, 66603);
    (66564, 66604); (66565, 66605); (66566, 66606); (66567, 66607); (66568, 66608); (66569, 66609);
    (66570, 66610); (66571, 66611); (66572, 66612); (66573, 66613); (66574, 66614); (66575, 66615);
    (66576, 66616); (66577, 66617); (66578, 66618); (66579, 66619); (66580, 66620); (66581, 66621);
    (66582, 66622); (66583, 66623); (66584, 66624); (66585, 66625); (66586, 66626); (66587, 66627);
    (66588, 66628); (66589, 66629); (66590, 66630); (66591, 66631); (66592, 66632); (66593, 66633);
    (66594, 66634); (66595, 66635); (66596, 66636); (66597, 66637); (66598, 66638); (66599, 66639);
    (66736, 66776); (66737, 66777); (66738, 66778); (66739, 66779); (66740, 66780); (66741, 66781);
    (66742, 66782); (66743, 66783); (66744, 66784); (66745, 66785); (66746, 66786); (66747, 66787);
    (66748, 66788); (66749, 66789); (66750, 66790); (66751, 66791); (66752, 66792); (66753, 66793);
    (66754, 66794); (66755, 66795); (66756, 66796); (66757, 66797); (66758, 66798); (66759, 66799);
    (66760, 66800); (66761, 66801); (66762, 66802); (66763, 66803); (66764, 66804); (66765, 66805);
    (66766, 66806); (66767, 66807); (66768, 66808); (66769, 66809); (66770, 66810); (66771, 66811);
    (66928, 66967); (66929, 66968); (66930, 66969); (66931, 66970); (66932, 66971); (66933, 66972);
    (66934, 66973); (66935, 66974); (66936, 66975); (66937, 66976); (66938, 66977); (66940, 66979);
    (66941, 66980); (66942, 66981); (66943, 66982); (66944, 66983); (66945, 66984); (66946, 66985);
    (66947, 66986); (66948, 66987); (66949, 66988); (66950, 66989); (66951, 66990); (66952, 66991);
    (66953, 66992); (66954, 66993); (66956, 66995); (66957, 66996); (66958, 66997); (66959, 66998);
    (66960, 66999); (66961, 67000); (66962, 67001); (66964, 67003); (66965, 67004); (68736, 68800);
    (68737, 68801); (68738, 68802); (68739, 68803); (68740, 68804); (68741, 68805); (68742, 68806);
    (68743, 68807); (68744, 68808); (68745, 68809); (68746, 68810); (68747, 68811); (68748, 68812);
    (68749, 68813); (68750, 68814); (68751, 68815); (68752, 68816); (68753, 68817); (68754, 68818);
    (68755, 68819); (68756, 68820); (68757, 68821); (68758, 68822); (68759, 68823); (68760, 68824);
    (68761, 68825); (68762, 68826); (68763, 68827); (68764, 68828); (68765, 68829); (68766, 68830);
    (68767, 68831); (68768, 68832); (68769, 68833); (68770, 68834); (68771, 68835); (68772, 68836);
    (68773, 68837); (68774, 68838); (68775, 68839); (68776, 68840); (68777, 68841); (68778, 68842);
    (68779, 68843); (68780, 68844); (68781, 68845); (68782, 68846); (68783, 68847); (68784, 68848);
    (68785, 68849); (68786, 68850); (71840, 71872); (71841, 71873); (71842, 71874); (71843, 71875);
    (71844, 71876); (71845, 71877); (71846, 71878); (71847, 71879); (71848, 71880); (71849, 71881);
    (71850, 71882); (71851, 71883); (71852, 71884); (71853, 71885); (71854, 71886); (71855, 71887);
    (71856, 71888); (71857, 71889); (71858, 71890); (71859, 71891); (71860, 71892); (71861, 71893);
    (71862, 71894); (71863, 71895); (71864, 71896); (71865, 71897); (71866, 71898); (71867, 71899);
    (71868, 71900); (71869, 71901); (71870, 71902); (71871, 71903); (93760, 93792); (93761, 93793);
    (93762, 93794); (93763, 93795); (93764, 93796); (93765, 93797); (93766, 93798); (93767, 93799);
    (93768, 93800); (93769, 93801); (93770, 93802); (93771, 93803); (93772, 93804); (93773, 93805);
    (93774, 93806); (93775, 93807); (93776, 93808); (93777, 93809); (93778, 93810); (93779, 93811);
    (93780, 93812); (93781, 93813); (93782, 93814); (93783, 93815); (93784, 93816); (93785, 93817);
    (93786, 93818); (93787, 93819); (93788, 93820); (93789, 93821); (93790, 93822); (93791, 93823);
    (125184, 125218); (125185, 125219); (125186, 125220); (125187, 125221); (125188, 125222); (125189, 125223);
    (125190, 125224); (125191, 125225); (125192, 125226); (125193, 125227); (125194, 125228); (125195, 125229);
    (125196, 125230); (125197, 125231); (125198, 125232); (125199, 125233); (125200, 125234); (125201, 125235);
    (125202, 125236); (125203, 125237); (125204, 125238); (125205, 125239); (125206, 125240); (125207, 125241);
    (125208, 125242); (125209, 125243); (125210, 125244); (125211, 125245); (125212, 125246); (125213, 125247);
    (125214, 125248); (125215, 125249); (125216, 125250); (125217, 125251) ].

Fixpoint lookup_pair (c : Z) (pairs : list (Z * Z)) : option Z :=
  match pairs with
  | [] => None
  | (a, b) :: pairs' => if a =? c then Some b else lookup_pair c pairs'
  end.

(** [c.lower()] for the string of the one character [c]. *)
Definition lower_char (c : Z) : pystr :=
  if c =? 304 then [105; 775]
  else match lookup_pair c lower_pairs with
       | Some d => [d]
       | None => [c]
       end.

(** *** [repr] and [str] *)

Definition hex_digit (d : Z) : Z := if d <? 10 then 48 + d else 87 + d.

(** [n] in hexadecimal, on [width] digits. *)
Fixpoint hex (width : nat) (n : Z) : pystr :=
  match width with
  | O => []
  | S width' => hex width' (n / 16) ++ [hex_digit (n mod 16)]
  end.

Definition repr_char (quote : Z) (c : Z) : pystr :=
  if (c =? quote) || (c =? 92) then [92; c]
  else if c =? 9 then [92; 116]
  else if c =? 10 then [92; 110]
  else if c =? 13 then [92; 114]
  else if printable c then [c]
  else if c <=? 255 then [92; 120] ++ hex 2 c
  else if c <=? 65535 then [92; 117] ++ hex 4 c
  else [92; 85] ++ hex 8 c.

Definition contains (c : Z) (s : pystr) : bool := existsb (Z.eqb c) s.

Definition repr_str (s : pystr) : pystr :=
  let quote := if contains 39 s && negb (contains 34 s) then 34 else 39 in
  [quote] ++ flat_map (repr_char quote) s ++ [quote].

Fixpoint join (sep : pystr) (l : list pystr) : pystr :=
  match l with
  | [] => []
  | [x] => x
  | x :: l' => x ++ sep ++ join sep l'
  end.

(** The elements of a list in turn, up to the first that raises. *)
Fixpoint map_result {A B : Type} (f : A -> result B) (l : list A) : result (list B) :=
  match l with
  | [] => Ok []
  | x :: l' => let* y := f x in let* ys := map_result f l' in Ok (y :: ys)
  end.

(** The greatest number of digits of an [int] that [str] converts
    ([sys.get_int_max_str_digits()]). *)
Definition max_str_digits : Z := 4300.

(** [repr(v)], with [budget] nested calls left to the interpreter: each
    [repr] takes one, and the [repr] of a list calls that of its
    elements. *)
Fixpoint py_repr (budget : nat) (v : pyval) : result pystr :=
  match budget with
  | O => Raise RecursionError
  | S budget' =>
      match v with
      | VNone => Ok (text "None")
      | VBool true => Ok (text "True")
      | VBool false => Ok (text "False")
      | VInt z =>
          if Z.abs z <? 10 ^ max_str_digits then Ok (text (pretty z))
          else Raise ValueError
      | VStr s => Ok (repr_str s)
      | VList l =>
          let* items := map_result (py_repr budget') l in
          Ok (text "[" ++ join (text ", ") items ++ text "]")
      end
  end.

(** [str(v)]: the string itself for a string, [repr] otherwise. *)
Definition py_str (budget : nat) (v : pyval) : result pystr :=
  match v with
  | VStr s => Ok s
  | _ => py_repr budget v
  end.

(** *** [str.strip] *)

Fixpoint lstrip (s : pystr) : pystr :=
  match s with
  | [] => []
  | c :: s' => if is_space c then lstrip s' else s
  end.

Fixpoint rstrip (s : pystr) : pystr :=
  match s with
  | [] => []
  | c :: s' =>
      match rstrip s' with
      | [] => if is_space c then [] else [c]
      | t => c :: t
      end
  end.

Definition strip (s : pystr) : pystr := rstrip (lstrip s).

(** *** [normalize_answer] *)

Definition normalize_answer (budget : nat) (ans : pyval) : result pystr :=
  if negb (py_truthy ans) then Ok []
  else
    let* ans := (if isinstance_list ans then py_getitem ans 0 else Ok ans) in
    let* ans := py_str budget ans in
    let ans := strip ans in
    match ans with
    | c :: _ => Ok (lower_char c)      (* [ans[0].lower()] *)
    | [] => Ok []
    end.

(** *** The words of the specification *)

(** Lower-casing a string, code point by code point, and its first
    character. *)
Definition spec_lower (s : pystr) : pystr := flat_map lower_char s.

Definition first_char (s : pystr) : pystr :=
  match s with
  | [] => []
  | c :: _ => [c]
  end.

(** The token as the specification words it: trim, lower-case, keep the
    first character. *)
Definition spec_token (s : pystr) : pystr := first_char (spec_lower (strip s)).

(** The nesting of a value, and whether all its integers have a string
    form. *)
Fixpoint depth (v : pyval) : nat :=
  match v with
  | VList l => S (fold_right (fun x d => Nat.max (depth x) d) 0%nat l)
  | _ => 1%nat
  end.

Fixpoint ints_convert (v : pyval) : bool :=
  match v with
  | VInt z => Z.abs z <? 10 ^ max_str_digits
  | VList l => forallb ints_convert l
  | _ => true
  end.

End Unicode.

(** A value of the restricted model as a value of [Unicode]. *)
Fixpoint unicode_of (v : pyval) : Unicode.pyval :=
  match v with
  | VNone => Unicode.VNone
  | VBool b => Unicode.VBool b
  | VInt z => Unicode.VInt z
  | VStr s => Unicode.VStr (Unicode.text s)
  | VList l => Unicode.VList (List.map unicode_of l)
  end.

(** What [normalize_answer] converts to a string: the first element of a
    list, any other value itself. *)
Definition converted (v : Unicode.pyval) : Unicode.pyval :=
  match v with
  | Unicode.VList (x :: _) => x
  | _ => v
  end.

(** A value that [str] converts with [budget] nested calls left: a string,
    or a value nested no deeper than the budget whose integers all have at
    most 4300 digits. *)
Definition has_str (budget : nat) (v : Unicode.pyval) : bool :=
  match v with
  | Unicode.VStr _ => true
  | _ => (Unicode.depth v <=? budget)%nat && Unicode.ints_convert v
  end.

(** [n] lists around a value. *)
Fixpoint nest (n : nat) (v : Unicode.pyval) : Unicode.pyval :=
  match n with
  | O => v
  | S n' => Unicode.VList [nest n' v]
  end.

(** The token of a stripped string in the code: its first character,
    lower-cased. *)
Definition token_of (s : Unicode.pystr) : Unicode.pystr :=
  match Unicode.strip s with
  | [] => []
  | c :: _ => Unicode.lower_char c
  end.
(** * Properties *)

(** ** The normalizer *)

Lemma first_char_lower (s : string) :
  first_char (lower s) = lower (first_char s).
Proof. destruct s; reflexivity. Qed.

(** The code computes the token of the specification, and never raises. *)
Lemma normalize_answer_spec (v : pyval) :
  normalize_answer v = Ok (spec_normalize v).
Proof.
  unfold normalize_answer, spec_normalize.
  destruct (py_truthy v) eqn:Htruthy; simpl; [|reflexivity].
  assert (Hfirst :
    (if isinstance_list v then py_getitem v 0 else Ok v)
    = Ok (match v with VList (x :: _) => x | _ => v end)).
  { destruct v as [| b | z | s | [| x l]]; simpl in *; try reflexivity; discriminate. }
  rewrite Hfirst; simpl.
  rewrite first_char_lower.
  destruct (strip _) as [| c s']; reflexivity.
Qed.

(** ** The loops *)

Lemma for_each_app {A S : Type} (body : S -> A -> result S) (l1 l2 : list A) (st : S) :
  for_each body (l1 ++ l2) st = let* st' := for_each body l1 st in for_each body l2 st'.
Proof.
  revert st; induction l1 as [| x l1 IH]; intros st; simpl; [reflexivity|].
  destruct (body st x); simpl; auto.
Qed.

(** Nested loops visit the flattened list. *)
Lemma for_each_flat_map {A B S : Type} (body : S -> B -> result S) (f : A -> list B)
    (l : list A) (st : S) :
  for_each (fun st x => for_each body (f x) st) l st = for_each body (flat_map f l) st.
Proof.
  revert st; induction l as [| x l IH]; intros st; simpl; [reflexivity|].
  rewrite for_each_app.
  destruct (for_each body (f x) st); simpl; auto.
Qed.

Lemma flat_map_nested {A B C : Type} (f : A -> list B) (g : B -> list C) (l : list A) :
  flat_map g (flat_map f l) = flat_map (fun x => flat_map g (f x)) l.
Proof.
  induction l as [| x l IH]; simpl; [reflexivity|].
  rewrite flat_map_app, IH. reflexivity.
Qed.

Lemma dict_contains_lookup (key : string) (answers : answers_t) :
  dict_contains key answers = match answers !! key with Some _ => true | None => false end.
Proof.
  unfold dict_contains.
  destruct (answers !! key) eqn:Hlookup.
  - apply bool_decide_eq_true. eauto.
  - apply bool_decide_eq_false. intros [v Hv]. discriminate.
Qed.

Ltac counters_eq := f_equal; f_equal; lia.

Section Loops.

Variable answers : answers_t.

(** One turn of the innermost loop: [total_questions] grows by one,
    [correct_count] by one exactly when the unit is counted as correct. *)
Lemma score_subq_spec (c t : Z) (subq : SubQuestion) :
  score_subq answers (c, t) subq
  = Ok (c + (if counted_correct answers subq then 1 else 0), t + 1).
Proof.
  unfold score_subq, counted_correct, unit_key.
  rewrite dict_contains_lookup. unfold dict_getitem.
  destruct (answers !! _) as [submitted|]; simpl.
  - rewrite !normalize_answer_spec; simpl.
    destruct (String.eqb _ _); [reflexivity | counters_eq].
  - counters_eq.
Qed.

Lemma for_each_score_subq (l : list SubQuestion) (c t : Z) :
  for_each (score_subq answers) l (c, t)
  = Ok (c + count_if (counted_correct answers) l, t + Z.of_nat (length l)).
Proof.
  revert c t; induction l as [| subq l IH]; intros c t.
  - simpl. counters_eq.
  - cbn [for_each]. rewrite score_subq_spec. cbn [bind]. rewrite IH.
    cbn [count_if length]. counters_eq.
Qed.

(** The counters at the end of the loops are [correct] and [total]. *)
Lemma count_answers_spec (exam : Exam) :
  count_answers exam answers = Ok (correct_units exam answers, total_units exam).
Proof.
  unfold count_answers, correct_units, total_units, leaf_units, question_units.
  destruct (String.eqb (section_type exam) "reading").
  - unfold score_passage, score_question.
    rewrite (for_each_flat_map (score_question answers) passage_questions).
    unfold score_question.
    rewrite (for_each_flat_map (score_subq answers) subquestions).
    rewrite for_each_score_subq, flat_map_nested. reflexivity.
  - destruct (String.eqb (section_type exam) "listening"); [|reflexivity].
    unfold score_audio, score_question.
    rewrite (for_each_flat_map (score_question answers) audio_questions).
    unfold score_question.
    rewrite (for_each_flat_map (score_subq answers) subquestions).
    rewrite for_each_score_subq, flat_map_nested. reflexivity.
Qed.

Lemma calculate_auto_score_counts (exam : Exam) :
  calculate_auto_score exam answers
  = band_of_counts (correct_units exam answers) (total_units exam).
Proof. unfold calculate_auto_score. rewrite count_answers_spec. reflexivity. Qed.

End Loops.

Lemma count_if_bounds {A : Type} (f : A -> bool) (l : list A) :
  0 <= count_if f l <= Z.of_nat (length l).
Proof. induction l as [| x l IH]; simpl; [lia|]. destruct (f x); lia. Qed.

(** ** Binary64 arithmetic: upper bounds on rounded results *)

Lemma pow2_pos (e : Z) : (0 < pow2 e)%Q.
Proof. apply Qpower_0_lt. reflexivity. Qed.

Lemma pow2_add (a b : Z) : (pow2 (a + b) == pow2 a * pow2 b)%Q.
Proof. apply Qpower_plus. discriminate. Qed.

Lemma pow2_inject (k : Z) : 0 <= k -> (pow2 k == inject_Z (2 ^ k))%Q.
Proof. intros Hk. unfold pow2. rewrite Zpower_Qpower by assumption. reflexivity. Qed.

Lemma pow2_le (a b : Z) : a <= b -> (pow2 a <= pow2 b)%Q.
Proof. intros Hab. apply Qpower_le_compat_l; [assumption | discriminate]. Qed.

Lemma pow2_lt_inv (a b : Z) : (pow2 a < pow2 b)%Q -> a < b.
Proof.
  intros Hlt. destruct (Z_lt_le_dec a b) as [|Hle]; [assumption|].
  apply pow2_le in Hle. lra.
Qed.

Lemma F2Q_le_mantissa (m m' e : Z) : m <= m' -> (F2Q m e <= F2Q m' e)%Q.
Proof.
  intros Hm. unfold F2Q. apply Qmult_le_compat_r.
  - rewrite <- Zle_Qle. assumption.
  - apply Qlt_le_weak, pow2_pos.
Qed.

(** Moving [k] low bits of the mantissa into the exponent does not
    increase the value. *)
Lemma F2Q_shift_le (m e k : Z) : 0 <= m -> 0 <= k -> (F2Q (m / 2 ^ k) (e + k) <= F2Q m e)%Q.
Proof.
  intros Hm Hk. unfold F2Q.
  rewrite pow2_add, (pow2_inject k Hk).
  assert (Hdiv : (m / 2 ^ k) * 2 ^ k <= m).
  { rewrite Z.mul_comm. apply Z.mul_div_le. apply Z.pow_pos_nonneg; lia. }
  rewrite Zle_Qle, inject_Z_mult in Hdiv.
  pose proof (pow2_pos e) as He.
  nra.
Qed.

Lemma digits2_pos_lower (p : positive) : 2 ^ (Zpos (digits2_pos p) - 1) <= Zpos p.
Proof.
  induction p as [p IH | p IH |]; simpl digits2_pos.
  - rewrite Pos2Z.inj_succ.
    replace (Z.succ (Zpos (digits2_pos p)) - 1) with (Z.succ (Zpos (digits2_pos p) - 1)) by lia.
    rewrite Z.pow_succ_r by lia. lia.
  - rewrite Pos2Z.inj_succ.
    replace (Z.succ (Zpos (digits2_pos p)) - 1) with (Z.succ (Zpos (digits2_pos p) - 1)) by lia.
    rewrite Z.pow_succ_r by lia. lia.
  - simpl. lia.
Qed.

Lemma digits2_pos_upper (p : positive) : Zpos p < 2 ^ Zpos (digits2_pos p).
Proof.
  induction p as [p IH | p IH |]; simpl digits2_pos.
  - rewrite Pos2Z.inj_succ, Z.pow_succ_r by lia. lia.
  - rewrite Pos2Z.inj_succ, Z.pow_succ_r by lia. lia.
  - simpl. lia.
Qed.

Lemma digits_bound (m : positive) (e B : Z) :
  (F2Q (Zpos m) e <= pow2 (B + 52))%Q -> Zdigits2 (Zpos m) + e <= B + 53.
Proof.
  intros Hval. cbn [Zdigits2].
  pose proof (digits2_pos_lower m) as Hdig.
  assert (Zpos (digits2_pos m) - 1 + e < B + 53); [|lia].
  apply pow2_lt_inv.
  apply Qle_lt_trans with (F2Q (Zpos m) e).
  - rewrite pow2_add. unfold F2Q. apply Qmult_le_compat_r.
    + rewrite pow2_inject by lia. rewrite <- Zle_Qle. assumption.
    + apply Qlt_le_weak, pow2_pos.
  - apply Qle_lt_trans with (pow2 (B + 52)); [assumption|].
    replace (B + 53) with (B + 52 + 1) by lia. rewrite (pow2_add (B + 52) 1).
    pose proof (pow2_pos (B + 52)). change (pow2 1) with 2%Q. lra.
Qed.

(** A value below [2^(B+52)] has its rounding exponent at most [B], or
    the exponent it already has. *)
Lemma fexp_bound (m e B : Z) :
  0 <= m -> -1074 <= B -> (F2Q m e <= pow2 (B + 52))%Q ->
  fexp prec emax (Zdigits2 m + e) <= Z.max e B.
Proof.
  intros Hm HB Hval.
  destruct m as [| p | p]; [unfold fexp, emin, prec, emax; simpl; lia | | lia].
  pose proof (digits_bound p e B Hval) as Hdig.
  unfold fexp, emin, prec, emax. lia.
Qed.

Lemma shr_1_m (mrs : shr_record) :
  0 <= shr_m mrs -> shr_m (shr_1 mrs) = shr_m mrs / 2.
Proof.
  destruct mrs as [m r s]; simpl. intros Hm.
  destruct m as [| [p | p |] | p]; try lia; simpl shr_m;
    rewrite <- Z.div2_div; reflexivity.
Qed.

Lemma shr_m_iter (p : positive) (mrs : shr_record) :
  0 <= shr_m mrs -> shr_m (SpecFloat.iter_pos shr_1 p mrs) = shr_m mrs / 2 ^ Zpos p.
Proof.
  revert mrs; induction p as [p IH | p IH |]; intros mrs Hm; cbn [SpecFloat.iter_pos].
  - pose proof (shr_1_m mrs Hm) as H1.
    assert (H1pos : 0 <= shr_m (shr_1 mrs)) by (rewrite H1; apply Z.div_pos; lia).
    pose proof (IH _ H1pos) as H2.
    assert (H2pos : 0 <= shr_m (SpecFloat.iter_pos shr_1 p (shr_1 mrs))).
    { rewrite H2. apply Z.div_pos; [assumption | apply Z.pow_pos_nonneg; lia]. }
    rewrite (IH _ H2pos), H2, H1.
    assert (Hpow : 0 < 2 ^ Zpos p) by (apply Z.pow_pos_nonneg; lia).
    rewrite !Z.div_div by lia.
    f_equal.
    assert (Zpos p~1 = 1 + Zpos p + Zpos p) as -> by lia.
    rewrite !Z.pow_add_r, Z.pow_1_r by lia. ring.
  - pose proof (IH _ Hm) as H2.
    assert (H2pos : 0 <= shr_m (SpecFloat.iter_pos shr_1 p mrs)).
    { rewrite H2. apply Z.div_pos; [assumption | apply Z.pow_pos_nonneg; lia]. }
    rewrite (IH _ H2pos), H2.
    assert (Hpow : 0 < 2 ^ Zpos p) by (apply Z.pow_pos_nonneg; lia).
    rewrite !Z.div_div by lia.
    f_equal.
    assert (Zpos p~0 = Zpos p + Zpos p) as -> by lia.
    rewrite Z.pow_add_r by lia. reflexivity.
  - rewrite shr_1_m by assumption. reflexivity.
Qed.

(** [shr] by [n] divides the mantissa by [2^n] and adds [n] to the
    exponent; it does nothing for [n <= 0]. *)
Lemma shr_spec (mrs : shr_record) (e n : Z) :
  0 <= shr_m mrs ->
  shr_m (fst (shr mrs e n)) = shr_m mrs / 2 ^ Z.max 0 n
  /\ snd (shr mrs e n) = e + Z.max 0 n.
Proof.
  intros Hm. destruct n as [| p | p]; simpl shr; cbn [fst snd].
  - rewrite Z.div_1_r. split; [reflexivity | lia].
  - rewrite shr_m_iter by assumption.
    replace (Z.max 0 (Zpos p)) with (Zpos p) by lia. split; reflexivity.
  - replace (Z.max 0 (Zneg p)) with 0 by lia.
    rewrite Z.div_1_r. split; [reflexivity | lia].
Qed.

Lemma shr_record_of_loc_m (m : Z) (l : location) : shr_m (shr_record_of_loc m l) = m.
Proof. destruct l as [| []]; reflexivity. Qed.

Lemma round_nearest_even_bounds (m : Z) (l : location) :
  m <= round_nearest_even m l <= m + 1.
Proof.
  unfold round_nearest_even. destruct l as [| []]; try lia.
  destruct (Z.even m); lia.
Qed.

Lemma F2Q_succ (m e : Z) : (F2Q (m + 1) e == F2Q m e + pow2 e)%Q.
Proof. unfold F2Q. rewrite inject_Z_plus. change (inject_Z 1) with 1%Q. ring. Qed.

(** The rounding step shared by all operations.  For a non-negative
    significand [mx] at exponent [ex], the result is a zero or a finite
    non-negative float that exceeds [mx * 2^ex] by at most one unit of the
    target exponent, and whose exponent is bounded through any power of two
    above that value. *)
Lemma binary_round_aux_bound (mx ex B : Z) (lx : location) (U : Q) :
  0 <= mx -> -1074 <= B -> Z.max ex B <= 971 ->
  (F2Q mx ex + pow2 (Z.max ex (fexp prec emax (Zdigits2 mx + ex))) <= U)%Q ->
  (U <= pow2 (B + 52))%Q ->
  binary_round_aux prec emax false mx ex lx = S754_zero false
  \/ exists m e, binary_round_aux prec emax false mx ex lx = S754_finite false m e
       /\ (F2Q (Zpos m) e <= U)%Q /\ e <= Z.max ex B.
Proof.
  intros Hmx HB Hmax HU HUB.
  unfold binary_round_aux, shr_fexp.
  set (k1 := fexp prec emax (Zdigits2 mx + ex) - ex).
  pose proof (shr_spec (shr_record_of_loc mx lx) ex k1) as Hs1.
  rewrite shr_record_of_loc_m in Hs1. specialize (Hs1 Hmx).
  destruct (shr (shr_record_of_loc mx lx) ex k1) as [mrs1 e1].
  cbn [fst snd] in Hs1. destruct Hs1 as [Hm1 He1].
  set (m2 := round_nearest_even (shr_m mrs1) (loc_of_shr_record mrs1)).
  pose proof (round_nearest_even_bounds (shr_m mrs1) (loc_of_shr_record mrs1)) as Hm2.
  fold m2 in Hm2.
  assert (Hm1pos : 0 <= shr_m mrs1).
  { rewrite Hm1. apply Z.div_pos; [assumption | apply Z.pow_pos_nonneg; lia]. }
  assert (Hm2pos : 0 <= m2) by lia.
  set (k2 := fexp prec emax (Zdigits2 m2 + e1) - e1).
  pose proof (shr_spec (shr_record_of_loc m2 loc_Exact) e1 k2) as Hs2.
  rewrite shr_record_of_loc_m in Hs2. specialize (Hs2 Hm2pos).
  destruct (shr (shr_record_of_loc m2 loc_Exact) e1 k2) as [mrs3 e3].
  cbn [fst snd] in Hs2. destruct Hs2 as [Hm3 He3].
  (* values *)
  assert (He1' : e1 = Z.max ex (fexp prec emax (Zdigits2 mx + ex))) by (subst k1; lia).
  assert (Hv1 : (F2Q (shr_m mrs1) e1 <= F2Q mx ex)%Q).
  { rewrite Hm1, He1. apply F2Q_shift_le; lia. }
  assert (Hv2 : (F2Q m2 e1 <= U)%Q).
  { apply Qle_trans with (F2Q (shr_m mrs1 + 1) e1).
    - apply F2Q_le_mantissa; lia.
    - rewrite F2Q_succ. rewrite <- He1' in HU. lra. }
  assert (Hv3 : (F2Q (shr_m mrs3) e3 <= F2Q m2 e1)%Q).
  { rewrite Hm3, He3. apply F2Q_shift_le; lia. }
  (* exponents *)
  assert (Hvx : (F2Q mx ex <= pow2 (B + 52))%Q).
  { pose proof (pow2_pos (Z.max ex (fexp prec emax (Zdigits2 mx + ex)))). lra. }
  pose proof (fexp_bound mx ex B Hmx HB Hvx) as Hf1.
  assert (Hv2' : (F2Q m2 e1 <= pow2 (B + 52))%Q) by lra.
  pose proof (fexp_bound m2 e1 B Hm2pos HB Hv2') as Hf2.
  assert (He3' : e3 <= Z.max ex B) by (subst k2; lia).
  assert (Hm3pos : 0 <= shr_m mrs3).
  { rewrite Hm3. apply Z.div_pos; [assumption | apply Z.pow_pos_nonneg; lia]. }
  destruct (shr_m mrs3) as [| m3 | m3] eqn:Hm3eq; [left; reflexivity | | lia].
  right. exists m3, e3.
  replace (e3 <=? emax - prec) with true
    by (symmetry; apply Z.leb_le; unfold emax, prec; lia).
  split; [reflexivity|]. split; [lra | assumption].
Qed.

Lemma F2Q_mul (m1 e1 m2 e2 : Z) :
  (F2Q (m1 * m2) (e1 + e2) == F2Q m1 e1 * F2Q m2 e2)%Q.
Proof. unfold F2Q. rewrite inject_Z_mult, pow2_add. ring. Qed.

Lemma F2Q_pos (m : positive) (e : Z) : (0 < F2Q (Zpos m) e)%Q.
Proof.
  unfold F2Q. apply Qmult_lt_0_compat; [|apply pow2_pos].
  change 0%Q with (inject_Z 0). rewrite <- Zlt_Qlt. lia.
Qed.

(** The quotient significand of the division: it does not exceed the exact
    quotient, and its exponent is the rounding exponent of the quotient's
    magnitude or less. *)
Lemma SFdiv_core_binary_bound (m1 m2 : positive) (e1 e2 q e' : Z) (l : location) :
  SFdiv_core_binary prec emax (Zpos m1) e1 (Zpos m2) e2 = (q, e', l) ->
  0 <= q
  /\ (F2Q q e' * F2Q (Zpos m2) e2 <= F2Q (Zpos m1) e1)%Q
  /\ e' <= fexp prec emax (Zdigits2 (Zpos m1) + e1 - (Zdigits2 (Zpos m2) + e2)).
Proof.
  unfold SFdiv_core_binary.
  set (D := Zdigits2 (Zpos m1) + e1 - (Zdigits2 (Zpos m2) + e2)).
  set (ez := Z.min (fexp prec emax D) (e1 - e2)).
  set (s := e1 - e2 - ez).
  assert (Hs : 0 <= s) by (subst s ez; lia).
  set (m' := match s with Zpos _ => Z.shiftl (Zpos m1) s | Z0 => Zpos m1 | Zneg _ => 0 end).
  assert (Hm' : m' = Zpos m1 * 2 ^ s).
  { subst m'. destruct s as [| ps | ps]; [rewrite Z.pow_0_r; lia | | lia].
    apply Z.shiftl_mul_pow2. lia. }
  pose proof (Z_div_mod m' (Zpos m2) ltac:(lia)) as Hdm.
  destruct (Z.div_eucl m' (Zpos m2)) as [q0 r0]. destruct Hdm as [Hdm Hr].
  intros Heq. injection Heq as <- <- _.
  assert (Hpow : 0 < 2 ^ s) by (apply Z.pow_pos_nonneg; lia).
  assert (Hq0 : 0 <= q0) by nia.
  assert (Hqm : q0 * Zpos m2 <= Zpos m1 * 2 ^ s) by nia.
  split; [assumption|]. split; [|subst ez; lia].
  unfold F2Q.
  rewrite Zle_Qle, !inject_Z_mult, <- (pow2_inject s Hs) in Hqm.
  assert (He1 : (pow2 e1 == pow2 s * pow2 ez * pow2 e2)%Q).
  { rewrite <- !pow2_add. replace (s + ez + e2) with e1 by (subst s; lia). reflexivity. }
  rewrite He1.
  pose proof (pow2_pos ez) as Hez. pose proof (pow2_pos e2) as He2.
  assert (Hp : (0 < pow2 ez * pow2 e2)%Q) by nra.
  set (X := (pow2 ez * pow2 e2)%Q) in *.
  setoid_replace (inject_Z q0 * pow2 ez * (inject_Z (Zpos m2) * pow2 e2))%Q
    with ((inject_Z q0 * inject_Z (Zpos m2)) * X)%Q using relation Qeq by (subst X; ring).
  setoid_replace (inject_Z (Zpos m1) * (pow2 s * pow2 ez * pow2 e2))%Q
    with ((inject_Z (Zpos m1) * pow2 s) * X)%Q using relation Qeq by (subst X; ring).
  apply Qmult_le_compat_r; [assumption | lra].
Qed.

Lemma fexp_le (D B : Z) : D <= B + 53 -> -1074 <= B -> fexp prec emax D <= B.
Proof. unfold fexp, emin, prec, emax. lia. Qed.

(** Division of two positive finite floats, when the quotient plus one unit
    of exponent [B] stays below [U]. *)
Lemma SFdiv_bound (m1 m2 : positive) (e1 e2 B : Z) (U : Q) :
  -1074 <= B -> B <= 971 ->
  Zdigits2 (Zpos m1) + e1 - (Zdigits2 (Zpos m2) + e2) <= B + 53 ->
  (F2Q (Zpos m1) e1 + pow2 B * F2Q (Zpos m2) e2 <= U * F2Q (Zpos m2) e2)%Q ->
  (U <= pow2 (B + 52))%Q ->
  bounded_float U B (SFdiv prec emax (S754_finite false m1 e1) (S754_finite false m2 e2)).
Proof.
  intros HB HB' HD HU HUB. unfold SFdiv.
  destruct (SFdiv_core_binary prec emax (Zpos m1) e1 (Zpos m2) e2) as [[q ez] l] eqn:Hcore.
  apply SFdiv_core_binary_bound in Hcore as (Hq & Hval & Hez).
  pose proof (fexp_le _ _ HD HB) as Hf.
  pose proof (F2Q_pos m2 e2) as Hv2.
  pose proof (pow2_pos B) as HpB.
  assert (HqU : (F2Q q ez + pow2 B <= U)%Q).
  { apply Qmult_le_r with (z := F2Q (Zpos m2) e2); [assumption|]. nra. }
  assert (HqB : (F2Q q ez <= pow2 (B + 52))%Q) by lra.
  pose proof (fexp_bound q ez B Hq HB HqB) as Hfq.
  cbn [xorb].
  destruct (binary_round_aux_bound q ez B l U) as [Hz | (m & e & Hr & Hv & He)];
    try assumption; try lia.
  - apply Qle_trans with (F2Q q ez + pow2 B)%Q; [|assumption].
    apply Qplus_le_r. apply pow2_le. lia.
  - left; assumption.
  - right. exists m, e. split; [assumption|]. split; [assumption | lia].
Qed.

(** Multiplication of a bounded float by a positive finite one. *)
Lemma SFmul_bound (x : spec_float) (my : positive) (ey E B : Z) (V U : Q) :
  bounded_float V E x ->
  -1074 <= B -> Z.max (E + ey) B <= 971 ->
  (V * F2Q (Zpos my) ey + pow2 (Z.max (E + ey) B) <= U)%Q ->
  (U <= pow2 (B + 52))%Q ->
  bounded_float U (Z.max (E + ey) B) (float_mul x (S754_finite false my ey)).
Proof.
  intros [-> | (mx & ex & -> & Hv & He)] HB Hmax HU HUB; [left; reflexivity|].
  unfold float_mul, SFmul. cbn [xorb].
  pose proof (F2Q_pos my ey) as Hvy. pose proof (F2Q_pos mx ex) as Hvx.
  assert (Hprod : (F2Q (Zpos (mx * my)) (ex + ey) <= V * F2Q (Zpos my) ey)%Q).
  { rewrite Pos2Z.inj_mul, F2Q_mul. apply Qmult_le_compat_r; [assumption | lra]. }
  pose proof (pow2_pos (Z.max (E + ey) B)) as Hp.
  assert (HvB : (F2Q (Zpos (mx * my)) (ex + ey) <= pow2 (B + 52))%Q) by lra.
  pose proof (fexp_bound (Zpos (mx * my)) (ex + ey) B ltac:(lia) HB HvB) as Hf.
  destruct (binary_round_aux_bound (Zpos (mx * my)) (ex + ey) B loc_Exact U)
    as [Hz | (m & e & Hr & Hv' & He')]; try assumption; try lia.
  - apply Qle_trans with (V * F2Q (Zpos my) ey + pow2 (Z.max (E + ey) B))%Q; [|assumption].
    apply Qplus_le_compat; [assumption|]. apply pow2_le. lia.
  - left; assumption.
  - right. exists m, e. split; [assumption|]. split; [assumption | lia].
Qed.

Lemma digits2_pos_le (p q : positive) :
  Zpos p <= Zpos q -> Zpos (digits2_pos p) <= Zpos (digits2_pos q).
Proof.
  intros Hpq.
  pose proof (digits2_pos_lower p) as Hp. pose proof (digits2_pos_upper q) as Hq.
  assert (Hlt : 2 ^ (Zpos (digits2_pos p) - 1) < 2 ^ Zpos (digits2_pos q)) by lia.
  apply Z.pow_lt_mono_r_iff in Hlt; lia.
Qed.

Lemma F2Q_0 (m : Z) : (F2Q m 0 == inject_Z m)%Q.
Proof. unfold F2Q. change (pow2 0) with 1%Q. ring. Qed.

(** ** The band of two counters *)

(** [correct_count / total_questions] is a float between 0 and 1 (up to one
    rounding). *)
Lemma int_truediv_ratio (c t : Z) :
  0 <= c <= t -> 0 < t ->
  exists x, int_truediv c t = Ok x /\ bounded_float (1001 # 1000) (-51) x.
Proof.
  intros Hc Ht. unfold int_truediv.
  destruct t as [| pt | pt]; try lia. cbn [Z.eqb Z.ltb Z.compare].
  destruct c as [| pc | pc]; try lia.
  - eexists; split; [reflexivity | left; reflexivity].
  - change (Z.to_pos (Z.abs (Zpos pc))) with pc.
    change (Z.to_pos (Z.abs (Zpos pt))) with pt.
    change (Zpos pc <? 0) with false.
    assert (Hb : bounded_float (1001 # 1000) (-51)
              (SFdiv prec emax (S754_finite false pc 0) (S754_finite false pt 0))).
    { apply SFdiv_bound; try lia.
      - cbn [Zdigits2]. pose proof (digits2_pos_le pc pt). lia.
      - rewrite !F2Q_0.
        assert (Hp : (pow2 (-51) == 1 # 2251799813685248)%Q) by reflexivity.
        rewrite Hp.
        assert (H1 : (inject_Z (Zpos pc) <= inject_Z (Zpos pt))%Q) by (rewrite <- Zle_Qle; lia).
        assert (H2 : (1 <= inject_Z (Zpos pt))%Q).
        { change 1%Q with (inject_Z 1). rewrite <- Zle_Qle. lia. }
        lra.
      - vm_compute. discriminate. }
    destruct Hb as [Hz | (m & e & Hr & Hv & He)].
    + rewrite Hz. eexists; split; [reflexivity | left; reflexivity].
    + rewrite Hr. eexists; split; [reflexivity|].
      right. exists m, e. auto.
Qed.

Lemma round_half_even_bound (m : positive) (e : Z) :
  (F2Q (Zpos m) e <= 2007 # 100)%Q -> 0 <= round_half_even (Zpos m) e <= 20.
Proof.
  intros Hv. unfold round_half_even.
  destruct e as [| k | k].
  - rewrite F2Q_0 in Hv.
    assert (Hz : 100 * Zpos m <= 2007).
    { rewrite Zle_Qle, inject_Z_mult. change (inject_Z 100) with 100%Q.
      change (inject_Z 2007) with 2007%Q. lra. }
    rewrite Z.pow_0_r. lia.
  - unfold F2Q in Hv. rewrite pow2_inject, <- inject_Z_mult in Hv by lia.
    assert (Hz : 100 * (Zpos m * 2 ^ Zpos k) <= 2007).
    { rewrite Zle_Qle, inject_Z_mult. change (inject_Z 100) with 100%Q.
      change (inject_Z 2007) with 2007%Q. lra. }
    assert (0 < 2 ^ Zpos k) by (apply Z.pow_pos_nonneg; lia).
    nia.
  - change (Z.pow_pos 2 k) with (2 ^ Zpos k).
    set (d := 2 ^ Zpos k).
    assert (Hd : 0 < d) by (apply Z.pow_pos_nonneg; lia).
    assert (Hz : 100 * Zpos m <= 2007 * d).
    { unfold F2Q in Hv.
      assert (Hinv : (pow2 (Zneg k) * inject_Z d == 1)%Q).
      { subst d. rewrite <- pow2_inject, <- pow2_add by lia.
        replace (Zneg k + Zpos k) with 0 by lia. reflexivity. }
      assert (Hdq : (0 < inject_Z d)%Q).
      { change 0%Q with (inject_Z 0). rewrite <- Zlt_Qlt. assumption. }
      pose proof (pow2_pos (Zneg k)) as Hp.
      rewrite Zle_Qle, !inject_Z_mult. change (inject_Z 100) with 100%Q.
      change (inject_Z 2007) with 2007%Q.
      nra. }
    pose proof (Z.div_mod (Zpos m) d ltac:(lia)) as Hdm.
    pose proof (Z.mod_pos_bound (Zpos m) d Hd) as Hr.
    assert (Hq : 0 <= Zpos m / d) by (apply Z.div_pos; lia).
    destruct (2 * (Zpos m mod d) ?= d) eqn:Hcmp.
    + apply Z.compare_eq in Hcmp. destruct (Z.even (Zpos m / d)); nia.
    + nia.
    + apply Z.compare_gt_iff in Hcmp. nia.
Qed.

(** A property of the integers 0 .. 20 is checked on each of them. *)
Lemma up_to_20 (P : Z -> Prop) :
  (forall i : nat, (i <= 20)%nat -> P (Z.of_nat i)) -> forall z, 0 <= z <= 20 -> P z.
Proof.
  intros H z Hz. rewrite <- (Z2Nat.id z) by lia. apply H. lia.
Qed.

(** From a doubled band between 0 and 20 to the clamped band. *)
Lemma band_of_doubled (n : Z) :
  0 <= n <= 20 ->
  (let* band := int_truediv n 2 in Ok (py_min band nine)) = Ok (half_band (Z.min n 18)).
Proof.
  intros Hn. revert n Hn. apply up_to_20.
  intros i Hi. do 21 (destruct i as [| i]; [vm_compute; reflexivity|]). lia.
Qed.

(** The doubled band: an integer between 0 and 20. *)
Lemma doubled_band_bounds (c t : Z) :
  0 <= c <= t -> 0 < t ->
  exists ratio raw_band n,
    int_truediv c t = Ok ratio
    /\ float_truediv (float_mul ratio (float_of_int 100)) (float_of_int 10) = Ok raw_band
    /\ py_round (float_mul raw_band (float_of_int 2)) = Ok n
    /\ 0 <= n <= 20.
Proof.
  intros Hc Ht.
  destruct (int_truediv_ratio c t Hc Ht) as (ratio & Hratio & Hb1).
  exists ratio.
  (* percentage *)
  change (float_of_int 100) with (S754_finite false 7036874417766400 (-46)).
  assert (Hb2 : bounded_float (1002 # 10) (-45)
            (float_mul ratio (S754_finite false 7036874417766400 (-46)))).
  { change (-45) with (Z.max (-51 + -46) (-45)).
    apply SFmul_bound with (V := 1001 # 1000); try assumption; try lia.
    - vm_compute. discriminate.
    - vm_compute. discriminate. }
  set (percentage := float_mul ratio _) in *.
  (* raw_band *)
  change (float_of_int 10) with (S754_finite false 5629499534213120 (-49)).
  assert (Hb3 : bounded_float (1003 # 100) (-48)
            (SFdiv prec emax percentage (S754_finite false 5629499534213120 (-49)))).
  { destruct Hb2 as [-> | (m & e & -> & Hv & He)]; [left; reflexivity|].
    assert (Hdig : Zdigits2 (Zpos m) + e <= -45 + 53).
    { apply digits_bound. apply Qle_trans with (1002 # 10); [assumption|].
      vm_compute. discriminate. }
    apply SFdiv_bound; try lia.
    - change (Zdigits2 (Zpos 5629499534213120)) with 53. lia.
    - assert (Hten : (F2Q (Zpos 5629499534213120) (-49) == 10)%Q) by reflexivity.
      assert (Hp : (pow2 (-48) == 1 # 281474976710656)%Q) by reflexivity.
      rewrite Hten, Hp. lra.
    - vm_compute. discriminate. }
  exists (SFdiv prec emax percentage (S754_finite false 5629499534213120 (-49))).
  set (raw_band := SFdiv prec emax percentage _) in *.
  (* doubled *)
  change (float_of_int 2) with (S754_finite false 4503599627370496 (-51)).
  assert (Hb4 : bounded_float (2007 # 100) (-47)
            (float_mul raw_band (S754_finite false 4503599627370496 (-51)))).
  { change (-47) with (Z.max (-48 + -51) (-47)).
    apply SFmul_bound with (V := 1003 # 100); try assumption; try lia.
    - vm_compute. discriminate.
    - vm_compute. discriminate. }
  destruct Hb4 as [Hz | (m & e & Hr & Hv & He)].
  - exists 0. rewrite Hz. repeat split; try reflexivity; try assumption; lia.
  - exists (round_half_even (Zpos m) e). rewrite Hr.
    repeat split; try reflexivity; try assumption;
      apply round_half_even_bound; assumption.
Qed.

(** Every pair of counters the loops can produce has a band, one of
    [0.0, 0.5, ..., 9.0]. *)
Lemma band_of_counts_range (c t : Z) :
  0 <= c <= t ->
  exists k, 0 <= k <= 18 /\ band_of_counts c t = Ok (half_band k).
Proof.
  intros Hc. unfold band_of_counts.
  destruct (t =? 0) eqn:Ht0.
  - exists 0. split; [lia | reflexivity].
  - apply Z.eqb_neq in Ht0.
    destruct (doubled_band_bounds c t Hc ltac:(lia)) as (ratio & raw & n & H1 & H2 & H3 & Hn).
    unfold band_before_clamp.
    rewrite H1. cbn [bind]. rewrite H2. cbn [bind]. rewrite H3. cbn [bind].
    exists (Z.min n 18). split; [lia|]. apply band_of_doubled. assumption.
Qed.

(** The bands are what their names say. *)
Lemma half_band_value (k : Z) :
  0 <= k <= 20 ->
  is_finite_float (half_band k) = true /\ (float_value (half_band k) == inject_Z k / 2)%Q.
Proof.
  intros Hk. revert k Hk. apply up_to_20.
  intros i Hi. do 21 (destruct i as [| i]; [split; reflexivity|]). lia.
Qed.

Lemma div_eucl_mul (a b : Z) : 0 < b -> Z.div_eucl (a * b) b = (a, 0).
Proof.
  intros Hb.
  pose proof (Z.div_mul a b ltac:(lia)) as Hq.
  pose proof (Z.mod_mul a b ltac:(lia)) as Hr.
  unfold Z.div, Z.modulo in Hq, Hr.
  destruct (Z.div_eucl (a * b) b) as [q r]. congruence.
Qed.

(** A count divided by itself is exactly [1.0]. *)
Lemma int_truediv_self (t : Z) :
  0 < t -> int_truediv t t = Ok (S754_finite false 4503599627370496 (-52)).
Proof.
  intros Ht. destruct t as [| p | p]; try lia.
  unfold int_truediv. cbn [Z.eqb].
  change (Z.to_pos (Z.abs (Zpos p))) with p. change (Zpos p <? 0) with false.
  unfold SFdiv, SFdiv_core_binary.
  replace (Zdigits2 (Zpos p) + 0 - (Zdigits2 (Zpos p) + 0)) with 0 by lia.
  change (Z.min (fexp prec emax 0) (0 - 0)) with (-53).
  change (0 - 0 - -53) with 53. cbv iota.
  rewrite Z.shiftl_mul_pow2 by lia.
  rewrite (Z.mul_comm (Zpos p)), div_eucl_mul by lia.
  assert (Hloc : new_location (Zpos p) 0 = loc_Exact).
  { unfold new_location. destruct (Z.even (Zpos p)); reflexivity. }
  rewrite Hloc. vm_compute. reflexivity.
Qed.

(** With every unit correct the band before the clamp is 10.0, and the
    clamp brings it to 9.0. *)
Lemma band_all_correct (t : Z) :
  0 < t -> band_before_clamp t t = Ok (half_band 20) /\ band_of_counts t t = Ok nine.
Proof.
  intros Ht. unfold band_of_counts, band_before_clamp.
  replace (t =? 0) with false by (symmetry; apply Z.eqb_neq; lia).
  rewrite int_truediv_self by assumption.
  split; vm_compute; reflexivity.
Qed.

Lemma count_if_all {A : Type} (f : A -> bool) (l : list A) :
  Forall (fun x => f x = true) l -> count_if f l = Z.of_nat (length l).
Proof.
  induction 1 as [| x l Hx _ IH]; [reflexivity|].
  cbn [count_if length]. rewrite Hx, IH. lia.
Qed.

Lemma correct_units_bounds (exam : Exam) (answers : answers_t) :
  0 <= correct_units exam answers <= total_units exam.
Proof. apply count_if_bounds. Qed.

(** * The claims *)

(** C1 (defect in the code).  The claim gives the score as
    [min(round(((100 * correct / total) / 10) * 2) / 2, 9.0)].  On the exam
    of forty units of which the submission gets twenty-three right the loops
    count [correct = 23] and [total = 40]; the doubled band is exactly
    [20 * 23 / 40 = 23 / 2], which rounds to 12, and the formula of the
    claim yields 6.0; the code, which computes [(correct / total) * 100] in
    binary64, yields 5.5. *)
Theorem C1_band_23_of_40 :
  total_units exam40 = 40
  /\ correct_units exam40 answers23 = 23
  /\ round_half_even 23 (-1) = 12
  /\ returns_band (spec_band_of_counts 23 40) 6
  /\ returns_band (calculate_auto_score exam40 answers23) (11 # 2).
Proof.
  split; [reflexivity|]. split; [vm_compute; reflexivity|].
  split; [reflexivity|].
  split.
  - eexists. split; [vm_compute; reflexivity|]. split; reflexivity.
  - eexists. split; [vm_compute; reflexivity|]. split; reflexivity.
Qed.

(** C2.  For every exam and every answer mapping the score is a finite
    float whose value lies in [0, 9] and is an integer multiple of 1/2. *)
Theorem C2_score_range (exam : Exam) (answers : answers_t) :
  exists score,
    calculate_auto_score exam answers = Ok score
    /\ is_finite_float score = true
    /\ (0 <= float_value score <= 9)%Q
    /\ exists k : Z, (float_value score == inject_Z k * (1 # 2))%Q.
Proof.
  rewrite calculate_auto_score_counts.
  destruct (band_of_counts_range _ _ (correct_units_bounds exam answers))
    as (k & Hk & Hband).
  exists (half_band k). split; [assumption|].
  destruct (half_band_value k ltac:(lia)) as [Hfin Hval].
  split; [assumption|].
  assert (Hk0 : (0 <= inject_Z k)%Q) by (change 0%Q with (inject_Z 0); rewrite <- Zle_Qle; lia).
  assert (Hk18 : (inject_Z k <= 18)%Q) by (change 18%Q with (inject_Z 18); rewrite <- Zle_Qle; lia).
  split.
  - rewrite Hval. split; [apply Qle_shift_div_l | apply Qle_shift_div_r]; lra.
  - exists k. rewrite Hval. field.
Qed.

(** C3.  On a well-typed exam and answer mapping the scorer returns a
    score and raises nothing; a unit whose key is missing from the mapping
    only advances [total_questions]. *)
Theorem C3_no_exception (exam : Exam) (answers : answers_t) :
  well_typed_exam exam ->
  well_typed_answers answers ->
  (exists score, calculate_auto_score exam answers = Ok score)
  /\ (forall subq c t,
        In subq (leaf_units exam) ->
        answers !! unit_key subq = None ->
        score_subq answers (c, t) subq = Ok (c, t + 1)).
Proof.
  intros _ _. split.
  - rewrite calculate_auto_score_counts.
    destruct (band_of_counts_range _ _ (correct_units_bounds exam answers))
      as (k & _ & Hband).
    eauto.
  - intros subq c t _ Hmissing.
    rewrite score_subq_spec. unfold counted_correct. rewrite Hmissing.
    counters_eq.
Qed.

Lemma C3_no_exception_witness :
  (exists score, calculate_auto_score exam3 answers3_one = Ok score)
  /\ (forall subq c t,
        In subq (leaf_units exam3) ->
        answers3_one !! unit_key subq = None ->
        score_subq answers3_one (c, t) subq = Ok (c, t + 1)).
Proof.
  apply (C3_no_exception exam3 answers3_one).
  - repeat constructor.
  - unfold well_typed_answers, answers3_one.
    repeat (apply map_Forall_insert_2; [reflexivity|]).
    apply map_Forall_empty.
Defined.

(** C4.  With three leaf units, one counted correct gives 3.5 and two
    counted correct give 6.5. *)
Theorem C4_thirds (exam : Exam) (answers1 answers2 : answers_t) :
  total_units exam = 3 ->
  correct_units exam answers1 = 1 ->
  correct_units exam answers2 = 2 ->
  returns_band (calculate_auto_score exam answers1) (7 # 2)
  /\ returns_band (calculate_auto_score exam answers2) (13 # 2).
Proof.
  intros Htotal Hone Htwo.
  rewrite !calculate_auto_score_counts, Htotal, Hone, Htwo.
  split; eexists; (split; [vm_compute; reflexivity|]); split; reflexivity.
Qed.

Lemma C4_thirds_witness :
  returns_band (calculate_auto_score exam3 answers3_one) (7 # 2)
  /\ returns_band (calculate_auto_score exam3 answers3_two) (13 # 2).
Proof.
  apply (C4_thirds exam3 answers3_one answers3_two); vm_compute; reflexivity.
Defined.

(** C5.  An exam without leaf units scores 0.0, whatever the answers. *)
Theorem C5_zero_units (exam : Exam) (answers : answers_t) :
  leaf_units exam = [] ->
  calculate_auto_score exam answers = Ok zero.
Proof.
  intros Hempty.
  rewrite calculate_auto_score_counts.
  unfold correct_units, total_units. rewrite Hempty. reflexivity.
Qed.

Lemma C5_zero_units_witness :
  calculate_auto_score empty_exam answers23 = Ok zero.
Proof.
  apply (C5_zero_units empty_exam answers23). reflexivity.
Defined.

(** C6 (as stated: the normalizer raises on a sequence with zero
    elements).  It does not: the emptiness test comes first and the call
    returns the empty token. *)
Lemma C6_counterexample :
  normalize_answer (VList []) = Ok ""%string
  /\ forall e, normalize_answer (VList []) <> Raise e.
Proof. split; [reflexivity | discriminate]. Qed.

(** C6 (amended).  A sequence with zero elements normalizes to the empty
    token; a sequence is indexed only when it has a first element, whose
    string form is then trimmed, cut to its first character and
    lower-cased. *)
Theorem C6_sequence_token (l : list pyval) :
  normalize_answer (VList l)
  = Ok match l with
       | [] => ""%string
       | x :: _ => first_char (lower (strip (py_str x)))
       end.
Proof. rewrite normalize_answer_spec. destruct l; reflexivity. Qed.

(** C8 (as stated: every exam whose units are all answered correctly
    scores 9.0, the clamp being inactive).  The exam without units meets
    the condition and scores 0.0; and with one unit answered correctly the
    band before the clamp is 10.0. *)
Lemma C8_counterexample :
  Forall (fun subq => counted_correct ∅ subq = true) (leaf_units empty_exam)
  /\ ~ returns_band (calculate_auto_score empty_exam ∅) 9
  /\ Forall (fun subq => counted_correct answers3_all subq = true)
       (leaf_units (reading_exam [unit_of 1 "A"]))
  /\ returns_band
       (band_before_clamp (correct_units (reading_exam [unit_of 1 "A"]) answers3_all)
                          (total_units (reading_exam [unit_of 1 "A"]))) 10.
Proof.
  split; [constructor|]. split.
  - intros (x & Hx & _ & Hv). vm_compute in Hx. injection Hx as <-. discriminate.
  - split; [repeat constructor|].
    eexists. split; [vm_compute; reflexivity|]. split; reflexivity.
Qed.

(** C8 (amended).  Every exam with at least one leaf unit whose units are
    all counted correct scores 9.0: the band before the clamp is 10.0 and
    the clamp lowers it to 9.0. *)
Theorem C8_all_correct (exam : Exam) (answers : answers_t) :
  leaf_units exam <> [] ->
  Forall (fun subq => counted_correct answers subq = true) (leaf_units exam) ->
  returns_band (calculate_auto_score exam answers) 9
  /\ returns_band (band_before_clamp (correct_units exam answers) (total_units exam)) 10.
Proof.
  intros Hunits Hall.
  rewrite calculate_auto_score_counts.
  unfold correct_units. rewrite (count_if_all _ _ Hall). fold (total_units exam).
  assert (Ht : 0 < total_units exam).
  { unfold total_units. destruct (leaf_units exam); [congruence | cbn [length]; lia]. }
  destruct (band_all_correct _ Ht) as [Hbefore Hband].
  rewrite Hbefore, Hband. split.
  - exists nine. repeat split; reflexivity.
  - exists (half_band 20). repeat split; reflexivity.
Qed.

Lemma C8_all_correct_witness :
  returns_band (calculate_auto_score exam3 answers3_all) 9
  /\ returns_band
       (band_before_clamp (correct_units exam3 answers3_all) (total_units exam3)) 10.
Proof.
  apply (C8_all_correct exam3 answers3_all).
  - discriminate.
  - repeat constructor.
Defined.

Lemma count_if_app {A : Type} (f : A -> bool) (l1 l2 : list A) :
  count_if f (l1 ++ l2) = count_if f l1 + count_if f l2.
Proof. induction l1 as [| x l1 IH]; cbn [count_if app]; [reflexivity | lia]. Qed.

(** C9.  A leaf unit whose [correct_answer] normalizes to the empty token
    adds one to [correct_count] exactly when its key is in the mapping with
    a value that normalizes to the empty token as well, and one to
    [total_questions] in any case: the loops reach the unit with the
    counters of the units before it, its turn adds that much, the units
    after it add theirs, and the two counters at the end are those from
    which [calculate_auto_score] computes the band. *)
Theorem C9_blank_correct_answer (exam : Exam) (answers : answers_t) (subq : SubQuestion)
    (before after : list SubQuestion) :
  leaf_units exam = before ++ subq :: after ->
  normalize_answer (correct_answer subq) = Ok ""%string ->
  exists (c t : Z) (counted : bool) (correct total : Z),
    for_each (score_subq answers) before (0, 0) = Ok (c, t)
    /\ score_subq answers (c, t) subq = Ok (c + (if counted then 1 else 0), t + 1)
    /\ (counted = true
        <-> exists submitted,
              answers !! unit_key subq = Some submitted
              /\ normalize_answer submitted = Ok ""%string)
    /\ for_each (score_subq answers) after (c + (if counted then 1 else 0), t + 1)
       = Ok (correct, total)
    /\ count_answers exam answers = Ok (correct, total)
    /\ calculate_auto_score exam answers = band_of_counts correct total
    /\ correct = c + (if counted then 1 else 0) + count_if (counted_correct answers) after
    /\ total = t + 1 + Z.of_nat (length after).
Proof.
  intros Hunits Hblank.
  rewrite normalize_answer_spec in Hblank. injection Hblank as Hblank.
  exists (count_if (counted_correct answers) before), (Z.of_nat (length before)),
    (counted_correct answers subq).
  eexists. eexists.
  split; [rewrite for_each_score_subq; counters_eq|].
  split; [apply score_subq_spec|].
  split.
  { unfold counted_correct. rewrite Hblank.
    destruct (answers !! unit_key subq) as [submitted|].
    - split.
      + intros Heq. apply String.eqb_eq in Heq.
        exists submitted. rewrite normalize_answer_spec, Heq. auto.
      + intros (v & [= <-] & Hv). rewrite normalize_answer_spec in Hv.
        injection Hv as ->. reflexivity.
    - split; [discriminate | intros (v & Hv & _); discriminate]. }
  split; [apply for_each_score_subq|].
  assert (Hcount : count_answers exam answers
                   = Ok (count_if (counted_correct answers) before
                         + (if counted_correct answers subq then 1 else 0)
                         + count_if (counted_correct answers) after,
                         Z.of_nat (length before) + 1 + Z.of_nat (length after))).
  { rewrite count_answers_spec. unfold correct_units, total_units.
    rewrite Hunits, count_if_app, length_app. cbn [count_if length]. counters_eq. }
  split; [exact Hcount|].
  split; [unfold calculate_auto_score; rewrite Hcount; reflexivity|].
  split; reflexivity.
Qed.

Lemma C9_blank_correct_answer_witness :
  exists (c t : Z) (counted : bool) (correct total : Z),
    for_each (score_subq blank_answers) [unit_of 1 "A"] (0, 0) = Ok (c, t)
    /\ score_subq blank_answers (c, t) blank_unit
       = Ok (c + (if counted then 1 else 0), t + 1)
    /\ (counted = true
        <-> exists submitted,
              blank_answers !! unit_key blank_unit = Some submitted
              /\ normalize_answer submitted = Ok ""%string)
    /\ for_each (score_subq blank_answers) [unit_of 3 "C"]
         (c + (if counted then 1 else 0), t + 1)
       = Ok (correct, total)
    /\ count_answers blank_exam blank_answers = Ok (correct, total)
    /\ calculate_auto_score blank_exam blank_answers = band_of_counts correct total
    /\ correct = c + (if counted then 1 else 0)
                 + count_if (counted_correct blank_answers) [unit_of 3 "C"]
    /\ total = t + 1 + Z.of_nat (length [unit_of 3 "C"]).
Proof.
  apply (C9_blank_correct_answer blank_exam blank_answers blank_unit
           [unit_of 1 "A"] [unit_of 3 "C"]); reflexivity.
Defined.

(** * [normalize_answer] over all of Unicode *)

Lemma map_result_ok {A B : Type} (f : A -> result B) (l : list A) :
  (exists ys, Unicode.map_result f l = Ok ys) <-> Forall (fun x => exists y, f x = Ok y) l.
Proof.
  induction l as [| x l IH]; cbn [Unicode.map_result].
  - split; [constructor | eauto].
  - split.
    + intros [ys H]. destruct (f x) as [y | e] eqn:Hx; [|discriminate]. cbn [bind] in H.
      destruct (Unicode.map_result f l) as [ys' | e]; [|discriminate].
      constructor; [eauto | apply IH; eauto].
    + intros H. apply Forall_cons_iff in H as [[y Hy] Hl].
      apply IH in Hl as [ys Hys]. rewrite Hy, Hys. cbn. eauto.
Qed.


Lemma depth_pos (v : Unicode.pyval) : (1 <= Unicode.depth v)%nat.
Proof. destruct v; cbn; lia. Qed.

Lemma depth_list (l : list Unicode.pyval) (b : nat) :
  (Unicode.depth (Unicode.VList l) <= S b)%nat
  <-> Forall (fun x => (Unicode.depth x <= b)%nat) l.
Proof.
  cbn [Unicode.depth]. induction l as [| x l IH]; cbn [fold_right].
  - split; [constructor | lia].
  - rewrite Forall_cons_iff, <- IH. lia.
Qed.

(** [repr] returns exactly on the values nested no deeper than the budget
    whose integers have at most 4300 digits. *)
Lemma py_repr_defined (budget : nat) (v : Unicode.pyval) :
  (exists s, Unicode.py_repr budget v = Ok s)
  <-> (Unicode.depth v <= budget)%nat /\ Unicode.ints_convert v = true.
Proof.
  revert v. induction budget as [| b IH]; intros v.
  - cbn [Unicode.py_repr]. pose proof (depth_pos v).
    split; [intros [s H']; discriminate | lia].
  - destruct v as [| [|] | z | s | l]; cbn [Unicode.py_repr Unicode.ints_convert].
    + cbn. split; [intros _; split; [lia | reflexivity] | eauto].
    + cbn. split; [intros _; split; [lia | reflexivity] | eauto].
    + cbn. split; [intros _; split; [lia | reflexivity] | eauto].
    + cbn [Unicode.depth]. destruct (Z.abs z <? 10 ^ Unicode.max_str_digits).
      * split; [intros _; split; [lia | reflexivity] | eauto].
      * split; [intros [s H]; discriminate | intros [_ H]; discriminate].
    + cbn. split; [intros _; split; [lia | reflexivity] | eauto].
    + rewrite depth_list, forallb_forall, <- List.Forall_forall.
      transitivity (exists items, Unicode.map_result (Unicode.py_repr b) l = Ok items).
      * destruct (Unicode.map_result (Unicode.py_repr b) l); cbn [bind];
          split; intros [x H]; try discriminate; eauto.
      * rewrite map_result_ok, <- Forall_and.
        apply Forall_iff. intros x. apply IH.
Qed.


Lemma py_str_defined (budget : nat) (v : Unicode.pyval) :
  (exists s, Unicode.py_str budget v = Ok s) <-> has_str budget v = true.
Proof.
  unfold Unicode.py_str, has_str.
  destruct v; try (rewrite py_repr_defined, andb_true_iff, Nat.leb_le; reflexivity).
  split; eauto.
Qed.


(** The code in one equation: the empty token for a falsy value, otherwise
    the token of the string form of the value that is converted. *)
Lemma normalize_answer_token (budget : nat) (v : Unicode.pyval) :
  Unicode.normalize_answer budget v
  = if Unicode.py_truthy v
    then let* s := Unicode.py_str budget (converted v) in Ok (token_of s)
    else Ok [].
Proof.
  unfold Unicode.normalize_answer, token_of.
  destruct (Unicode.py_truthy v) eqn:Htruthy; cbn [negb]; [|reflexivity].
  assert (Hfirst :
    (if Unicode.isinstance_list v then Unicode.py_getitem v 0 else Ok v)
    = Ok (converted v)).
  { destruct v as [| b | z | s | [| x l]]; cbn in *; try discriminate; reflexivity. }
  rewrite Hfirst. cbn [bind].
  destruct (Unicode.py_str budget (converted v)) as [s | e]; cbn [bind]; [|reflexivity].
  destruct (Unicode.strip s); reflexivity.
Qed.



Lemma py_repr_nest (budget : nat) :
  Unicode.py_repr budget (nest budget Unicode.VNone) = Raise RecursionError.
Proof.
  induction budget as [| b IH]; [reflexivity|].
  cbn [nest Unicode.py_repr Unicode.map_result]. rewrite IH. reflexivity.
Qed.

(** ** The restricted model inside the Unicode model *)

Lemma text_cons (c : ascii) (s : string) :
  Unicode.text (String c s) = Z.of_N (N_of_ascii c) :: Unicode.text s.
Proof. reflexivity. Qed.

Lemma is_space_agrees (c : ascii) :
  Unicode.is_space (Z.of_N (N_of_ascii c)) = is_space c.
Proof. destruct c as [[|] [|] [|] [|] [|] [|] [|] [|]]; vm_compute; reflexivity. Qed.

Lemma lower_char_agrees (c : ascii) :
  Unicode.lower_char (Z.of_N (N_of_ascii c)) = [Z.of_N (N_of_ascii (lower_char c))].
Proof. destruct c as [[|] [|] [|] [|] [|] [|] [|] [|]]; vm_compute; reflexivity. Qed.

Lemma lstrip_agrees (s : string) : Unicode.lstrip (Unicode.text s) = Unicode.text (lstrip s).
Proof.
  induction s as [| c s IH]; [reflexivity|].
  rewrite text_cons. cbn [Unicode.lstrip lstrip]. rewrite is_space_agrees.
  destruct (is_space c); [assumption | reflexivity].
Qed.

Lemma rstrip_agrees (s : string) : Unicode.rstrip (Unicode.text s) = Unicode.text (rstrip s).
Proof.
  induction s as [| c s IH]; [reflexivity|].
  rewrite text_cons. cbn [Unicode.rstrip rstrip]. rewrite IH, is_space_agrees.
  destruct (rstrip s); [destruct (is_space c)|]; reflexivity.
Qed.

Lemma strip_agrees (s : string) : Unicode.strip (Unicode.text s) = Unicode.text (strip s).
Proof. unfold Unicode.strip, strip. rewrite lstrip_agrees, rstrip_agrees. reflexivity. Qed.

Lemma token_of_agrees (s : string) :
  token_of (Unicode.text s) = Unicode.text (first_char (lower (strip s))).
Proof.
  unfold token_of. rewrite strip_agrees.
  destruct (strip s) as [| c s']; [reflexivity|].
  rewrite text_cons. apply lower_char_agrees.
Qed.

(** On the values of a well-typed mapping, strings and lists of strings
    over the code points below U+0100, the two embeddings of
    [normalize_answer] return the same token. *)
Lemma normalize_answer_agrees (budget : nat) (v : pyval) :
  well_typed_value v = true ->
  Unicode.normalize_answer budget (unicode_of v)
  = let* token := normalize_answer v in Ok (Unicode.text token).
Proof.
  intros Htyped. rewrite normalize_answer_spec, normalize_answer_token. cbn [bind].
  unfold spec_normalize.
  destruct v as [| b | z | s | [| x l]]; try discriminate.
  - destruct s as [| c s]; [reflexivity|].
    cbn [unicode_of Unicode.py_truthy py_truthy converted Unicode.py_str py_str bind].
    rewrite text_cons. cbn [negb String.eqb]. rewrite <- text_cons, token_of_agrees.
    reflexivity.
  - reflexivity.
  - cbn [well_typed_value forallb] in Htyped. apply andb_true_iff in Htyped as [Hx _].
    destruct x; try discriminate.
    cbn [unicode_of List.map Unicode.py_truthy py_truthy converted Unicode.py_str py_str
         bind negb].
    rewrite token_of_agrees. reflexivity.
Qed.

(** * The normalizer: claims C7 and C10 *)

(** C7 (as stated: in general the normalizer trims, lower-cases, and keeps
    only the first character).  The code keeps the first character of the
    trimmed string and lower-cases that one.  For the capital I with a dot
    above, U+0130, whose lower case is the two code points U+0069 U+0307,
    the token of the code has two code points where the rule of the claim
    gives the one code point U+0069; the token of U+0130 therefore differs
    from the token of U+0069, which the rule of the claim makes equal. *)
Lemma C7_counterexample :
  Unicode.normalize_answer 0 (Unicode.VStr [304]) = Ok [105; 775]
  /\ Unicode.spec_token [304] = [105]
  /\ Unicode.normalize_answer 0 (Unicode.VStr [304]) <> Ok (Unicode.spec_token [304])
  /\ Unicode.spec_token [304] = Unicode.spec_token [105]
  /\ Unicode.normalize_answer 0 (Unicode.VStr [304])
     <> Unicode.normalize_answer 0 (Unicode.VStr [105]).
Proof. repeat split; try reflexivity; discriminate. Qed.


(** C10 (as stated: the normalizer never raises, whatever the value).  An
    integer of 4301 digits has no string form, [str] raises a
    [ValueError]; and whatever number of nested calls the interpreter still
    allows, the [str] of a list nested one level deeper raises a
    [RecursionError].  The normalizer hands both on. *)
Lemma C10_counterexample :
  Unicode.normalize_answer 1000 (Unicode.VInt (10 ^ 4300)) = Raise ValueError
  /\ (forall budget,
        exists e, Unicode.normalize_answer budget (Unicode.VInt (10 ^ 4300)) = Raise e)
  /\ (forall budget,
        Unicode.normalize_answer budget (nest (S budget) Unicode.VNone)
        = Raise RecursionError).
Proof.
  split; [vm_compute; reflexivity|]. split.
  - intros budget.
    destruct (Unicode.normalize_answer budget (Unicode.VInt (10 ^ 4300))) as [token | e] eqn:H;
      [|eauto].
    exfalso. rewrite normalize_answer_token in H.
    change (Unicode.py_truthy (Unicode.VInt (10 ^ 4300))) with true in H.
    cbn [converted] in H.
    destruct (Unicode.py_str budget (Unicode.VInt (10 ^ 4300))) as [s | e] eqn:Hs;
      [|discriminate].
    assert (Hdef : has_str budget (Unicode.VInt (10 ^ 4300)) = true)
      by (apply py_str_defined; eauto).
    unfold has_str in Hdef. apply andb_true_iff in Hdef as [_ Hdef].
    vm_compute in Hdef. discriminate.
  - intros budget. rewrite normalize_answer_token.
    cbn [nest Unicode.py_truthy converted]. unfold Unicode.py_str.
    assert (H := py_repr_nest budget).
    destruct budget as [| b]; cbn [nest] in *; rewrite H; reflexivity.
Qed.


(** * Further properties *)

(** ** The scorer *)

Lemma count_if_perm {A : Type} (f : A -> bool) (l1 l2 : list A) :
  Permutation l1 l2 -> count_if f l1 = count_if f l2.
Proof.
  induction 1 as [| x l1 l2 _ IH | x y l | l1 l2 l3 _ IH1 _ IH2]; cbn [count_if];
    [reflexivity | rewrite IH; reflexivity | lia | congruence].
Qed.

(** X1.  The score depends on the leaf units only up to their order: how
    they are grouped into questions, passages or recordings and in which
    order the loops meet them does not matter. *)
Theorem X1_order_irrelevant (exam1 exam2 : Exam) (answers : answers_t) :
  Permutation (leaf_units exam1) (leaf_units exam2) ->
  calculate_auto_score exam1 answers = calculate_auto_score exam2 answers.
Proof.
  intros Hperm. rewrite !calculate_auto_score_counts.
  unfold correct_units, total_units.
  rewrite (count_if_perm _ _ _ Hperm), (Permutation_length Hperm). reflexivity.
Qed.

Lemma X1_order_irrelevant_witness :
  calculate_auto_score exam3 answers3_two = calculate_auto_score exam3_regrouped answers3_two.
Proof.
  apply (X1_order_irrelevant exam3 exam3_regrouped answers3_two).
  change (leaf_units exam3) with [unit_of 1 "A"; unit_of 2 "B"; unit_of 3 "C"].
  change (leaf_units exam3_regrouped) with [unit_of 3 "C"; unit_of 1 "A"; unit_of 2 "B"].
  apply Permutation_sym.
  apply (Permutation_cons_append [unit_of 1 "A"; unit_of 2 "B"] (unit_of 3 "C")).
Defined.

Lemma band_of_counts_none_correct (t : Z) : 0 <= t -> band_of_counts 0 t = Ok zero.
Proof. intros Ht. destruct t as [| p | p]; [reflexivity | reflexivity | lia]. Qed.

Lemma count_if_none {A : Type} (f : A -> bool) (l : list A) :
  Forall (fun x => f x = false) l -> count_if f l = 0.
Proof.
  induction 1 as [| x l Hx _ IH]; [reflexivity|].
  cbn [count_if]. rewrite Hx, IH. reflexivity.
Qed.

(** X2.  When no leaf unit is counted correct (all answers wrong or
    missing) the score is 0.0. *)
Theorem X2_none_correct (exam : Exam) (answers : answers_t) :
  Forall (fun subq => counted_correct answers subq = false) (leaf_units exam) ->
  calculate_auto_score exam answers = Ok zero.
Proof.
  intros Hnone. rewrite calculate_auto_score_counts.
  unfold correct_units. rewrite (count_if_none _ _ Hnone).
  apply band_of_counts_none_correct. unfold total_units. lia.
Qed.

Lemma X2_none_correct_witness : calculate_auto_score exam40 ∅ = Ok zero.
Proof.
  apply (X2_none_correct exam40 ∅).
  apply Forall_forall. intros subq _. reflexivity.
Defined.

(** ** The token of a token *)















(** ** The bands of the review form *)

Lemma same_float_eq (x y : spec_float) : same_float x y = true -> x = y.
Proof.
  destruct x as [s | s | | s m e], y as [s' | s' | | s' m' e']; simpl; try discriminate.
  - intros H. apply Bool.eqb_prop in H. congruence.
  - intros H. apply Bool.eqb_prop in H. congruence.
  - reflexivity.
  - intros H. apply andb_prop in H as [H He]. apply andb_prop in H as [Hs Hm].
    apply Bool.eqb_prop in Hs. apply Pos.eqb_eq in Hm. apply Z.eqb_eq in He. congruence.
Qed.

Lemma all_below_spec (n : nat) (f : Z -> bool) (z : Z) :
  all_below n f = true -> 0 <= z < Z.of_nat n -> f z = true.
Proof.
  intros Hall Hz. unfold all_below in Hall.
  rewrite forallb_forall in Hall.
  rewrite <- (Z2Nat.id z) by lia. apply Hall. apply in_seq. lia.
Qed.

(** The list of the review form holds exactly the bands 0.0, 0.5, ..., 9.0. *)
Lemma band_scores_spec (x : spec_float) :
  In x band_scores <-> exists k, 0 <= k <= 18 /\ x = half_band k.
Proof.
  split.
  - unfold band_scores. rewrite in_map_iff. intros (i & <- & Hi).
    apply in_seq in Hi. exists (Z.of_nat i). split; [lia|].
    apply same_float_eq.
    apply (all_below_spec 19
             (fun z => same_float (float_mul (float_of_int z) half) (half_band z)));
      [vm_compute; reflexivity | lia].
  - intros (k & Hk & ->). unfold band_scores. apply in_map_iff.
    exists (Z.to_nat k). split; [|apply in_seq; lia].
    rewrite Z2Nat.id by lia. apply same_float_eq.
    apply (all_below_spec 19
             (fun z => same_float (float_mul (float_of_int z) half) (half_band z)));
      [vm_compute; reflexivity | lia].
Qed.

Lemma auto_score_listed (exam : Exam) (answers : answers_t) :
  exists score, calculate_auto_score exam answers = Ok score /\ In score band_scores.
Proof.
  rewrite calculate_auto_score_counts.
  destruct (band_of_counts_range _ _ (correct_units_bounds exam answers))
    as (k & Hk & Hband).
  exists (half_band k). split; [assumption|].
  apply band_scores_spec. eauto.
Qed.

(** X5.  Every score the scorer returns is one of the bands that the
    review form offers ([band_scores] of [review_attempt]). *)
Theorem X5_score_is_listed_band (exam : Exam) (answers : answers_t) :
  exists score, calculate_auto_score exam answers = Ok score /\ In score band_scores.
Proof. apply auto_score_listed. Qed.

(** Sums of bands are exact. *)
Lemma float_add_half_bands (i j : Z) :
  0 <= i <= 54 -> 0 <= j <= 18 ->
  float_add (half_band i) (half_band j) = half_band (i + j).
Proof.
  intros Hi Hj. apply same_float_eq.
  apply (all_below_spec 19
           (fun j => same_float (float_add (half_band i) (half_band j)) (half_band (i + j))));
    [|lia].
  apply (all_below_spec 55
           (fun i => all_below 19
              (fun j => same_float (float_add (half_band i) (half_band j)) (half_band (i + j)))));
    [vm_compute; reflexivity | lia].
Qed.

Lemma quarter_of_half_band (n : Z) :
  0 <= n <= 72 ->
  exists o,
    float_truediv (half_band n) (float_of_int 4) = Ok o
    /\ is_finite_float o = true
    /\ (float_value o == inject_Z n / 8)%Q.
Proof.
  intros Hn.
  exists (SFdiv prec emax (half_band n) (float_of_int 4)). split; [reflexivity|].
  pose proof (all_below_spec 73
    (fun n => is_finite_float (SFdiv prec emax (half_band n) (float_of_int 4))
              && Qeq_bool (float_value (SFdiv prec emax (half_band n) (float_of_int 4)))
                   (inject_Z n / 8)) n ltac:(vm_compute; reflexivity) ltac:(lia)) as H.
  apply andb_prop in H as [Hfin Hval]. split; [assumption|].
  apply Qeq_bool_iff. assumption.
Qed.

Lemma overall_score_of_half_bands (i j k l : Z) :
  0 <= i <= 18 -> 0 <= j <= 18 -> 0 <= k <= 18 -> 0 <= l <= 18 ->
  exists o,
    overall_score (half_band i) (half_band j) (half_band k) (half_band l) = Ok o
    /\ is_finite_float o = true
    /\ (float_value o == inject_Z (i + j + k + l) / 8)%Q.
Proof.
  intros Hi Hj Hk Hl. unfold overall_score.
  rewrite !float_add_half_bands by lia.
  apply quarter_of_half_band. lia.
Qed.

(** X6.  For four criterion scores taken from the bands of the form the
    overall score is a finite float that equals their mean exactly; no
    rounding takes place, neither in the sum nor to a half band. *)
Theorem X6_overall_is_exact_mean (a b c d : spec_float) :
  In a band_scores -> In b band_scores -> In c band_scores -> In d band_scores ->
  exists o,
    overall_score a b c d = Ok o
    /\ is_finite_float o = true
    /\ (float_value o == (float_value a + float_value b + float_value c + float_value d) / 4)%Q.
Proof.
  intros Ha Hb Hc Hd.
  apply band_scores_spec in Ha as (i & Hi & ->).
  apply band_scores_spec in Hb as (j & Hj & ->).
  apply band_scores_spec in Hc as (k & Hk & ->).
  apply band_scores_spec in Hd as (l & Hl & ->).
  destruct (overall_score_of_half_bands i j k l Hi Hj Hk Hl) as (o & Ho & Hfin & Hval).
  exists o. split; [assumption|]. split; [assumption|].
  destruct (half_band_value i ltac:(lia)) as [_ Hvi].
  destruct (half_band_value j ltac:(lia)) as [_ Hvj].
  destruct (half_band_value k ltac:(lia)) as [_ Hvk].
  destruct (half_band_value l ltac:(lia)) as [_ Hvl].
  rewrite Hval, Hvi, Hvj, Hvk, Hvl, !inject_Z_plus. field.
Qed.

Lemma X6_overall_is_exact_mean_witness :
  exists o,
    overall_score (half_band 13) (half_band 12) (half_band 12) (half_band 12) = Ok o
    /\ is_finite_float o = true
    /\ (float_value o == (float_value (half_band 13) + float_value (half_band 12)
                          + float_value (half_band 12) + float_value (half_band 12)) / 4)%Q.
Proof.
  apply (X6_overall_is_exact_mean (half_band 13) (half_band 12) (half_band 12) (half_band 12));
    vm_compute; tauto.
Defined.

(** ** The answers collected from the form *)

Lemma bind_ok {A B : Type} (m : result A) (k : A -> result B) (y : B) :
  (let* x := m in k x) = Ok y -> exists x, m = Ok x /\ k x = Ok y.
Proof. destruct m as [x | e]; simpl; [eauto | discriminate]. Qed.

(** A loop whose body keeps an invariant and cannot raise on the elements
    it meets comes to an end in a state that satisfies the invariant. *)
Lemma for_each_invariant {A S : Type} (body : S -> A -> result S)
    (P : S -> Prop) (Q : A -> Prop) (l : list A) (st : S) :
  (forall st x, P st -> Q x -> exists st', body st x = Ok st' /\ P st') ->
  Forall Q l -> P st ->
  exists st', for_each body l st = Ok st' /\ P st'.
Proof.
  intros Hbody Hl. revert st.
  induction Hl as [| x l Hx _ IH]; intros st Hst; simpl; [eauto|].
  destruct (Hbody st x Hst Hx) as (st' & -> & Hst'). simpl. auto.
Qed.

(** The same, for a loop that is known to have come to an end. *)
Lemma for_each_preserves {A S : Type} (body : S -> A -> result S)
    (P : S -> Prop) (Q : A -> Prop) (l : list A) (st st' : S) :
  (forall st x st', P st -> Q x -> body st x = Ok st' -> P st') ->
  Forall Q l -> P st -> for_each body l st = Ok st' -> P st'.
Proof.
  intros Hbody Hl. revert st.
  induction Hl as [| x l Hx _ IH]; intros st Hst; simpl.
  - intros [= <-]. assumption.
  - intros Hrun. apply bind_ok in Hrun as (st1 & Hstep & Hrest). eauto.
Qed.

Lemma pack_values_spec (values : list string) :
  pack_values values
  = match values with
    | [] => Raise IndexError
    | [v] => Ok (VStr v)
    | _ => Ok (VList (List.map VStr values))
    end.
Proof. destruct values as [| v [| w values]]; reflexivity. Qed.

Lemma forallb_is_str_map (values : list string) : forallb is_str (List.map VStr values) = true.
Proof. induction values; simpl; auto. Qed.

Lemma pack_values_well_typed (values : list string) (packed : pyval) :
  pack_values values = Ok packed -> well_typed_value packed = true.
Proof.
  rewrite pack_values_spec. destruct values as [| v [| w values]]; intros [= <-];
    [reflexivity|]. apply (forallb_is_str_map (v :: w :: values)).
Qed.

Lemma getlist_in (post : QueryDict) (key : string) :
  In key (querydict_keys post) -> exists values, In (key, values) post /\ getlist post key = values.
Proof.
  induction post as [| [k values] post IH]; simpl; [tauto|].
  intros Hin. destruct (String.eqb k key) eqn:Hk.
  - apply String.eqb_eq in Hk. subst k. eauto.
  - apply String.eqb_neq in Hk. destruct Hin as [-> | Hin]; [congruence|].
    destruct (IH Hin) as (vs & Hvs & Hget). eauto.
Qed.

Lemma collect_step_shape (post : QueryDict) (answers answers' : answers_t) (key : string) :
  answers_shape answers -> collect_step post answers key = Ok answers' ->
  answers_shape answers'.
Proof.
  intros [Htyped Hkeys]. unfold collect_step.
  destruct (existsb _ answer_prefixes) eqn:Hacc; [|intros [= <-]; split; assumption].
  intros Hrun. apply bind_ok in Hrun as (packed & Hpack & [= <-]).
  split; apply map_Forall_insert_2; try assumption.
  eapply pack_values_well_typed; eassumption.
Qed.

Lemma collect_answers_ok (post : QueryDict) :
  Forall (fun field => is_answer_key (fst field) = true -> snd field <> []) post ->
  exists answers,
    collect_answers post = Ok answers
    /\ well_typed_answers answers
    /\ map_Forall (fun key _ => existsb (startswith key) answer_prefixes = true) answers.
Proof.
  intros Hpost. unfold collect_answers.
  destruct (for_each_invariant (collect_step post) answers_shape
              (fun key => In key (querydict_keys post)) (querydict_keys post) ∅)
    as (answers & Hrun & Hshape & Hkeys).
  - intros answers key Hshape Hin.
    assert (Hstep : exists answers', collect_step post answers key = Ok answers').
    { unfold collect_step. fold (is_answer_key key).
      destruct (is_answer_key key) eqn:Hacc; [|eauto].
      destruct (getlist_in post key Hin) as (values & Hfield & ->).
      rewrite List.Forall_forall in Hpost. specialize (Hpost _ Hfield Hacc).
      rewrite pack_values_spec. destruct values as [| v [| w values]]; simpl in *;
        [congruence | eauto | eauto]. }
    destruct Hstep as (answers' & Hstep). exists answers'. split; [assumption|].
    eapply collect_step_shape; eassumption.
  - apply List.Forall_forall. auto.
  - split; apply map_Forall_empty.
  - eauto.
Qed.

(** X7.  When every answer field of the form has at least one value the
    collection of the answers raises nothing; the answers it returns are
    strings or sequences of strings under keys that begin with [q_],
    [part_] or [task_], so that they are well-typed input of the scorer. *)
Theorem X7_collected_answers_shape (post : QueryDict) :
  Forall (fun field => is_answer_key (fst field) = true -> snd field <> []) post ->
  exists answers,
    collect_answers post = Ok answers
    /\ well_typed_answers answers
    /\ map_Forall (fun key _ => existsb (startswith key) answer_prefixes = true) answers.
Proof. apply collect_answers_ok. Qed.

Lemma X7_collected_answers_shape_witness :
  exists answers,
    collect_answers sample_post = Ok answers
    /\ well_typed_answers answers
    /\ map_Forall (fun key _ => existsb (startswith key) answer_prefixes = true) answers.
Proof.
  apply (X7_collected_answers_shape sample_post).
  repeat constructor; simpl; discriminate.
Defined.

Lemma collect_step_cases (post : QueryDict) (answers : answers_t) (key : string) :
  (empty_field post key /\ collect_step post answers key = Raise IndexError)
  \/ (~ empty_field post key /\ exists answers', collect_step post answers key = Ok answers').
Proof.
  unfold empty_field, collect_step. fold (is_answer_key key).
  destruct (is_answer_key key); [|right; split; [intros [? _]; discriminate | eauto]].
  rewrite pack_values_spec.
  destruct (getlist post key) as [| v [| w values]]; simpl.
  - left. auto.
  - right. split; [intros [_ ?]; discriminate | eauto].
  - right. split; [intros [_ ?]; discriminate | eauto].
Qed.

Lemma collect_loop_raises (post : QueryDict) (keys : list string) (answers : answers_t) :
  (Exists (empty_field post) keys
   <-> for_each (collect_step post) keys answers = Raise IndexError)
  /\ (forall e, for_each (collect_step post) keys answers = Raise e -> e = IndexError).
Proof.
  revert answers. induction keys as [| key keys IH]; intros answers; cbn [for_each].
  - split; [split; [intros H; inversion H | discriminate] | discriminate].
  - destruct (collect_step_cases post answers key) as [[Hbad ->] | [Hgood (answers' & ->)]];
      cbn [bind].
    + split; [split; [reflexivity | intros _; left; assumption] | intros e [= <-]; reflexivity].
    + destruct (IH answers') as [IHiff IHexn]. split; [|assumption].
      rewrite <- IHiff. split; [|intros H; right; assumption].
      intros H. inversion H; [contradiction | assumption].
Qed.

(** X8.  The collection of the answers raises exactly when an answer field
    of the form has no value at all, and what it raises then is the
    [IndexError] of [values[0]]. *)
Theorem X8_collect_raises_on_empty_field (post : QueryDict) :
  (Exists (empty_field post) (querydict_keys post)
   <-> collect_answers post = Raise IndexError)
  /\ (forall e, collect_answers post = Raise e -> e = IndexError).
Proof. apply collect_loop_raises. Qed.

(** The fields after the last one that writes a key leave its value alone. *)
Lemma collect_loop_keeps (post : QueryDict) (keys : list string) (answers answers' : answers_t)
    (kept : string) (v : pyval) :
  Forall (fun key => norm_key key <> kept) keys ->
  answers !! kept = Some v ->
  for_each (collect_step post) keys answers = Ok answers' ->
  answers' !! kept = Some v.
Proof.
  intros Hkeys.
  apply (for_each_preserves _ (fun a => a !! kept = Some v) (fun key => norm_key key <> kept));
    [|assumption].
  intros a key a' Ha Hkey. unfold collect_step. cbv zeta.
  destruct (existsb _ answer_prefixes); [|intros [= <-]; assumption].
  intros Hrun. apply bind_ok in Hrun as (packed & _ & [= <-]).
  etrans; [apply lookup_insert_ne; assumption | assumption].
Qed.

Lemma getlist_first (before after : QueryDict) (key : string) (values : list string) :
  ~ In key (querydict_keys before) ->
  getlist (before ++ (key, values) :: after) key = values.
Proof.
  induction before as [| [k vs] before IH]; simpl; intros Hnot.
  - rewrite String.eqb_refl. reflexivity.
  - destruct (String.eqb k key) eqn:Hk.
    + apply String.eqb_eq in Hk. tauto.
    + apply IH. tauto.
Qed.

Lemma collected_value (before after : QueryDict) (key v : string) (vs : list string)
    (answers : answers_t) :
  ~ In key (querydict_keys before) ->
  is_answer_key key = true ->
  Forall (fun later => norm_key later <> norm_key key) (querydict_keys after) ->
  collect_answers (before ++ (key, v :: vs) :: after) = Ok answers ->
  answers !! norm_key key
  = Some (match vs with [] => VStr v | _ :: _ => VList (List.map VStr (v :: vs)) end).
Proof.
  intros Hfirst Hacc Hlater. unfold collect_answers, querydict_keys.
  rewrite map_app. cbn [List.map fst]. fold (querydict_keys before) (querydict_keys after).
  rewrite for_each_app. intros Hrun.
  apply bind_ok in Hrun as (answers1 & _ & Hrun). cbn [for_each] in Hrun.
  apply bind_ok in Hrun as (answers2 & Hstep & Hrun).
  eapply collect_loop_keeps; [exact Hlater | | exact Hrun].
  unfold collect_step in Hstep. cbv zeta in Hstep.
  fold (is_answer_key key) in Hstep. rewrite Hacc in Hstep.
  rewrite getlist_first, pack_values_spec in Hstep by assumption.
  destruct vs as [| w vs]; cbn [bind] in Hstep; injection Hstep as <-;
    apply lookup_insert_eq.
Qed.

(** X9.  A field with one value is kept as that string, a field with
    several values as the sequence of them, under the field's name without
    a trailing [[]]; of two fields with the same name up to [[]] the later
    one is kept. *)
Theorem X9_field_value_kept (before after : QueryDict) (key v : string) (vs : list string)
    (answers : answers_t) :
  ~ In key (querydict_keys before) ->
  is_answer_key key = true ->
  Forall (fun later => norm_key later <> norm_key key) (querydict_keys after) ->
  collect_answers (before ++ (key, v :: vs) :: after) = Ok answers ->
  answers !! norm_key key
  = Some (match vs with [] => VStr v | _ :: _ => VList (List.map VStr (v :: vs)) end).
Proof. apply collected_value. Qed.

(** X10.  Scoring what the form collected.  For a leaf unit whose field
    [q_<id>] (or [q_<id>[]]) is in the form, the turn of the unit in the
    loops of [calculate_auto_score] adds one to [correct_count] exactly when
    the token of the first value of the field is the token of the unit's
    [correct_answer]; the further values of the field are never compared.
    The counters at the end of the loops, from which the band is computed,
    hold that one more or not. *)
Theorem X10_first_value_decides (before after : QueryDict) (key v : string)
    (vs : list string) (answers : answers_t) (exam : Exam) (subq : SubQuestion)
    (units_before units_after : list SubQuestion) :
  ~ In key (querydict_keys before) ->
  is_answer_key key = true ->
  Forall (fun later => norm_key later <> norm_key key) (querydict_keys after) ->
  collect_answers (before ++ (key, v :: vs) :: after) = Ok answers ->
  unit_key subq = norm_key key ->
  leaf_units exam = units_before ++ subq :: units_after ->
  exists student correct,
    normalize_answer (VStr v) = Ok student
    /\ normalize_answer (correct_answer subq) = Ok correct
    /\ (forall c t,
          score_subq answers (c, t) subq
          = Ok (c + (if String.eqb student correct then 1 else 0), t + 1))
    /\ count_answers exam answers
       = Ok (count_if (counted_correct answers) units_before
             + (if String.eqb student correct then 1 else 0)
             + count_if (counted_correct answers) units_after,
             total_units exam)
    /\ calculate_auto_score exam answers
       = band_of_counts
           (count_if (counted_correct answers) units_before
            + (if String.eqb student correct then 1 else 0)
            + count_if (counted_correct answers) units_after)
           (total_units exam).
Proof.
  intros Hfirst Hacc Hlater Hrun Hkey Hunits.
  exists (spec_normalize (VStr v)), (spec_normalize (correct_answer subq)).
  assert (Hcounted : counted_correct answers subq
                     = String.eqb (spec_normalize (VStr v))
                         (spec_normalize (correct_answer subq))).
  { unfold counted_correct. rewrite Hkey.
    rewrite (collected_value _ _ _ _ _ _ Hfirst Hacc Hlater Hrun).
    destruct vs as [| w vs]; [reflexivity|].
    f_equal. unfold spec_normalize. cbn [py_truthy List.map negb py_str].
    destruct v; reflexivity. }
  split; [apply normalize_answer_spec|]. split; [apply normalize_answer_spec|].
  split; [intros c t; rewrite score_subq_spec, Hcounted; reflexivity|].
  assert (Hcount : correct_units exam answers
                   = count_if (counted_correct answers) units_before
                     + (if String.eqb (spec_normalize (VStr v))
                              (spec_normalize (correct_answer subq)) then 1 else 0)
                     + count_if (counted_correct answers) units_after).
  { unfold correct_units. rewrite Hunits, count_if_app. cbn [count_if].
    rewrite Hcounted. lia. }
  split.
  - rewrite count_answers_spec, Hcount. reflexivity.
  - rewrite calculate_auto_score_counts, Hcount. reflexivity.
Qed.

Lemma X9_field_value_kept_witness :
  sample_answers !! norm_key "q_2[]" = Some (VList (List.map VStr ["c"; "b"]%string)).
Proof.
  apply (X9_field_value_kept
           [("csrfmiddlewaretoken", ["x7"]); ("q_1", ["a"])]%string [] "q_2[]" "c" ["b"%string]
           sample_answers).
  - simpl. intros [H | [H | []]]; discriminate.
  - reflexivity.
  - constructor.
  - vm_compute. reflexivity.
Defined.

Lemma X10_first_value_decides_witness :
  exists student correct,
    normalize_answer (VStr "c") = Ok student
    /\ normalize_answer (correct_answer (unit_of 2 "B")) = Ok correct
    /\ (forall c t,
          score_subq sample_answers (c, t) (unit_of 2 "B")
          = Ok (c + (if String.eqb student correct then 1 else 0), t + 1))
    /\ count_answers exam3 sample_answers
       = Ok (count_if (counted_correct sample_answers) [unit_of 1 "A"]
             + (if String.eqb student correct then 1 else 0)
             + count_if (counted_correct sample_answers) [unit_of 3 "C"],
             total_units exam3)
    /\ calculate_auto_score exam3 sample_answers
       = band_of_counts
           (count_if (counted_correct sample_answers) [unit_of 1 "A"]
            + (if String.eqb student correct then 1 else 0)
            + count_if (counted_correct sample_answers) [unit_of 3 "C"])
           (total_units exam3).
Proof.
  apply (X10_first_value_decides
           [("csrfmiddlewaretoken", ["x7"]); ("q_1", ["a"])]%string [] "q_2[]" "c" ["b"%string]
           sample_answers exam3 (unit_of 2 "B") [unit_of 1 "A"] [unit_of 3 "C"]).
  - simpl. intros [H | [H | []]]; discriminate.
  - reflexivity.
  - constructor.
  - vm_compute. reflexivity.
  - reflexivity.
  - reflexivity.
Defined.

(** ** The part number of a recording *)

Lemma split_on_nonempty (sep : ascii) (s : string) : split_on sep s <> [].
Proof.
  destruct s as [| c s]; simpl; [discriminate|].
  destruct (Ascii.eqb c sep); [discriminate|].
  destruct (split_on sep s); discriminate.
Qed.

Lemma split_on_app (sep : ascii) (a b : string) :
  split_on sep (a +:+ String sep b) = split_on sep a ++ split_on sep b.
Proof.
  induction a as [| c a IH]; simpl.
  - rewrite Ascii.eqb_refl. reflexivity.
  - destruct (Ascii.eqb c sep); [rewrite IH; reflexivity|].
    rewrite IH. pose proof (split_on_nonempty sep a) as Hne.
    destruct (split_on sep a) as [| p ps]; [congruence | reflexivity].
Qed.

Lemma split_on_no_sep (sep : ascii) (s : string) :
  str_contains sep s = false -> split_on sep s = [s].
Proof.
  induction s as [| c s IH]; simpl; [reflexivity|].
  rewrite Ascii.eqb_sym. destruct (Ascii.eqb c sep); simpl; [discriminate|].
  intros Hs. rewrite (IH Hs). reflexivity.
Qed.

Lemma getitem_from_end_two {A : Type} (l : list A) (x y : A) :
  getitem_from_end (l ++ [x; y]) 2 = Ok x.
Proof.
  unfold getitem_from_end. rewrite length_app. cbn [length].
  replace (2 <=? length l + 2)%nat with true by (symmetry; apply Nat.leb_le; lia).
  replace (length l + 2 - 2)%nat with (length l + 0)%nat by lia.
  rewrite nth_error_app2 by lia.
  replace (length l + 0 - length l)%nat with 0%nat by lia. reflexivity.
Qed.

Lemma audio_part_id_of_key (pieces : list string) (part : string) (key : string) :
  split_on "_" key = pieces ++ [part; "audio"%string] ->
  audio_part_id key = py_int part.
Proof.
  intros Hsplit. unfold audio_part_id. rewrite Hsplit, getitem_from_end_two. reflexivity.
Qed.

(** X11.  The part number of a recording is read from the text between
    the last underscore before [_audio] and [_audio] itself, whatever
    stands in front of it. *)
Theorem X11_part_id_field (front part : string) :
  str_contains "_" part = false ->
  audio_part_id (front +:+ "_" +:+ part +:+ "_audio") = py_int part
  /\ audio_part_id (part +:+ "_audio") = py_int part.
Proof.
  intros Hpart. split.
  - apply (audio_part_id_of_key (split_on "_" front)).
    change (front +:+ "_" +:+ part +:+ "_audio")
      with (front +:+ String "_" (part +:+ String "_" "audio")).
    rewrite !split_on_app, (split_on_no_sep _ part Hpart). reflexivity.
  - apply (audio_part_id_of_key []).
    change (part +:+ "_audio") with (part +:+ String "_" "audio").
    rewrite split_on_app, (split_on_no_sep _ part Hpart). reflexivity.
Qed.

Lemma X11_part_id_field_witness :
  audio_part_id ("speaking_part" +:+ "_" +:+ " 2" +:+ "_audio") = py_int " 2"
  /\ audio_part_id (" 2" +:+ "_audio") = py_int " 2".
Proof. apply (X11_part_id_field "speaking_part" " 2"). reflexivity. Defined.

Lemma substring_all (s : string) : substring 0 (String.length s) s = s.
Proof. induction s as [| c s IH]; simpl; [|rewrite IH]; reflexivity. Qed.

Lemma substring_split (s : string) (n : nat) :
  (n <= String.length s)%nat ->
  substring 0 n s +:+ substring n (String.length s - n) s = s.
Proof.
  revert n. induction s as [| c s IH]; intros n Hn; simpl in Hn.
  - assert (n = 0%nat) as -> by lia. reflexivity.
  - destruct n as [| n].
    + change (String c (substring 0 (String.length s) s) = String c s).
      f_equal. apply substring_all.
    + change (String c (substring 0 n s +:+ substring n (String.length s - n) s) = String c s).
      f_equal. apply IH. lia.
Qed.

Lemma endswith_app (s suf : string) :
  endswith s suf = true -> exists front, s = front +:+ suf.
Proof.
  unfold endswith. intros H. apply andb_prop in H as [Hlen Heq].
  apply Nat.leb_le in Hlen. apply String.eqb_eq in Heq.
  pose proof (substring_split s (String.length s - String.length suf) ltac:(lia)) as Hs.
  replace (String.length s - (String.length s - String.length suf))%nat
    with (String.length suf) in Hs by lia.
  rewrite Heq in Hs.
  exists (substring 0 (String.length s - String.length suf) s). symmetry. exact Hs.
Qed.

Lemma py_int_raises (s : string) (e : exn) : py_int s = Raise e -> e = ValueError.
Proof.
  unfold py_int.
  match goal with
  | |- match ?parsed with Some _ => _ | None => _ end = _ -> _ => destruct parsed
  end; [|intros [= <-]; reflexivity].
  destruct (_ <? _)%nat; [intros [= <-]; reflexivity | discriminate].
Qed.

(** X12.  For a key that ends in [_audio] the second piece from the end
    always exists: reading the part number can fail with [ValueError] (the
    piece is no number) and never with [IndexError]. *)
Theorem X12_part_id_no_index_error (key : string) :
  endswith key "_audio" = true ->
  (exists pieces part,
      split_on "_" key = pieces ++ [part; "audio"%string]
      /\ audio_part_id key = py_int part)
  /\ (forall e, audio_part_id key = Raise e -> e = ValueError).
Proof.
  intros Hkey. apply endswith_app in Hkey as (front & ->).
  assert (Hsplit : exists pieces part,
             split_on "_" (front +:+ "_audio") = pieces ++ [part; "audio"%string]).
  { change (front +:+ "_audio") with (front +:+ String "_" "audio").
    rewrite split_on_app.
    destruct (exists_last (split_on_nonempty "_" front)) as (pieces & part & ->).
    exists pieces, part. rewrite <- app_assoc. reflexivity. }
  destruct Hsplit as (pieces & part & Hsplit).
  pose proof (audio_part_id_of_key _ _ _ Hsplit) as Hid.
  split; [eauto|]. intros e. rewrite Hid. apply py_int_raises.
Qed.

Lemma X12_part_id_no_index_error_witness :
  (exists pieces part,
      split_on "_" "_audio" = pieces ++ [part; "audio"%string]
      /\ audio_part_id "_audio" = py_int part)
  /\ (forall e, audio_part_id "_audio" = Raise e -> e = ValueError).
Proof. apply (X12_part_id_no_index_error "_audio"). reflexivity. Defined.

















(** ** Tables and queries *)

Lemma next_pk_above {R : Type} (t : gmap Z R) (pk : Z) (r : R) :
  t !! pk = Some r -> pk < next_pk t.
Proof.
  unfold next_pk. revert pk r.
  apply (map_fold_weak_ind
           (fun acc (m : gmap Z R) => forall pk r, m !! pk = Some r -> pk < 1 + acc)).
  - intros pk r H. rewrite lookup_empty in H. discriminate.
  - intros i x m acc _ IH pk r H.
    destruct (decide (pk = i)) as [-> | Hne]; [lia|].
    rewrite lookup_insert_ne in H by congruence.
    specialize (IH pk r H). lia.
Qed.

Lemma next_pk_fresh {R : Type} (t : gmap Z R) : t !! next_pk t = None.
Proof.
  destruct (t !! next_pk t) as [r|] eqn:H; [|reflexivity].
  apply next_pk_above in H. lia.
Qed.

Lemma rows_where_elem {R : Type} (p : R -> bool) (t : gmap Z R) (pk : Z) (r : R) :
  In (pk, r) (rows_where p t) <-> t !! pk = Some r /\ p r = true.
Proof.
  unfold rows_where. rewrite filter_In, <- list_elem_of_In, elem_of_map_to_list.
  reflexivity.
Qed.

Lemma NoDup_list_filter {A : Type} (f : A -> bool) (l : list A) :
  NoDup l -> NoDup (List.filter f l).
Proof.
  induction l as [| x l IH]; simpl; intros Hnd; [assumption|].
  apply NoDup_cons in Hnd as [Hx Hl].
  destruct (f x); [|auto].
  apply NoDup_cons. split; [|auto].
  rewrite list_elem_of_In, filter_In, <- list_elem_of_In. tauto.
Qed.

Lemma rows_where_NoDup {R : Type} (p : R -> bool) (t : gmap Z R) : NoDup (rows_where p t).
Proof. apply NoDup_list_filter, NoDup_map_to_list. Qed.

Lemma objects_get_done {R : Type} (p : R -> bool) (t : gmap Z R) (pk : Z) (r : R) :
  objects_get p t = Done (pk, r) -> t !! pk = Some r /\ p r = true.
Proof.
  unfold objects_get. destruct (rows_where p t) as [| row [| row' rows]] eqn:Hrows;
    try discriminate.
  intros [= ->]. apply (rows_where_elem p). rewrite Hrows. left. reflexivity.
Qed.

Lemma objects_get_missing {R : Type} (p : R -> bool) (t : gmap Z R) :
  objects_get p t = Failed DoesNotExist ->
  forall pk r, t !! pk = Some r -> p r = false.
Proof.
  unfold objects_get. destruct (rows_where p t) as [| row [| row' rows]] eqn:Hrows;
    try discriminate.
  intros _ pk r Hr. destruct (p r) eqn:Hp; [|reflexivity].
  assert (Hin : In (pk, r) (rows_where p t)) by (apply rows_where_elem; auto).
  rewrite Hrows in Hin. destruct Hin.
Qed.

Lemma objects_get_failed {R : Type} (p : R -> bool) (t : gmap Z R) (e : view_exn) :
  objects_get p t = Failed e -> e = DoesNotExist \/ e = MultipleObjectsReturned.
Proof.
  unfold objects_get. destruct (rows_where p t) as [| row [| row' rows]];
    intros [= <-]; auto.
Qed.

(** With at most one row per key, a query on the key finds the row that
    has it. *)
Lemma objects_get_unique {R K : Type} (key : R -> K) (p : R -> bool) (t : gmap Z R)
    (pk : Z) (r : R) :
  unique_on key t ->
  (forall r1 r2, p r1 = true -> p r2 = true -> key r1 = key r2) ->
  t !! pk = Some r -> p r = true ->
  objects_get p t = Done (pk, r).
Proof.
  intros Huniq Hkey Hr Hp.
  assert (Hall : forall row, In row (rows_where p t) -> row = (pk, r)).
  { intros [pk' r'] Hin. apply rows_where_elem in Hin as [Hr' Hp'].
    assert (pk' = pk) as -> by (eapply Huniq; eauto).
    congruence. }
  assert (Hin : In (pk, r) (rows_where p t)) by (apply rows_where_elem; auto).
  pose proof (rows_where_NoDup p t) as Hnd.
  unfold objects_get.
  destruct (rows_where p t) as [| row [| row' rows]]; [destruct Hin | |].
  - rewrite (Hall row); [reflexivity | left; reflexivity].
  - exfalso.
    assert (row = row').
    { rewrite (Hall row), (Hall row'); [reflexivity | right; left | left]; reflexivity. }
    subst row'. apply NoDup_cons in Hnd as [Hnot _].
    apply Hnot. apply list_elem_of_In. left. reflexivity.
Qed.

Lemma objects_get_unique_cases {R K : Type} (key : R -> K) (p : R -> bool) (t : gmap Z R) :
  unique_on key t ->
  (forall r1 r2, p r1 = true -> p r2 = true -> key r1 = key r2) ->
  objects_get p t = Failed DoesNotExist \/ exists pk r, objects_get p t = Done (pk, r).
Proof.
  intros Huniq Hkey.
  destruct (rows_where p t) as [| [pk r] rows] eqn:Hrows.
  - left. unfold objects_get. rewrite Hrows. reflexivity.
  - right. exists pk, r.
    assert (Hin : In (pk, r) (rows_where p t)) by (rewrite Hrows; left; reflexivity).
    apply rows_where_elem in Hin as [Hr Hp].
    eapply objects_get_unique; eauto.
Qed.

Lemma unique_on_insert_new {R K : Type} (key : R -> K) (t : gmap Z R) (pk : Z) (r : R) :
  unique_on key t -> t !! pk = None ->
  (forall pk' r', t !! pk' = Some r' -> key r' <> key r) ->
  unique_on key (<[ pk := r ]> t).
Proof.
  intros Huniq Hfresh Hnew pk1 pk2 r1 r2 H1 H2 Hk.
  destruct (decide (pk1 = pk)) as [-> | Hne1], (decide (pk2 = pk)) as [-> | Hne2];
    [reflexivity | | |].
  - rewrite lookup_insert_eq in H1. rewrite lookup_insert_ne in H2 by congruence.
    injection H1 as <-. exfalso. eapply Hnew; eauto.
  - rewrite lookup_insert_eq in H2. rewrite lookup_insert_ne in H1 by congruence.
    injection H2 as <-. exfalso. eapply Hnew; eauto.
  - rewrite lookup_insert_ne in H1, H2 by congruence. eapply Huniq; eauto.
Qed.

Lemma unique_on_insert_same {R K : Type} (key : R -> K) (t : gmap Z R) (pk : Z) (r0 r : R) :
  unique_on key t -> t !! pk = Some r0 -> key r = key r0 ->
  unique_on key (<[ pk := r ]> t).
Proof.
  intros Huniq Hold Hk pk1 pk2 r1 r2 H1 H2 Hk12.
  destruct (decide (pk1 = pk)) as [-> | Hne1], (decide (pk2 = pk)) as [-> | Hne2];
    [reflexivity | | |].
  - rewrite lookup_insert_eq in H1. rewrite lookup_insert_ne in H2 by congruence.
    injection H1 as <-. symmetry. eapply Huniq; eauto. congruence.
  - rewrite lookup_insert_eq in H2. rewrite lookup_insert_ne in H1 by congruence.
    injection H2 as <-. eapply Huniq; eauto. congruence.
  - rewrite lookup_insert_ne in H1, H2 by congruence. eapply Huniq; eauto.
Qed.

(** What [get_or_create] does, case by case. *)
Lemma get_or_create_cases {R : Type} (p : R -> bool) (made : R)
    (table : Database -> gmap Z R) (store : Database -> gmap Z R -> Database)
    (db : Database) :
  (exists pk row,
      get_or_create p made table store db = (Done (pk, row, false), db)
      /\ objects_get p (table db) = Done (pk, row)
      /\ table db !! pk = Some row /\ p row = true)
  \/ (get_or_create p made table store db
      = (Done (next_pk (table db), made, true),
         store db (<[ next_pk (table db) := made ]> (table db)))
      /\ objects_get p (table db) = Failed DoesNotExist
      /\ forall pk row, table db !! pk = Some row -> p row = false)
  \/ (get_or_create p made table store db = (Failed MultipleObjectsReturned, db)
      /\ objects_get p (table db) = Failed MultipleObjectsReturned).
Proof.
  unfold get_or_create.
  destruct (objects_get p (table db)) as [[pk row] | e] eqn:Hget.
  - left. exists pk, row. apply objects_get_done in Hget as Hrow. tauto.
  - destruct (objects_get_failed _ _ _ Hget) as [-> | ->].
    + right. left. split; [reflexivity|]. split; [reflexivity|].
      apply objects_get_missing. assumption.
    + right. right. auto.
Qed.

(** A query that found its row found the only row that passes the filter,
    and the other way round. *)
Lemma objects_get_only {R : Type} (p : R -> bool) (t : gmap Z R) (pk : Z) (r : R) :
  objects_get p t = Done (pk, r) ->
  forall pk' r', t !! pk' = Some r' -> p r' = true -> pk' = pk.
Proof.
  unfold objects_get. destruct (rows_where p t) as [| row [| row' rows]] eqn:Hrows;
    try discriminate.
  intros [= ->] pk' r' Hr' Hp'.
  assert (Hin : In (pk', r') (rows_where p t)) by (apply rows_where_elem; auto).
  rewrite Hrows in Hin. destruct Hin as [[= <- _] | []]. reflexivity.
Qed.

Lemma objects_get_one {R : Type} (p : R -> bool) (t : gmap Z R) (pk : Z) (r : R) :
  (forall pk' r', t !! pk' = Some r' -> p r' = true -> pk' = pk) ->
  t !! pk = Some r -> p r = true ->
  objects_get p t = Done (pk, r).
Proof.
  intros Honly Hr Hp.
  assert (Hall : forall row, In row (rows_where p t) -> row = (pk, r)).
  { intros [pk' r'] Hin. apply rows_where_elem in Hin as [Hr' Hp'].
    assert (pk' = pk) as -> by (eapply Honly; eauto).
    congruence. }
  assert (Hin : In (pk, r) (rows_where p t)) by (apply rows_where_elem; auto).
  pose proof (rows_where_NoDup p t) as Hnd.
  unfold objects_get.
  destruct (rows_where p t) as [| row [| row' rows]]; [destruct Hin | |].
  - rewrite (Hall row); [reflexivity | left; reflexivity].
  - exfalso.
    assert (row = row').
    { rewrite (Hall row), (Hall row'); [reflexivity | right; left | left]; reflexivity. }
    subst row'. apply NoDup_cons in Hnd as [Hnot _].
    apply Hnot. apply list_elem_of_In. left. reflexivity.
Qed.

(** ** The uploads of a submission *)

Set Warnings "-notation-for-abbreviation".

Lemma audio_part_id_raises (key : string) (e : exn) :
  audio_part_id key = Raise e -> e = ValueError \/ e = IndexError.
Proof.
  unfold audio_part_id, getitem_from_end.
  destruct (2 <=? length (split_on "_" key))%nat; [|intros [= <-]; auto].
  destruct (nth_error _ _) as [part|]; simpl; [|intros [= <-]; auto].
  intros H. left. eapply py_int_raises; eassumption.
Qed.

Lemma is_audio_of_key (attempt_pk part : Z) (audio : AttemptAudio) :
  is_audio_of attempt_pk part audio = true <-> audio_key audio = (attempt_pk, part).
Proof.
  unfold is_audio_of, audio_key. rewrite andb_true_iff, !Z.eqb_eq.
  split; [intros [-> ->]; reflexivity | intros [= -> ->]; auto].
Qed.

Lemma same_but_audios_refl (db : Database) : same_but_audios db db.
Proof. repeat split. Qed.

Lemma same_but_audios_trans (db1 db2 db3 : Database) :
  same_but_audios db1 db2 -> same_but_audios db2 db3 -> same_but_audios db1 db3.
Proof.
  intros (H1 & H2 & H3 & H4 & H5) (K1 & K2 & K3 & K4 & K5).
  repeat split; congruence.
Qed.

Lemma vfor_each_app {A : Type} (body : A -> view unit) (l1 l2 : list A) (db : Database) :
  vfor_each body (l1 ++ l2) db
  = match vfor_each body l1 db with
    | (Done _, db1) => vfor_each body l2 db1
    | (Failed e, db1) => (Failed e, db1)
    end.
Proof.
  revert db. induction l1 as [| x l1 IH]; intros db; cbn [vfor_each app].
  - reflexivity.
  - unfold vbind. destruct (body x db) as [[[] | e] db1]; [apply IH | reflexivity].
Qed.

Lemma vfor_each_cons_done {A : Type} (body : A -> view unit) (x : A) (l : list A)
    (db db' : Database) :
  vfor_each body (x :: l) db = (Done tt, db') ->
  exists db1, body x db = (Done tt, db1) /\ vfor_each body l db1 = (Done tt, db').
Proof.
  cbn [vfor_each]. unfold vbind.
  destruct (body x db) as [[[] | e] db1]; [eauto | discriminate].
Qed.

Section Uploads.

Variable part_id_column : Z -> bool.

Local Notation step := (audio_step part_id_column).

(** An upload that raises has written nothing. *)
Lemma audio_step_failed (attempt_pk : Z) (upload : string * string) (db db' : Database)
    (e : view_exn) :
  step attempt_pk upload db = (Failed e, db') -> db' = db.
Proof.
  destruct upload as [key file]. unfold audio_step.
  destruct (endswith key "_audio"); [|discriminate].
  destruct (audio_part_id key) as [part | []]; try discriminate;
    try (intros [= _ <-]; reflexivity).
  destruct (part_id_column part); [|intros [= _ <-]; reflexivity].
  unfold vbind.
  destruct (get_or_create_cases (is_audio_of attempt_pk part)
              {| audio_attempt := attempt_pk; part_id := part; audio_file := file |}
              attempt_audios with_attempt_audios db)
    as [(pk & row & -> & _) | [(-> & _) | (-> & _)]]; cbn; try discriminate.
  intros [= _ <-]. reflexivity.
Qed.

(** One upload that raises nothing, on a table with at most one recording
    per attempt and part: it touches no other table and keeps the
    uniqueness; an upload with a part number leaves its file as the
    recording of that part and all other recordings as they were; any other
    upload changes nothing. *)
Lemma audio_step_done (attempt_pk : Z) (key file : string) (db db' : Database) :
  unique_on audio_key (attempt_audios db) ->
  step attempt_pk (key, file) db = (Done tt, db') ->
  same_but_audios db db'
  /\ unique_on audio_key (attempt_audios db')
  /\ fits part_id_column key
  /\ match upload_part key with
     | Some part =>
         recording db' attempt_pk part file
         /\ forall pk row, audio_key row <> (attempt_pk, part) ->
              attempt_audios db' !! pk = Some row <-> attempt_audios db !! pk = Some row
     | None => db' = db
     end.
Proof.
  intros Huniq. unfold audio_step, fits, upload_part.
  destruct (endswith key "_audio");
    [|intros [= <-]; repeat split; auto].
  destruct (audio_part_id key) as [part | e] eqn:Hpart.
  - destruct (part_id_column part); [|discriminate].
    set (made := {| audio_attempt := attempt_pk; part_id := part; audio_file := file |}).
    assert (Hcompat : forall r1 r2, is_audio_of attempt_pk part r1 = true ->
                        is_audio_of attempt_pk part r2 = true -> audio_key r1 = audio_key r2).
    { intros r1 r2 H1 H2. apply is_audio_of_key in H1, H2. congruence. }
    unfold vbind.
    destruct (get_or_create_cases (is_audio_of attempt_pk part) made
                attempt_audios with_attempt_audios db)
      as [(pk & row & -> & _ & Hrow & Hp) | [(-> & _ & Hnone) | (-> & _)]];
      [| |discriminate].
    + apply is_audio_of_key in Hp as Hkey. injection Hkey as Hatt Hprt.
      cbn [negb]. unfold save, write. rewrite Hatt, Hprt. fold made.
      intros [= <-]. cbn [attempt_audios with_attempt_audios].
      split; [repeat split|]. split; [|split; [reflexivity|split]].
      * eapply unique_on_insert_same; eauto. unfold audio_key. simpl. congruence.
      * exists pk. apply lookup_insert_eq.
      * intros pk' row' Hne.
        destruct (decide (pk' = pk)) as [-> | Hpk].
        -- rewrite lookup_insert_eq, Hrow. split; intros [= <-]; exfalso; apply Hne.
           ++ reflexivity.
           ++ unfold audio_key. congruence.
        -- rewrite lookup_insert_ne by congruence. reflexivity.
    + cbn [negb]. unfold vret.
      intros [= <-]. cbn [attempt_audios with_attempt_audios].
      split; [repeat split|]. split; [|split; [reflexivity|split]].
      * apply unique_on_insert_new; [assumption | apply next_pk_fresh |].
        intros pk' r' Hr' Hk. apply Hnone in Hr'.
        assert (is_audio_of attempt_pk part r' = true) by (apply is_audio_of_key; exact Hk).
        congruence.
      * exists (next_pk (attempt_audios db)). apply lookup_insert_eq.
      * intros pk' row' Hne.
        destruct (decide (pk' = next_pk (attempt_audios db))) as [-> | Hpk].
        -- rewrite lookup_insert_eq, next_pk_fresh. split; [|discriminate].
           intros [= <-]. exfalso. apply Hne. reflexivity.
        -- rewrite lookup_insert_ne by congruence. reflexivity.
  - destruct (audio_part_id_raises _ _ Hpart) as [-> | ->];
      intros [= <-]; repeat split; auto.
Qed.

(** An upload whose part number the column holds raises nothing, on a
    table with at most one recording per attempt and part. *)
Lemma audio_step_fits (attempt_pk : Z) (key file : string) (db : Database) :
  unique_on audio_key (attempt_audios db) ->
  fits part_id_column key ->
  exists db', step attempt_pk (key, file) db = (Done tt, db').
Proof.
  intros Huniq. unfold audio_step, fits, upload_part.
  destruct (endswith key "_audio"); [|eauto].
  destruct (audio_part_id key) as [part | e] eqn:Hpart.
  - intros ->.
    assert (Hcompat : forall r1 r2, is_audio_of attempt_pk part r1 = true ->
                        is_audio_of attempt_pk part r2 = true -> audio_key r1 = audio_key r2).
    { intros r1 r2 H1 H2. apply is_audio_of_key in H1, H2. congruence. }
    unfold vbind.
    destruct (get_or_create_cases (is_audio_of attempt_pk part)
                {| audio_attempt := attempt_pk; part_id := part; audio_file := file |}
                attempt_audios with_attempt_audios db)
      as [(pk & row & -> & _) | [(-> & _) | (_ & Hmulti)]]; cbn; eauto.
    exfalso.
    destruct (objects_get_unique_cases audio_key (is_audio_of attempt_pk part)
                (attempt_audios db) Huniq Hcompat) as [H | (pk & r & H)];
      congruence.
  - intros _. destruct (audio_part_id_raises _ _ Hpart) as [-> | ->]; eauto.
Qed.

(** The whole loop over the uploads, when it raises nothing. *)
Lemma audio_loop_done (attempt_pk : Z) (files : list (string * string)) (db db' : Database) :
  unique_on audio_key (attempt_audios db) ->
  vfor_each (step attempt_pk) files db = (Done tt, db') ->
  same_but_audios db db'
  /\ unique_on audio_key (attempt_audios db')
  /\ uploads_fit part_id_column files.
Proof.
  revert db. induction files as [| [key file] files IH]; intros db Huniq.
  - intros [= <-]. split; [apply same_but_audios_refl|]. split; [assumption | constructor].
  - intros Hrun. apply vfor_each_cons_done in Hrun as (db1 & Hstep & Hrest).
    apply audio_step_done in Hstep as (Hsame1 & Huniq1 & Hfits & _); [|assumption].
    destruct (IH db1 Huniq1 Hrest) as (Hsame2 & Huniq2 & Hfit).
    split; [eapply same_but_audios_trans; eassumption|].
    split; [assumption|]. constructor; assumption.
Qed.

(** The loop raises nothing when the column holds the part numbers of the
    uploads. *)
Lemma audio_loop_fits (attempt_pk : Z) (files : list (string * string)) (db : Database) :
  unique_on audio_key (attempt_audios db) ->
  uploads_fit part_id_column files ->
  exists db', vfor_each (step attempt_pk) files db = (Done tt, db').
Proof.
  intros Huniq Hfit. revert db Huniq.
  induction Hfit as [| [key file] files Hkey _ IH]; intros db Huniq.
  - exists db. reflexivity.
  - destruct (audio_step_fits attempt_pk key file db Huniq Hkey) as (db1 & Hstep).
    apply audio_step_done in Hstep as Hdone; [|assumption].
    destruct Hdone as (_ & Huniq1 & _).
    destruct (IH db1 Huniq1) as (db2 & Hloop).
    exists db2. cbn [vfor_each]. unfold vbind. rewrite Hstep. assumption.
Qed.

(** Whatever the outcome of the loop, the table keeps at most one
    recording per attempt and part. *)
Lemma audio_loop_unique (attempt_pk : Z) (files : list (string * string)) (db : Database) :
  unique_on audio_key (attempt_audios db) ->
  unique_on audio_key (attempt_audios (snd (vfor_each (step attempt_pk) files db))).
Proof.
  revert db. induction files as [| [key file] files IH]; intros db Huniq; cbn [vfor_each].
  - assumption.
  - unfold vbind.
    destruct (step attempt_pk (key, file) db) as [[[] | e] db1] eqn:Hstep.
    + apply IH. apply audio_step_done in Hstep as (_ & Huniq1 & _); assumption.
    + apply audio_step_failed in Hstep as ->. assumption.
Qed.

(** The uploads after the last one for a part leave its recording alone. *)
Lemma audio_loop_keeps (attempt_pk part : Z) (file : string)
    (files : list (string * string)) (db db' : Database) :
  unique_on audio_key (attempt_audios db) ->
  Forall (fun upload => upload_part (fst upload) <> Some part) files ->
  recording db attempt_pk part file ->
  vfor_each (step attempt_pk) files db = (Done tt, db') ->
  recording db' attempt_pk part file.
Proof.
  intros Huniq Hfiles. revert db Huniq.
  induction Hfiles as [| [key f] files Hkey _ IH]; intros db Huniq Hrec.
  - intros [= <-]. assumption.
  - intros Hrun. apply vfor_each_cons_done in Hrun as (db1 & Hstep & Hrest).
    apply audio_step_done in Hstep as (_ & Huniq1 & _ & Heffect); [|assumption].
    apply (IH db1 Huniq1); [|assumption].
    simpl in Hkey. destruct (upload_part key) as [other|]; [|subst db1; assumption].
    destruct Heffect as [_ Hothers]. destruct Hrec as (pk & Hpk).
    exists pk. apply Hothers; [|assumption].
    unfold audio_key. simpl. congruence.
Qed.


(** The file of the last upload for a part is the recording of the part. *)
Lemma last_upload_recorded (attempt_pk part : Z) (key file : string)
    (before after : list (string * string)) (db db' : Database) :
  unique_on audio_key (attempt_audios db) ->
  upload_part key = Some part ->
  Forall (fun upload => upload_part (fst upload) <> Some part) after ->
  vfor_each (step attempt_pk) (before ++ (key, file) :: after) db = (Done tt, db') ->
  recording db' attempt_pk part file /\ unique_on audio_key (attempt_audios db').
Proof.
  intros Huniq Hkey Hafter. rewrite vfor_each_app.
  destruct (vfor_each (step attempt_pk) before db) as [[[] | e] db1] eqn:Hrun1;
    [|discriminate].
  apply audio_loop_done in Hrun1 as (_ & Huniq1 & _); [|assumption].
  intros Hrun. apply vfor_each_cons_done in Hrun as (db2 & Hstep & Hrest).
  apply audio_step_done in Hstep as (_ & Huniq2 & _ & Heffect); [|assumption].
  rewrite Hkey in Heffect. destruct Heffect as [Hrec _].
  split.
  - exact (audio_loop_keeps attempt_pk part file after db2 db' Huniq2 Hafter Hrec Hrest).
  - apply audio_loop_done in Hrest as (_ & Huniq3 & _); assumption.
Qed.


(** X15.  Of the uploads for one part the last one is the recording kept:
    when the column [part_id] holds the part numbers of the uploads, the
    loop raises nothing and the file of the last upload whose key gives
    part [n] is the recording of part [n] of the attempt.  Uploads whose key
    does not end in [_audio] or carries no number are passed over. *)
Theorem X15_last_upload_kept (attempt_pk part : Z) (key file : string)
    (before after : list (string * string)) (db : Database) :
  unique_on audio_key (attempt_audios db) ->
  uploads_fit part_id_column (before ++ (key, file) :: after) ->
  upload_part key = Some part ->
  Forall (fun upload => upload_part (fst upload) <> Some part) after ->
  exists db',
    vfor_each (step attempt_pk) (before ++ (key, file) :: after) db = (Done tt, db')
    /\ recording db' attempt_pk part file.
Proof.
  intros Huniq Hfit Hkey Hafter.
  destruct (audio_loop_fits attempt_pk _ db Huniq Hfit) as (db' & Hrun).
  exists db'. split; [assumption|].
  eapply last_upload_recorded; eassumption.
Qed.

End Uploads.

Lemma sample_files_fit : uploads_fit sample_column sample_files.
Proof. repeat constructor. Qed.


Lemma X15_last_upload_kept_witness :
  exists db',
    vfor_each (audio_step sample_column 1)
      ([ ("speaking_part_2_audio", "take1.webm"); ("notes", "n.txt");
         ("speaking_part_x_audio", "bad.webm") ]%string
       ++ ("retake_part_2_audio", "take2.webm")%string :: []) sample_db
    = (Done tt, db')
    /\ recording db' 1 2 "take2.webm".
Proof.
  apply (X15_last_upload_kept sample_column 1 2 "retake_part_2_audio" "take2.webm").
  - intros pk1 pk2 r1 r2 H1. simpl in H1. rewrite lookup_empty in H1. discriminate.
  - apply sample_files_fit.
  - reflexivity.
  - constructor.
Defined.

(** ** [submit_attempt] *)

Section ViewProperties.

Variable json_dumps : answers_t -> string.
Variable json_loads : string -> option json_value.
Variable py_float : string -> result spec_float.
Variable attempt_defaults : Attempt.
Variable part_id_column : Z -> bool.

Local Notation submit := (submit_attempt json_dumps attempt_defaults part_id_column).
Local Notation review := (review_attempt json_loads py_float).

Lemma is_attempt_of_key (exam_id student : Z) (a : Attempt) :
  is_attempt_of exam_id student a = true <-> attempt_key a = (exam_id, student).
Proof.
  unfold is_attempt_of, attempt_key. rewrite andb_true_iff, !Z.eqb_eq.
  split; [intros [-> ->]; reflexivity | intros [= -> ->]; auto].
Qed.

Lemma student_group_of_state (student : Z) (db : Database) :
  snd (student_group_of student db) = db.
Proof.
  unfold student_group_of.
  destruct (objects_get _ _) as [[pk gs] | []]; reflexivity.
Qed.

(** The run of a submission that is answered with success. *)
Lemma submit_success (req : Request) (exam_id : Z) (db db' : Database) (msg url : string) :
  submit req exam_id db = (JsonSuccess msg url, db') ->
  exists exam group pk attempt0 created db1 answers db2 final,
    method req = "POST"%string
    /\ role (user req) = "student"%string
    /\ exams db !! exam_id = Some exam
    /\ student_group_of (user_pk (user req)) db = (Done group, db)
    /\ get_or_create (is_attempt_of exam_id (user_pk (user req)))
         (new_attempt attempt_defaults exam_id (user_pk (user req)) group (clock req 0))
         attempts with_attempts db
       = (Done (pk, attempt0, created), db1)
    /\ (created = true \/ status attempt0 = "in_progress"%string)
    /\ collect_answers (POST req) = Ok answers
    /\ vfor_each (audio_step part_id_column pk) (FILES req) db1 = (Done tt, db2)
    /\ (if is_auto_scored exam then
          exists score,
            calculate_auto_score exam answers = Ok score
            /\ final = scored (submitted json_dumps attempt0 answers (clock req 1))
                         (String.eqb (section_type exam) "reading") score (clock req 2)
        else final = submitted json_dumps attempt0 answers (clock req 1))
    /\ db' = with_attempts db2 (<[ pk := final ]> (attempts db2)).
Proof.
  unfold submit_attempt, submit_attempt_body.
  destruct (String.eqb (method req) "POST") eqn:Hmethod; cbn [negb]; [|discriminate].
  apply String.eqb_eq in Hmethod.
  unfold vbind at 1. unfold query, get_object_or_404.
  destruct (exams db !! exam_id) as [exam|] eqn:Hexam; [|discriminate].
  destruct (String.eqb (role (user req)) "student") eqn:Hrole; cbn [negb]; [|discriminate].
  apply String.eqb_eq in Hrole.
  unfold vbind at 1.
  pose proof (student_group_of_state (user_pk (user req)) db) as Hstate.
  destruct (student_group_of (user_pk (user req)) db) as [[group | e] db0] eqn:Hgroup;
    simpl in Hstate; subst db0; [|discriminate].
  unfold vbind at 1.
  destruct (get_or_create _ _ attempts with_attempts db) as [[[[pk attempt0] created] | e] db1]
    eqn:Hfound; [|discriminate].
  destruct (negb created && negb (String.eqb (status attempt0) "in_progress")) eqn:Hgate;
    [discriminate|].
  unfold vbind at 1.
  destruct (collect_answers (POST req)) as [answers | e] eqn:Hcollect; [|discriminate].
  cbn [lift]. unfold vret at 1. unfold vbind at 1.
  destruct (vfor_each (audio_step part_id_column pk) (FILES req) db1) as [[[] | e] db2] eqn:Hfiles;
    [|discriminate].
  unfold vbind at 1.
  intros Hrun.
  exists exam, group, pk, attempt0, created, db1, answers, db2.
  assert (Hgate' : created = true \/ status attempt0 = "in_progress"%string).
  { destruct created; [auto|]. right. cbn [negb andb] in Hgate.
    apply negb_false_iff, String.eqb_eq in Hgate. assumption. }
  destruct (is_auto_scored exam).
  - unfold vbind at 1 in Hrun.
    destruct (calculate_auto_score exam answers) as [score | e]; [|discriminate].
    cbn in Hrun. injection Hrun as _ _ <-.
    eexists. repeat split; eauto.
  - cbn in Hrun. injection Hrun as _ _ <-.
    eexists. repeat split; eauto.
Qed.


Lemma audio_step_tables (attempt_pk : Z) (upload : string * string) (db : Database) :
  same_but_audios db (snd (audio_step part_id_column attempt_pk upload db)).
Proof.
  destruct upload as [key file]. unfold audio_step.
  destruct (endswith key "_audio"); [|apply same_but_audios_refl].
  destruct (audio_part_id key) as [part | []]; try apply same_but_audios_refl.
  destruct (part_id_column part); [|apply same_but_audios_refl].
  unfold vbind.
  destruct (get_or_create_cases (is_audio_of attempt_pk part)
              {| audio_attempt := attempt_pk; part_id := part; audio_file := file |}
              attempt_audios with_attempt_audios db)
    as [(pk & row & -> & _) | [(-> & _) | (-> & _)]]; cbn; repeat split.
Qed.

Lemma audio_loop_tables (attempt_pk : Z) (files : list (string * string)) (db : Database) :
  same_but_audios db (snd (vfor_each (audio_step part_id_column attempt_pk) files db)).
Proof.
  revert db. induction files as [| upload files IH]; intros db; cbn [vfor_each].
  - apply same_but_audios_refl.
  - unfold vbind. pose proof (audio_step_tables attempt_pk upload db) as Hstep.
    destruct (audio_step part_id_column attempt_pk upload db) as [[[] | e] db1]; simpl in Hstep.
    + eapply same_but_audios_trans; [eassumption | apply IH].
    + assumption.
Qed.

(** The attempt that a submission works on. *)
Lemma attempt_get_or_create (exam_id student : Z) (made : Attempt) (db db1 : Database)
    (pk : Z) (attempt0 : Attempt) (created : bool) :
  attempt_key made = (exam_id, student) ->
  get_or_create (is_attempt_of exam_id student) made attempts with_attempts db
  = (Done (pk, attempt0, created), db1) ->
  attempt_key attempt0 = (exam_id, student)
  /\ attempts db1 !! pk = Some attempt0
  /\ (forall pk' r', attempts db1 !! pk' = Some r' -> attempt_key r' = (exam_id, student) ->
        pk' = pk)
  /\ (if created then
        attempt0 = made /\ attempts db !! pk = None
        /\ db1 = with_attempts db (<[ pk := made ]> (attempts db))
      else db1 = db).
Proof.
  intros Hmade.
  destruct (get_or_create_cases (is_attempt_of exam_id student) made
              attempts with_attempts db)
    as [(pk0 & row & -> & Hget & Hrow & Hp) | [(-> & _ & Hnone) | (-> & _)]];
    [| |discriminate]; intros [= <- <- <- <-].
  - split; [apply is_attempt_of_key; assumption|]. split; [assumption|].
    split; [|reflexivity].
    intros pk' r' Hr' Hk. eapply objects_get_only; eauto.
    apply is_attempt_of_key. assumption.
  - split; [assumption|]. cbn [attempts with_attempts].
    split; [apply lookup_insert_eq|]. split.
    + intros pk' r' Hr' Hk.
      destruct (decide (pk' = next_pk (attempts db))) as [-> | Hne]; [reflexivity|].
      rewrite lookup_insert_ne in Hr' by congruence.
      apply Hnone in Hr'. apply is_attempt_of_key in Hk. congruence.
    + split; [reflexivity|]. split; [apply next_pk_fresh | reflexivity].
Qed.

Lemma get_or_create_failed {R : Type} (p : R -> bool) (made : R)
    (table : Database -> gmap Z R) (store : Database -> gmap Z R -> Database)
    (db db1 : Database) (e : view_exn) :
  get_or_create p made table store db = (Failed e, db1) ->
  db1 = db /\ objects_get p (table db) = Failed MultipleObjectsReturned.
Proof.
  destruct (get_or_create_cases p made table store db)
    as [(pk0 & row & -> & _) | [(-> & _) | (-> & Hget)]]; try discriminate.
  intros [= _ <-]. auto.
Qed.

Ltac attempt_fields :=
  cbn [attempt_exam attempt_student attempt_group status submitted_at completed_at
       attempt_answers reading_score listening_score total_score
       scored submitted reviewed new_attempt].

Ltac run_submit req exam_id db :=
  unfold submit_attempt, submit_attempt_body;
  destruct (String.eqb (method req) "POST") eqn:Hmethod; cbn [negb];
  [ unfold vbind at 1; unfold query, get_object_or_404;
    destruct (exams db !! exam_id) as [exam|] eqn:Hexam;
    [ destruct (String.eqb (role (user req)) "student") eqn:Hrole; cbn [negb];
      [ unfold vbind at 1;
        pose proof (student_group_of_state (user_pk (user req)) db) as Hstate;
        destruct (student_group_of (user_pk (user req)) db) as [[group | e] db0] eqn:Hgroup;
        simpl in Hstate; subst db0;
        [ unfold vbind at 1;
          destruct (get_or_create _ _ attempts with_attempts db)
            as [[[[pk attempt0] created] | e] db1] eqn:Hfound;
          [ destruct (negb created && negb (String.eqb (status attempt0) "in_progress"))
              eqn:Hgate;
            [ | unfold vbind at 1;
                destruct (collect_answers (POST req)) as [answers | e] eqn:Hcollect;
                cbn [lift];
                [ unfold vret at 1; unfold vbind at 1;
                  destruct (vfor_each (audio_step part_id_column pk) (FILES req) db1)
                    as [[[] | e] db2] eqn:Hfiles;
                  [ unfold vbind at 1;
                    destruct (is_auto_scored exam) eqn:Hauto;
                    [ unfold vbind at 1;
                      destruct (calculate_auto_score exam answers) as [score | e] eqn:Hscore
                    | ]
                  | ]
                | ] ]
          | ]
        | ]
      | ]
    | ]
  | ].

(** The refusals of a submission, from the answer to its cause. *)
Lemma refusal_cases (req : Request) (exam_id : Z) (db db' : Database)
    (code : Z) (msg : string) :
  submit req exam_id db = (JsonError code msg, db') ->
  db' = db
  /\ (code = 405 /\ method req <> "POST"%string
      \/ code = 403 /\ method req = "POST"%string /\ is_Some (exams db !! exam_id)
         /\ role (user req) <> "student"%string
      \/ code = 400 /\ method req = "POST"%string /\ is_Some (exams db !! exam_id)
         /\ role (user req) = "student"%string
         /\ exists pk attempt,
              attempts db !! pk = Some attempt
              /\ attempt_exam attempt = exam_id
              /\ attempt_student attempt = user_pk (user req)
              /\ status attempt <> "in_progress"%string).
Proof.
  run_submit req exam_id db; cbn; try discriminate; intros [= <- <- <-].
  - apply String.eqb_eq in Hmethod, Hrole.
    destruct created; [discriminate|]. cbn [negb andb] in Hgate.
    apply negb_true_iff, String.eqb_neq in Hgate.
    apply attempt_get_or_create in Hfound as (Hkey & Hrow & _ & ->); [|reflexivity].
    injection Hkey as Hexam_id Hstudent.
    split; [reflexivity|]. right. right.
    split; [reflexivity|]. split; [assumption|]. split; [eauto|]. split; [assumption|].
    exists pk, attempt0. tauto.
  - apply String.eqb_eq in Hmethod. apply String.eqb_neq in Hrole.
    split; [reflexivity|]. right. left. split; [reflexivity|]. split; [assumption|].
    split; [eauto | assumption].
  - apply String.eqb_neq in Hmethod. split; [reflexivity|]. left. tauto.
Qed.


Lemma student_group_of_same (student : Z) (db db' : Database) (group : option Z) :
  group_students db' = group_students db ->
  student_group_of student db = (Done group, db) ->
  student_group_of student db' = (Done group, db').
Proof.
  unfold student_group_of. intros ->.
  destruct (objects_get _ _) as [[pk gs] | []]; intros [= <-]; try discriminate; reflexivity.
Qed.

Lemma final_attempt (exam : Exam) (attempt0 final : Attempt) (answers : answers_t)
    (now1 now2 : Z) :
  (if is_auto_scored exam then
     exists score,
       calculate_auto_score exam answers = Ok score
       /\ final = scored (submitted json_dumps attempt0 answers now1)
                    (String.eqb (section_type exam) "reading") score now2
   else final = submitted json_dumps attempt0 answers now1) ->
  attempt_key final = attempt_key attempt0
  /\ status final <> "in_progress"%string
  /\ attempt_answers final = Some (json_dumps answers)
  /\ submitted_at final = Some now1.
Proof.
  destruct (is_auto_scored exam); [intros (score & _ & ->) | intros ->];
    repeat split; discriminate.
Qed.

(** The database after a submission that is answered with success. *)
Lemma submit_success_state (req : Request) (exam_id : Z) (db db' : Database)
    (msg url : string) :
  submit req exam_id db = (JsonSuccess msg url, db') ->
  exists exam group pk attempt0 answers final,
    method req = "POST"%string
    /\ role (user req) = "student"%string
    /\ exams db !! exam_id = Some exam
    /\ student_group_of (user_pk (user req)) db = (Done group, db)
    /\ collect_answers (POST req) = Ok answers
    /\ attempt_key attempt0 = (exam_id, user_pk (user req))
    /\ (attempts db !! pk = Some attempt0 /\ status attempt0 = "in_progress"%string
        \/ attempts db !! pk = None
           /\ attempt0 = new_attempt attempt_defaults exam_id (user_pk (user req)) group
                           (clock req 0))
    /\ (if is_auto_scored exam then
          exists score,
            calculate_auto_score exam answers = Ok score
            /\ final = scored (submitted json_dumps attempt0 answers (clock req 1))
                         (String.eqb (section_type exam) "reading") score (clock req 2)
        else final = submitted json_dumps attempt0 answers (clock req 1))
    /\ attempts db' !! pk = Some final
    /\ (forall pk' r', attempts db' !! pk' = Some r' ->
          attempt_key r' = (exam_id, user_pk (user req)) -> pk' = pk)
    /\ (forall pk', pk' <> pk -> attempts db' !! pk' = attempts db !! pk')
    /\ exams db' = exams db
    /\ group_students db' = group_students db
    /\ reviews db' = reviews db
    /\ writing_tasks db' = writing_tasks db.
Proof.
  intros Hrun.
  apply submit_success in Hrun
    as (exam & group & pk & attempt0 & created & db1 & answers & db2 & final
        & Hmethod & Hrole & Hexam & Hgroup & Hfound & Hgate & Hcollect & Hfiles
        & Hfinal & ->).
  apply attempt_get_or_create in Hfound as (Hkey & Hrow & Honly & Hcreated);
    [|reflexivity].
  pose proof (audio_loop_tables pk (FILES req) db1) as Hsame.
  rewrite Hfiles in Hsame. cbn [snd] in Hsame. destruct Hsame as (Hexams & Hgroups & Hattempts & Hreviews & Htasks).
  exists exam, group, pk, attempt0, answers, final.
  cbn [attempts exams group_students reviews writing_tasks with_attempts].
  rewrite Hattempts, Hexams, Hgroups, Hreviews, Htasks.
  do 5 (split; [assumption|]). split; [assumption|].
  assert (Hdb1 : (attempts db !! pk = Some attempt0 /\ status attempt0 = "in_progress"%string
                  \/ attempts db !! pk = None
                     /\ attempt0 = new_attempt attempt_defaults exam_id (user_pk (user req))
                                     group (clock req 0))
                 /\ (forall pk', pk' <> pk -> attempts db1 !! pk' = attempts db !! pk')
                 /\ exams db1 = exams db /\ group_students db1 = group_students db
                 /\ reviews db1 = reviews db /\ writing_tasks db1 = writing_tasks db).
  { destruct created.
    - destruct Hcreated as (-> & Hfresh & ->). cbn.
      split; [right; auto|]. split; [|auto].
      intros pk' Hne. apply lookup_insert_ne. congruence.
    - subst db1. destruct Hgate as [|Hstatus]; [discriminate|].
      split; [left; auto|]. auto. }
  destruct Hdb1 as (Hbefore & Hothers & -> & -> & -> & ->).
  split; [assumption|]. split; [assumption|].
  split; [apply lookup_insert_eq|]. split.
  - intros pk' r' Hr' Hk.
    destruct (decide (pk' = pk)) as [|Hne]; [assumption|].
    rewrite lookup_insert_ne in Hr' by congruence. eapply Honly; eauto.
  - split; [|auto]. intros pk' Hne. rewrite lookup_insert_ne by congruence. auto.
Qed.

(** X17.  An attempt is submitted once: after a submission that was
    answered with success, every further POST of the same student for the
    same exam is answered with status 400 and writes nothing, whatever it
    posts. *)
Theorem X17_second_submission_refused (req again : Request) (exam_id : Z)
    (db db' : Database) (msg url : string) :
  submit req exam_id db = (JsonSuccess msg url, db') ->
  user again = user req ->
  method again = "POST"%string ->
  submit again exam_id db' = (JsonError 400 "Attempt already submitted", db').
Proof.
  intros Hrun Huser Hpost.
  apply submit_success_state in Hrun
    as (exam & group & pk & attempt0 & answers & final
        & _ & Hrole & Hexam & Hgroup & _ & Hkey & _ & Hfinal & Hrow & Honly & _
        & Hexams & Hgroups & _).
  apply final_attempt in Hfinal as (Hkey' & Hstatus & _).
  unfold submit_attempt, submit_attempt_body.
  rewrite Hpost, Huser, Hrole, !String.eqb_refl. cbn [negb].
  unfold vbind at 1. unfold query, get_object_or_404. rewrite Hexams, Hexam.
  unfold vbind at 1.
  rewrite (student_group_of_same _ db db' group Hgroups Hgroup).
  unfold vbind at 1. unfold get_or_create.
  rewrite (objects_get_one (is_attempt_of exam_id (user_pk (user req))) (attempts db') pk final).
  - apply String.eqb_neq in Hstatus. rewrite Hstatus. reflexivity.
  - intros pk' r' Hr' Hp. apply is_attempt_of_key in Hp. eauto.
  - assumption.
  - apply is_attempt_of_key. congruence.
Qed.

(** X18.  A submission to a reading or listening exam that is answered
    with success leaves the attempt of the student at the exam completed:
    its total score and the score of its section are the score that
    [calculate_auto_score] gives to the answers collected from the form, one
    of the listed bands; the answers are stored; the attempt is not among
    those pending review. *)
Theorem X18_auto_scored_submission (req : Request) (exam_id : Z) (db db' : Database)
    (msg url : string) (exam : Exam) :
  submit req exam_id db = (JsonSuccess msg url, db') ->
  exams db !! exam_id = Some exam ->
  is_auto_scored exam = true ->
  exists pk attempt answers score,
    attempts db' !! pk = Some attempt
    /\ attempt_exam attempt = exam_id
    /\ attempt_student attempt = user_pk (user req)
    /\ collect_answers (POST req) = Ok answers
    /\ calculate_auto_score exam answers = Ok score
    /\ In score band_scores
    /\ status attempt = "completed"%string
    /\ total_score attempt = Some score
    /\ (if String.eqb (section_type exam) "reading"
        then reading_score attempt = Some score
        else listening_score attempt = Some score)
    /\ attempt_answers attempt = Some (json_dumps answers)
    /\ submitted_at attempt = Some (clock req 1)
    /\ completed_at attempt = Some (clock req 2)
    /\ is_pending db' attempt = false.
Proof.
  intros Hrun Hexam Hauto.
  apply submit_success_state in Hrun
    as (exam' & group & pk & attempt0 & answers & final
        & _ & _ & Hexam' & _ & Hcollect & Hkey & _ & Hfinal & Hrow & _).
  assert (exam' = exam) as -> by congruence.
  rewrite Hauto in Hfinal. destruct Hfinal as (score & Hscore & ->).
  injection Hkey as Hexam_id Hstudent.
  exists pk. eexists. exists answers, score.
  split; [exact Hrow|]. attempt_fields.
  do 4 (split; [assumption|]).
  split.
  { destruct (auto_score_listed exam answers) as (score' & Hscore' & Hin). congruence. }
  split; [reflexivity|]. split; [reflexivity|].
  split; [destruct (String.eqb (section_type exam) "reading"); reflexivity|].
  repeat split.
Qed.

(** X19.  A submission to an exam of any other section that is answered
    with success leaves the attempt submitted, with the answers stored and
    no score written: the scores and the time of completion are those the
    attempt had before, or those of a new attempt.  It is pending review
    exactly when the exam is a writing or a speaking exam. *)
Theorem X19_manual_submission (req : Request) (exam_id : Z) (db db' : Database)
    (msg url : string) (exam : Exam) :
  submit req exam_id db = (JsonSuccess msg url, db') ->
  exams db !! exam_id = Some exam ->
  is_auto_scored exam = false ->
  exists pk attempt answers before,
    attempts db' !! pk = Some attempt
    /\ attempt_exam attempt = exam_id
    /\ attempt_student attempt = user_pk (user req)
    /\ collect_answers (POST req) = Ok answers
    /\ status attempt = "submitted"%string
    /\ attempt_answers attempt = Some (json_dumps answers)
    /\ submitted_at attempt = Some (clock req 1)
    /\ (attempts db !! pk = Some before
        \/ attempts db !! pk = None /\ before = attempt_defaults)
    /\ total_score attempt = total_score before
    /\ reading_score attempt = reading_score before
    /\ listening_score attempt = listening_score before
    /\ completed_at attempt = completed_at before
    /\ is_pending db' attempt
       = (String.eqb (section_type exam) "writing"
          || String.eqb (section_type exam) "speaking").
Proof.
  intros Hrun Hexam Hauto.
  apply submit_success_state in Hrun
    as (exam' & group & pk & attempt0 & answers & final
        & _ & _ & Hexam' & _ & Hcollect & Hkey & Hbefore & Hfinal & Hrow & _ & _
        & Hexams & _).
  assert (exam' = exam) as -> by congruence.
  rewrite Hauto in Hfinal. subst final.
  injection Hkey as Hexam_id Hstudent.
  exists pk. eexists. exists answers,
    (match attempts db !! pk with Some old => old | None => attempt_defaults end).
  split; [exact Hrow|]. attempt_fields.
  do 3 (split; [assumption|]). do 3 (split; [reflexivity|]).
  assert (Hpending : is_pending db' (submitted json_dumps attempt0 answers (clock req 1))
                     = (String.eqb (section_type exam) "writing"
                        || String.eqb (section_type exam) "speaking")).
  { unfold is_pending. rewrite Hexams. attempt_fields.
    rewrite Hexam_id, Hexam. reflexivity. }
  destruct Hbefore as [[-> _] | [-> ->]]; repeat split; auto.
Qed.


Lemma consistent_same_but_audios (db db' : Database) :
  same_but_audios db db' ->
  unique_on audio_key (attempt_audios db') ->
  consistent db -> consistent db'.
Proof.
  intros (_ & Hgroups & Hattempts & Hreviews & _) Haudios (Ha & _ & Hr & Hg).
  unfold consistent. rewrite Hgroups, Hattempts, Hreviews. auto.
Qed.

Lemma consistent_save_attempt (db : Database) (pk : Z) (attempt0 attempt : Attempt) :
  consistent db ->
  attempts db !! pk = Some attempt0 ->
  attempt_key attempt = attempt_key attempt0 ->
  consistent (with_attempts db (<[ pk := attempt ]> (attempts db))).
Proof.
  intros (Ha & Hrest) Hrow Hkey. split; [|exact Hrest].
  cbn [attempts with_attempts]. eapply unique_on_insert_same; eauto.
Qed.

Lemma consistent_attempt_found (exam_id student : Z) (made : Attempt) (db db1 : Database)
    (pk : Z) (attempt0 : Attempt) (created : bool) :
  attempt_key made = (exam_id, student) ->
  get_or_create (is_attempt_of exam_id student) made attempts with_attempts db
  = (Done (pk, attempt0, created), db1) ->
  consistent db -> consistent db1.
Proof.
  intros Hmade Hfound Hdb.
  apply attempt_get_or_create in Hfound as (_ & _ & Honly & Hcreated); [|assumption].
  destruct created; [|congruence].
  destruct Hcreated as (-> & Hfresh & ->).
  destruct Hdb as (Ha & Hrest). split; [|exact Hrest].
  cbn [attempts with_attempts] in *.
  apply unique_on_insert_new; [assumption | assumption |].
  intros pk' r' Hr' Hk.
  assert (pk' = pk).
  { apply (Honly pk' r'); [|congruence].
    rewrite lookup_insert_ne; [assumption|]. congruence. }
  congruence.
Qed.

Lemma student_group_of_failed (student : Z) (db db' : Database) (e : view_exn) :
  student_group_of student db = (Failed e, db') ->
  ~ unique_on gs_student (group_students db).
Proof.
  unfold student_group_of. intros Hrun Huniq.
  destruct (objects_get_unique_cases gs_student (fun gs => gs_student gs =? student)
              (group_students db) Huniq) as [Hget | (pk & gs & Hget)].
  - intros r1 r2 H1 H2. apply Z.eqb_eq in H1, H2. congruence.
  - rewrite Hget in Hrun. discriminate.
  - rewrite Hget in Hrun. discriminate.
Qed.


Lemma submit_consistent (req : Request) (exam_id : Z) (db : Database) :
  consistent db -> consistent (snd (submit req exam_id db)).
Proof.
  intros Hdb.
  run_submit req exam_id db; cbn [snd vret vraise lift vbind save write];
    try assumption;
    try (apply get_or_create_failed in Hfound as [-> _]; assumption);
    pose proof (consistent_attempt_found _ _ _ _ _ _ _ _ eq_refl Hfound Hdb) as Hdb1;
    try assumption;
    pose proof (audio_loop_tables pk (FILES req) db1) as Hsame;
    rewrite Hfiles in Hsame; cbn [snd] in Hsame;
    pose proof (audio_loop_unique part_id_column pk (FILES req) db1 (proj1 (proj2 Hdb1)))
      as Huniq;
    rewrite Hfiles in Huniq; cbn [snd] in Huniq;
    pose proof (consistent_same_but_audios db1 db2 Hsame Huniq Hdb1) as Hdb2;
    try assumption;
    apply attempt_get_or_create in Hfound as (_ & Hrow & _); try reflexivity;
    (eapply consistent_save_attempt;
     [ assumption | destruct Hsame as (_ & _ & -> & _); eassumption | reflexivity ]).
Qed.

(** X16.  The refusals of [submit_attempt].  Every method but POST is
    answered with status 405.  A POST for an exam that does not exist is
    answered with status 500, whoever sends it: the exam is looked up before
    the role is tested.  A POST for an exam that exists from a user who is
    no student is answered with status 403.  On a consistent database a
    POST of a student whose attempt at the exam exists and is not in
    progress is answered with status 400.  These are the only answers of
    status 405, 403 and 400, and none of them, nor the answer 500 for the
    unknown exam, has written to the database. *)
Theorem X16_refusal_writes_nothing (req : Request) (exam_id : Z) (db : Database) :
  (method req <> "POST"%string ->
   submit req exam_id db = (JsonError 405 "POST method required", db))
  /\ (method req = "POST"%string -> exams db !! exam_id = None ->
      submit req exam_id db = (JsonServerError Http404, db))
  /\ (method req = "POST"%string -> is_Some (exams db !! exam_id) ->
      role (user req) <> "student"%string ->
      submit req exam_id db = (JsonError 403 "Only students can submit attempts", db))
  /\ (forall pk attempt,
        method req = "POST"%string -> is_Some (exams db !! exam_id) ->
        role (user req) = "student"%string ->
        consistent db ->
        attempts db !! pk = Some attempt ->
        attempt_exam attempt = exam_id ->
        attempt_student attempt = user_pk (user req) ->
        status attempt <> "in_progress"%string ->
        submit req exam_id db = (JsonError 400 "Attempt already submitted", db))
  /\ (forall code msg db',
        submit req exam_id db = (JsonError code msg, db') ->
        db' = db
        /\ (code = 405 /\ method req <> "POST"%string
            \/ code = 403 /\ method req = "POST"%string /\ is_Some (exams db !! exam_id)
               /\ role (user req) <> "student"%string
            \/ code = 400 /\ method req = "POST"%string /\ is_Some (exams db !! exam_id)
               /\ role (user req) = "student"%string
               /\ exists pk attempt,
                    attempts db !! pk = Some attempt
                    /\ attempt_exam attempt = exam_id
                    /\ attempt_student attempt = user_pk (user req)
                    /\ status attempt <> "in_progress"%string)).
Proof.
  split; [|split; [|split; [|split]]].
  - intros Hmethod. apply String.eqb_neq in Hmethod.
    unfold submit_attempt, submit_attempt_body. rewrite Hmethod. reflexivity.
  - intros Hmethod Hnone.
    unfold submit_attempt, submit_attempt_body. rewrite Hmethod, String.eqb_refl.
    cbn [negb]. unfold vbind at 1. unfold query, get_object_or_404. rewrite Hnone.
    reflexivity.
  - intros Hmethod [exam Hexam] Hrole. apply String.eqb_neq in Hrole.
    unfold submit_attempt, submit_attempt_body. rewrite Hmethod, String.eqb_refl.
    cbn [negb]. unfold vbind at 1. unfold query, get_object_or_404. rewrite Hexam, Hrole.
    reflexivity.
  - intros pk attempt Hmethod [exam Hexam] Hrole Hdb Hrow Hexam_id Hstudent Hstatus.
    unfold submit_attempt, submit_attempt_body.
    rewrite Hmethod, Hrole, !String.eqb_refl. cbn [negb].
    unfold vbind at 1. unfold query, get_object_or_404. rewrite Hexam.
    unfold vbind at 1.
    pose proof (student_group_of_state (user_pk (user req)) db) as Hstate.
    destruct (student_group_of (user_pk (user req)) db) as [[group | e] db0] eqn:Hgroup;
      simpl in Hstate; subst db0.
    + unfold vbind at 1. unfold get_or_create.
      rewrite (objects_get_unique attempt_key
                 (is_attempt_of exam_id (user_pk (user req))) (attempts db) pk attempt).
      * apply String.eqb_neq in Hstatus. rewrite Hstatus. reflexivity.
      * apply Hdb.
      * intros r1 r2 H1 H2. apply is_attempt_of_key in H1, H2. congruence.
      * assumption.
      * apply is_attempt_of_key. unfold attempt_key. congruence.
    + exfalso. eapply student_group_of_failed; [eassumption | apply Hdb].
  - intros code msg db'. apply refusal_cases.
Qed.

(** X20.  A submission keeps the database consistent, whatever its
    outcome: at most one attempt per exam and student, one recording per
    attempt and part, one review per attempt and mentor and one group per
    student before it, and the same after it. *)
Theorem X20_submission_keeps_consistency (req : Request) (exam_id : Z) (db : Database) :
  consistent db -> consistent (snd (submit req exam_id db)).
Proof. apply submit_consistent. Qed.



(** ** [review_attempt] and [pending_reviews] *)

Lemma float_field_state (req : Request) (key : string) (db : Database) :
  snd (float_field py_float req key db) = db.
Proof.
  unfold float_field. destruct (querydict_get (POST req) key); [|reflexivity].
  destruct (py_float s); reflexivity.
Qed.

Ltac run_review req attempt_id db :=
  unfold review_attempt;
  unfold vbind at 1; unfold query at 1; unfold get_object_or_404;
  destruct (attempts db !! attempt_id) as [attempt|] eqn:Hattempt;
  [ destruct (String.eqb (role (user req)) "mentor") eqn:Hrole; cbn [negb];
    [ unfold vbind at 1; unfold query at 1;
      destruct (exams db !! attempt_exam attempt) as [exam|] eqn:Hexam;
      [ unfold vbind at 1; unfold query at 1;
        unfold vbind at 1; unfold query at 1;
        match goal with
        | |- context [if String.eqb (section_type exam) "writing" then ?views else Done []] =>
            destruct (if String.eqb (section_type exam) "writing" then views else Done [])
              as [tasks | e] eqn:Htasks
        end;
        [ destruct (String.eqb (method req) "POST") eqn:Hmethod;
          [ unfold vbind at 1;
            pose proof (float_field_state req "task_achievement" db) as Hstate;
            destruct (float_field py_float req "task_achievement" db) as [[ta | e] db0] eqn:Hta;
            simpl in Hstate; subst db0;
            [ unfold vbind at 1;
            pose proof (float_field_state req "coherence_cohesion" db) as Hstate;
            destruct (float_field py_float req "coherence_cohesion" db) as [[cc | e] db0] eqn:Hcc;
            simpl in Hstate; subst db0;
              [ unfold vbind at 1;
            pose proof (float_field_state req "lexical_resource" db) as Hstate;
            destruct (float_field py_float req "lexical_resource" db) as [[lr | e] db0] eqn:Hlr;
            simpl in Hstate; subst db0;
                [ unfold vbind at 1;
            pose proof (float_field_state req "grammatical_range" db) as Hstate;
            destruct (float_field py_float req "grammatical_range" db) as [[gr | e] db0] eqn:Hgr;
            simpl in Hstate; subst db0;
                  [ unfold vbind at 1;
                    destruct (overall_score ta cc lr gr) as [overall | e] eqn:Hoverall;
                    cbn [lift];
                    [ unfold vret at 1; unfold vbind at 1;
                      destruct (get_or_create _ _ reviews with_reviews db)
                        as [[[[rpk found] created] | e] db1] eqn:Hfound
                    | ]
                  | ]
                | ]
              | ]
            | ]
          | ]
        | ]
      | ]
    | ]
  | ].

(** X22.  [review_attempt] writes to the database only when it saves a
    review, which it does only for a POST of a mentor and answers with the
    redirect to the pending reviews; in every other outcome, exceptions
    included, the database is as it was. *)
Theorem X22_review_writes_only_when_saved (req : Request) (attempt_id : Z) (db : Database) :
  snd (review req attempt_id db) = db
  \/ fst (review req attempt_id db)
      = Done (Redirect "pending_reviews" "Baholash muvaffaqiyatli saqlandi!")
     /\ method req = "POST"%string /\ role (user req) = "mentor"%string.
Proof.
  assert (Hrun : match review req attempt_id db with
                 | (Done (Redirect to message), db') =>
                     db' = db
                     \/ to = "pending_reviews"%string
                        /\ message = "Baholash muvaffaqiyatli saqlandi!"%string
                        /\ method req = "POST"%string /\ role (user req) = "mentor"%string
                 | (_, db') => db' = db
                 end).
  { run_review req attempt_id db; cbn [vret vraise]; try reflexivity; try (left; reflexivity).
    - destruct created; cbn; right; apply String.eqb_eq in Hmethod, Hrole; auto.
    - apply get_or_create_failed in Hfound as [-> _]. reflexivity. }
  destruct (review req attempt_id db) as [[[] | e] db']; cbn [fst snd]; auto.
  destruct Hrun as [-> | (-> & -> & Hm & Hr)]; auto.
Qed.


Lemma is_review_of_key (attempt_pk mentor_pk : Z) (r : Review) :
  is_review_of attempt_pk mentor_pk r = true <-> review_key r = (attempt_pk, mentor_pk).
Proof.
  unfold is_review_of, review_key. rewrite andb_true_iff, !Z.eqb_eq.
  split; [intros [-> ->]; reflexivity | intros [= -> ->]; auto].
Qed.

(** The run of a review that is saved. *)
Lemma review_saved (req : Request) (attempt_id : Z) (db db' : Database) (msg : string) :
  review req attempt_id db = (Done (Redirect "pending_reviews" msg), db') ->
  exists attempt ta cc lr gr overall rpk at_review at_completion,
    method req = "POST"%string
    /\ role (user req) = "mentor"%string
    /\ attempts db !! attempt_id = Some attempt
    /\ float_field py_float req "task_achievement" db = (Done ta, db)
    /\ float_field py_float req "coherence_cohesion" db = (Done cc, db)
    /\ float_field py_float req "lexical_resource" db = (Done lr, db)
    /\ float_field py_float req "grammatical_range" db = (Done gr, db)
    /\ overall_score ta cc lr gr = Ok overall
    /\ (reviews db !! rpk = None
        /\ (forall pk r, reviews db !! pk = Some r ->
              review_key r <> (attempt_id, user_pk (user req)))
        /\ at_review = clock req 0 /\ at_completion = clock req 1
        \/ (exists old, reviews db !! rpk = Some old
                        /\ review_key old = (attempt_id, user_pk (user req)))
           /\ (forall pk r, reviews db !! pk = Some r ->
                 review_key r = (attempt_id, user_pk (user req)) -> pk = rpk)
           /\ at_review = clock req 1 /\ at_completion = clock req 2)
    /\ db' = with_attempts
               (with_reviews db
                  (<[ rpk := {| review_of := attempt_id; mentor := user_pk (user req);
                                task_achievement := ta; coherence_cohesion := cc;
                                lexical_resource := lr; grammatical_range := gr;
                                review_overall := overall;
                                feedback := match querydict_get (POST req) "feedback" with
                                            | Some text => text
                                            | None => ""%string
                                            end;
                                reviewed_at := at_review |} ]> (reviews db)))
               (<[ attempt_id := reviewed attempt overall at_completion ]> (attempts db)).
Proof.
  run_review req attempt_id db; cbn [vret vraise]; try discriminate.
  - apply String.eqb_eq in Hmethod, Hrole.
    match type of Hfound with
    | get_or_create ?p ?made _ _ _ = _ =>
        destruct (get_or_create_cases p made reviews with_reviews db)
          as [(pk0 & row & Hrun & Hget & Hrow & Hp) | [(Hrun & _ & Hnone) | (Hrun & _)]]
    end;
      rewrite Hrun in Hfound; [| |discriminate];
      injection Hfound as <- <- <- <-; cbn; intros [= _ <-].
    + apply is_review_of_key in Hp as Hkey. injection Hkey as Hof Hmentor.
      exists attempt, ta, cc, lr, gr, overall, pk0, (clock req 1), (clock req 2).
      do 8 (split; [first [assumption | reflexivity]|]). split.
      * right. split; [exists row; split; [assumption | apply is_review_of_key; assumption]|].
        split; [|auto].
        intros pk r Hr Hk. eapply objects_get_only; eauto. apply is_review_of_key. assumption.
      * rewrite Hof, Hmentor. reflexivity.
    + exists attempt, ta, cc, lr, gr, overall, (next_pk (reviews db)),
        (clock req 0), (clock req 1).
      do 8 (split; [first [assumption | reflexivity]|]). split; [|reflexivity].
      left. split; [apply next_pk_fresh|]. split; [|auto].
      intros pk r Hr Hk. apply Hnone in Hr. apply is_review_of_key in Hk. congruence.
Qed.


Lemma reviewed_attempt_key (attempt : Attempt) (overall : spec_float) (now : Z) :
  attempt_key (reviewed attempt overall now) = attempt_key attempt.
Proof. reflexivity. Qed.

(** X23.  A saved review completes the attempt: its status is completed
    and its total score is the mean of the four posted criterion scores,
    [(a + b + c + d) / 4]; the attempt keeps its exam, student, group,
    answers, section scores and time of submission; no other attempt is
    touched, and neither are the exams, the recordings, the groups and
    the writing tasks. *)
Theorem X23_review_completes_attempt (req : Request) (attempt_id : Z) (db db' : Database)
    (msg : string) :
  review req attempt_id db = (Done (Redirect "pending_reviews" msg), db') ->
  exists attempt after ta cc lr gr overall,
    attempts db !! attempt_id = Some attempt
    /\ attempts db' !! attempt_id = Some after
    /\ float_field py_float req "task_achievement" db = (Done ta, db)
    /\ float_field py_float req "coherence_cohesion" db = (Done cc, db)
    /\ float_field py_float req "lexical_resource" db = (Done lr, db)
    /\ float_field py_float req "grammatical_range" db = (Done gr, db)
    /\ overall_score ta cc lr gr = Ok overall
    /\ status after = "completed"%string
    /\ total_score after = Some overall
    /\ (completed_at after = Some (clock req 1) \/ completed_at after = Some (clock req 2))
    /\ attempt_exam after = attempt_exam attempt
    /\ attempt_student after = attempt_student attempt
    /\ attempt_group after = attempt_group attempt
    /\ attempt_answers after = attempt_answers attempt
    /\ reading_score after = reading_score attempt
    /\ listening_score after = listening_score attempt
    /\ submitted_at after = submitted_at attempt
    /\ (forall pk, pk <> attempt_id -> attempts db' !! pk = attempts db !! pk)
    /\ exams db' = exams db
    /\ attempt_audios db' = attempt_audios db
    /\ group_students db' = group_students db
    /\ writing_tasks db' = writing_tasks db.
Proof.
  intros Hrun.
  apply review_saved in Hrun
    as (attempt & ta & cc & lr & gr & overall & rpk & at_review & at_completion
        & _ & _ & Hattempt & Hta & Hcc & Hlr & Hgr & Hoverall & Hcases & ->).
  exists attempt, (reviewed attempt overall at_completion), ta, cc, lr, gr, overall.
  cbn [attempts exams attempt_audios group_students writing_tasks
       with_attempts with_reviews].
  attempt_fields.
  split; [assumption|]. split; [apply lookup_insert_eq|].
  do 5 (split; [assumption|]). do 2 (split; [reflexivity|]).
  split; [destruct Hcases as [(_ & _ & _ & ->) | (_ & _ & _ & ->)]; auto|].
  do 7 (split; [reflexivity|]).
  split; [|auto]. intros pk Hne. apply lookup_insert_ne. congruence.
Qed.

(** X24.  One review per attempt and mentor: a saved review is the only
    review of the attempt by the mentor, with the posted criterion scores,
    their mean and the posted feedback.  It is a new row when the mentor had
    not reviewed the attempt, and replaces the mentor's earlier review
    otherwise; no other review is touched. *)
Theorem X24_one_review_per_mentor (req : Request) (attempt_id : Z) (db db' : Database)
    (msg : string) :
  review req attempt_id db = (Done (Redirect "pending_reviews" msg), db') ->
  exists rpk saved,
    reviews db' = <[ rpk := saved ]> (reviews db)
    /\ review_of saved = attempt_id
    /\ mentor saved = user_pk (user req)
    /\ float_field py_float req "task_achievement" db = (Done (task_achievement saved), db)
    /\ float_field py_float req "coherence_cohesion" db = (Done (coherence_cohesion saved), db)
    /\ float_field py_float req "lexical_resource" db = (Done (lexical_resource saved), db)
    /\ float_field py_float req "grammatical_range" db = (Done (grammatical_range saved), db)
    /\ overall_score (task_achievement saved) (coherence_cohesion saved)
         (lexical_resource saved) (grammatical_range saved)
       = Ok (review_overall saved)
    /\ feedback saved = match querydict_get (POST req) "feedback" with
                        | Some text => text
                        | None => ""%string
                        end
    /\ (reviews db !! rpk = None
        \/ exists old, reviews db !! rpk = Some old
                       /\ review_key old = (attempt_id, user_pk (user req)))
    /\ (forall pk r, reviews db' !! pk = Some r ->
          review_key r = (attempt_id, user_pk (user req)) -> pk = rpk).
Proof.
  intros Hrun.
  apply review_saved in Hrun
    as (attempt & ta & cc & lr & gr & overall & rpk & at_review & at_completion
        & _ & _ & Hattempt & Hta & Hcc & Hlr & Hgr & Hoverall & Hcases & ->).
  exists rpk. eexists.
  cbn [reviews with_attempts with_reviews].
  split; [reflexivity|].
  cbn [review_of mentor task_achievement coherence_cohesion lexical_resource
       grammatical_range review_overall feedback].
  do 2 (split; [reflexivity|]). do 5 (split; [assumption|]). split; [reflexivity|].
  split; [destruct Hcases as [(Hnone & _) | (Hold & _)]; auto|].
  intros pk r Hr Hk.
  destruct (decide (pk = rpk)) as [|Hne]; [assumption|].
  rewrite lookup_insert_ne in Hr by congruence.
  destruct Hcases as [(_ & Hnone & _) | (_ & Honly & _)].
  - exfalso. eapply Hnone; eauto.
  - eapply Honly; eauto.
Qed.

(** X25.  A saved review takes the attempt off the list of pending
    reviews, and changes nothing else in that list: what [pending_reviews]
    shows a mentor afterwards is what it showed before without the
    reviewed attempt. *)
Theorem X25_reviewed_attempt_leaves_pending (req viewer : Request) (attempt_id : Z)
    (db db' : Database) (msg : string) :
  review req attempt_id db = (Done (Redirect "pending_reviews" msg), db') ->
  role (user viewer) = "mentor"%string ->
  exists before,
    pending_reviews viewer db = RenderPending before
    /\ pending_reviews viewer db' = RenderPending (delete attempt_id before).
Proof.
  intros Hrun Hviewer.
  apply review_saved in Hrun
    as (attempt & ta & cc & lr & gr & overall & rpk & at_review & at_completion
        & _ & _ & Hattempt & _ & _ & _ & _ & _ & _ & ->).
  unfold pending_reviews. rewrite Hviewer, String.eqb_refl. cbn [negb].
  eexists. split; [reflexivity|]. f_equal.
  cbn [attempts with_attempts with_reviews].
  apply map_eq. intros pk. apply option_eq. intros row.
  rewrite lookup_delete_Some, !map_lookup_filter_Some, lookup_insert_Some.
  cbn [snd]. unfold is_pending. cbn [exams with_attempts with_reviews].
  split.
  - intros [[[<- <-] | [Hne Hrow]] Hpending].
    + attempt_fields. discriminate.
    + auto.
  - intros (Hne & Hrow & Hpending). auto.
Qed.

(** A review keeps the database consistent. *)
Lemma review_consistent (req : Request) (attempt_id : Z) (db : Database) :
  consistent db -> consistent (snd (review req attempt_id db)).
Proof.
  intros Hdb.
  destruct (review req attempt_id db) as [out db'] eqn:Hrun. cbn [snd].
  assert (Hcases : db' = db \/ exists msg, out = Done (Redirect "pending_reviews" msg)).
  { revert Hrun. run_review req attempt_id db; cbn [vret vraise];
      try (destruct created; cbn [negb vbind vret save write]);
      intros [= <- <-]; eauto.
    apply get_or_create_failed in Hfound as [-> _]. auto. }
  destruct Hcases as [-> | (msg & ->)]; [assumption|].
  apply review_saved in Hrun
    as (attempt & ta & cc & lr & gr & overall & rpk & at_review & at_completion
        & _ & _ & Hattempt & _ & _ & _ & _ & _ & Hcases & ->).
  destruct Hdb as (Ha & Haudio & Hr & Hg).
  split; [|split; [|split]]; cbn [attempts attempt_audios reviews group_students
                                   with_attempts with_reviews]; try assumption.
  - eapply unique_on_insert_same; eauto.
  - destruct Hcases as [(Hfresh & Hnone & _) | ((old & Hold & Hkey) & _)].
    + apply unique_on_insert_new; [assumption | assumption |].
      intros pk r Hrow. apply Hnone in Hrow. exact Hrow.
    + eapply unique_on_insert_same; eauto.
Qed.

(** X26.  A review keeps the database consistent, whatever its outcome:
    at most one attempt per exam and student, one recording per attempt and
    part, one review per attempt and mentor and one group per student
    before it, and the same after it. *)
Theorem X26_review_keeps_consistency (req : Request) (attempt_id : Z) (db : Database) :
  consistent db -> consistent (snd (review req attempt_id db)).
Proof. apply review_consistent. Qed.

End ViewProperties.

(** ** The views on the sample database *)

Lemma sample_db_consistent : consistent sample_db.
Proof.
  repeat split; intros pk1 pk2 r1 r2 H1 H2 _; cbn in H1, H2;
    try (rewrite lookup_empty in H1; discriminate).
  apply lookup_insert_Some in H1 as [[<- _] | [_ H1]];
    [|rewrite lookup_empty in H1; discriminate].
  apply lookup_insert_Some in H2 as [[<- _] | [_ H2]];
    [|rewrite lookup_empty in H2; discriminate].
  reflexivity.
Qed.

Lemma submitted_db_consistent : consistent submitted_db.
Proof. apply submit_consistent, sample_db_consistent. Qed.


Lemma X17_second_submission_refused_witness :
  submit_attempt sample_dumps sample_defaults sample_column (student_request [] []) 2 submitted_db
  = (JsonError 400 "Attempt already submitted", submitted_db).
Proof.
  apply (X17_second_submission_refused sample_dumps sample_defaults sample_column
           sample_submission (student_request [] []) 2 sample_db submitted_db
           success_message "/exams/2/").
  - vm_compute. reflexivity.
  - reflexivity.
  - reflexivity.
Defined.

Lemma X18_auto_scored_submission_witness :
  exists pk attempt answers score,
    attempts scored_db !! pk = Some attempt
    /\ attempt_exam attempt = 1
    /\ attempt_student attempt = user_pk (user sample_submission)
    /\ collect_answers (POST sample_submission) = Ok answers
    /\ calculate_auto_score exam3 answers = Ok score
    /\ In score band_scores
    /\ status attempt = "completed"%string
    /\ total_score attempt = Some score
    /\ (if String.eqb (section_type exam3) "reading"
        then reading_score attempt = Some score
        else listening_score attempt = Some score)
    /\ attempt_answers attempt = Some (sample_dumps answers)
    /\ submitted_at attempt = Some (clock sample_submission 1)
    /\ completed_at attempt = Some (clock sample_submission 2)
    /\ is_pending scored_db attempt = false.
Proof.
  apply (X18_auto_scored_submission sample_dumps sample_defaults sample_column sample_submission 1
           sample_db scored_db success_message "/exams/1/" exam3).
  - vm_compute. reflexivity.
  - vm_compute. reflexivity.
  - reflexivity.
Defined.

Lemma X19_manual_submission_witness :
  exists pk attempt answers before,
    attempts submitted_db !! pk = Some attempt
    /\ attempt_exam attempt = 2
    /\ attempt_student attempt = user_pk (user sample_submission)
    /\ collect_answers (POST sample_submission) = Ok answers
    /\ status attempt = "submitted"%string
    /\ attempt_answers attempt = Some (sample_dumps answers)
    /\ submitted_at attempt = Some (clock sample_submission 1)
    /\ (attempts sample_db !! pk = Some before
        \/ attempts sample_db !! pk = None /\ before = sample_defaults)
    /\ total_score attempt = total_score before
    /\ reading_score attempt = reading_score before
    /\ listening_score attempt = listening_score before
    /\ completed_at attempt = completed_at before
    /\ is_pending submitted_db attempt
       = (String.eqb (section_type writing_exam) "writing"
          || String.eqb (section_type writing_exam) "speaking").
Proof.
  apply (X19_manual_submission sample_dumps sample_defaults sample_column sample_submission 2
           sample_db submitted_db success_message "/exams/2/" writing_exam).
  - vm_compute. reflexivity.
  - vm_compute. reflexivity.
  - reflexivity.
Defined.

Lemma X20_submission_keeps_consistency_witness : consistent submitted_db.
Proof.
  apply (X20_submission_keeps_consistency sample_dumps sample_defaults sample_column
           sample_submission 2 sample_db).
  apply sample_db_consistent.
Defined.


Lemma X23_review_completes_attempt_witness :
  exists attempt after ta cc lr gr overall,
    attempts submitted_db !! 1 = Some attempt
    /\ attempts reviewed_db !! 1 = Some after
    /\ float_field sample_float sample_review "task_achievement" submitted_db
       = (Done ta, submitted_db)
    /\ float_field sample_float sample_review "coherence_cohesion" submitted_db
       = (Done cc, submitted_db)
    /\ float_field sample_float sample_review "lexical_resource" submitted_db
       = (Done lr, submitted_db)
    /\ float_field sample_float sample_review "grammatical_range" submitted_db
       = (Done gr, submitted_db)
    /\ overall_score ta cc lr gr = Ok overall
    /\ status after = "completed"%string
    /\ total_score after = Some overall
    /\ (completed_at after = Some (clock sample_review 1)
        \/ completed_at after = Some (clock sample_review 2))
    /\ attempt_exam after = attempt_exam attempt
    /\ attempt_student after = attempt_student attempt
    /\ attempt_group after = attempt_group attempt
    /\ attempt_answers after = attempt_answers attempt
    /\ reading_score after = reading_score attempt
    /\ listening_score after = listening_score attempt
    /\ submitted_at after = submitted_at attempt
    /\ (forall pk, pk <> 1 -> attempts reviewed_db !! pk = attempts submitted_db !! pk)
    /\ exams reviewed_db = exams submitted_db
    /\ attempt_audios reviewed_db = attempt_audios submitted_db
    /\ group_students reviewed_db = group_students submitted_db
    /\ writing_tasks reviewed_db = writing_tasks submitted_db.
Proof.
  apply (X23_review_completes_attempt sample_loads sample_float sample_review 1
           submitted_db reviewed_db saved_message).
  vm_compute. reflexivity.
Defined.

Lemma X24_one_review_per_mentor_witness :
  exists rpk saved,
    reviews reviewed_db = <[ rpk := saved ]> (reviews submitted_db)
    /\ review_of saved = 1
    /\ mentor saved = user_pk (user sample_review)
    /\ float_field sample_float sample_review "task_achievement" submitted_db
       = (Done (task_achievement saved), submitted_db)
    /\ float_field sample_float sample_review "coherence_cohesion" submitted_db
       = (Done (coherence_cohesion saved), submitted_db)
    /\ float_field sample_float sample_review "lexical_resource" submitted_db
       = (Done (lexical_resource saved), submitted_db)
    /\ float_field sample_float sample_review "grammatical_range" submitted_db
       = (Done (grammatical_range saved), submitted_db)
    /\ overall_score (task_achievement saved) (coherence_cohesion saved)
         (lexical_resource saved) (grammatical_range saved)
       = Ok (review_overall saved)
    /\ feedback saved = match querydict_get (POST sample_review) "feedback" with
                        | Some text => text
                        | None => EmptyString
                        end
    /\ (reviews submitted_db !! rpk = None
        \/ exists old, reviews submitted_db !! rpk = Some old
                       /\ review_key old = (1, user_pk (user sample_review)))
    /\ (forall pk r, reviews reviewed_db !! pk = Some r ->
          review_key r = (1, user_pk (user sample_review)) -> pk = rpk).
Proof.
  apply (X24_one_review_per_mentor sample_loads sample_float sample_review 1
           submitted_db reviewed_db saved_message).
  vm_compute. reflexivity.
Defined.

Lemma X25_reviewed_attempt_leaves_pending_witness :
  exists before,
    pending_reviews (mentor_request "GET" []) submitted_db = RenderPending before
    /\ pending_reviews (mentor_request "GET" []) reviewed_db
       = RenderPending (delete 1 before).
Proof.
  apply (X25_reviewed_attempt_leaves_pending sample_loads sample_float sample_review
           (mentor_request "GET" []) 1 submitted_db reviewed_db saved_message).
  - vm_compute. reflexivity.
  - reflexivity.
Defined.

Lemma X26_review_keeps_consistency_witness : consistent reviewed_db.
Proof.
  apply (X26_review_keeps_consistency sample_loads sample_float sample_review 1
           submitted_db).
  apply submitted_db_consistent.
Defined.

(** ** The review page *)

Section ReviewPage.

Variable json_dumps : answers_t -> string.
Variable json_loads : string -> option json_value.
Variable py_float : string -> result spec_float.
Variable attempt_defaults : Attempt.
Variable part_id_column : Z -> bool.

(** The page that a mentor gets for another method than POST. *)
Lemma review_get (req : Request) (attempt_id : Z) (db : Database)
    (attempt : Attempt) (exam : Exam) :
  method req <> "POST"%string ->
  role (user req) = "mentor"%string ->
  attempts db !! attempt_id = Some attempt ->
  exams db !! attempt_exam attempt = Some exam ->
  review_attempt json_loads py_float req attempt_id db
  = match (if String.eqb (section_type exam) "writing" then
             task_views (parsed_answers json_loads attempt)
               (rows_where (fun task => task_exam task =? attempt_exam attempt)
                  (writing_tasks db))
           else Done []) with
    | Done tasks =>
        (Done (RenderReview
                 {| ctx_attempt := attempt;
                    ctx_answers := parsed_answers json_loads attempt;
                    ctx_audio_files :=
                      if String.eqb (section_type exam) "speaking" then
                        fold_left (fun files row =>
                                     <[ part_id (snd row) := audio_file (snd row) ]> files)
                          (rows_where (fun audio => audio_attempt audio =? attempt_id)
                             (attempt_audios db)) ∅
                      else ∅;
                    ctx_band_scores := band_scores;
                    ctx_writing_tasks := tasks |}), db)
    | Failed e => (Failed e, db)
    end.
Proof.
  intros Hmethod Hrole Hattempt Hexam. apply String.eqb_neq in Hmethod.
  unfold review_attempt, vbind, query, get_object_or_404, vret.
  rewrite Hattempt, Hrole, String.eqb_refl. cbn [negb]. rewrite Hexam.
  destruct (if String.eqb (section_type exam) "writing" then _ else _);
    [rewrite Hmethod|]; reflexivity.
Qed.

Lemma fold_audio_files (rows : list (Z * AttemptAudio)) (files : gmap Z string)
    (part : Z) (file : string) :
  (forall r1 r2, In r1 rows -> In r2 rows -> part_id (snd r1) = part_id (snd r2) ->
     audio_file (snd r1) = audio_file (snd r2)) ->
  fold_left (fun files row => <[ part_id (snd row) := audio_file (snd row) ]> files)
    rows files !! part = Some file
  <-> (exists row, In row rows /\ part_id (snd row) = part /\ audio_file (snd row) = file)
      \/ (files !! part = Some file /\ forall row, In row rows -> part_id (snd row) <> part).
Proof.
  revert files. induction rows as [| r rows IH]; intros files Hfun; cbn [fold_left].
  - split; [intros H; right; split; [assumption | intros row []] | ].
    intros [(row & [] & _) | [H _]]. assumption.
  - rewrite IH by (intros r1 r2 H1 H2; apply Hfun; right; assumption).
    split.
    + intros [(row & Hin & Hp & Hf) | [Hlook Hnone]].
      * left. exists row. split; [right; assumption | auto].
      * destruct (decide (part_id (snd r) = part)) as [Hp | Hp].
        -- left. exists r. split; [left; reflexivity|]. split; [assumption|].
           rewrite Hp, lookup_insert_eq in Hlook. congruence.
        -- right. rewrite lookup_insert_ne in Hlook by assumption.
           split; [assumption|]. intros row [<- | Hin]; auto.
    + intros [(row & [<- | Hin] & Hp & Hf) | [Hlook Hnone]].
      * destruct (existsb (fun row => part_id (snd row) =? part) rows) eqn:Hex.
        -- apply existsb_exists in Hex as (row & Hin & Hrow). apply Z.eqb_eq in Hrow.
           left. exists row. split; [assumption|]. split; [assumption|].
           rewrite <- Hf. apply Hfun; [right; assumption | left; reflexivity | congruence].
        -- right. split; [rewrite Hp, lookup_insert_eq; congruence|].
           intros row Hin Hrow.
           assert (existsb (fun row => part_id (snd row) =? part) rows = true);
             [|congruence].
           apply existsb_exists. exists row. split; [assumption|]. apply Z.eqb_eq, Hrow.
      * left. exists row. auto.
      * right. split.
        -- rewrite lookup_insert_ne; [assumption|]. apply Hnone. left. reflexivity.
        -- intros row Hin. apply Hnone. right. assumption.
Qed.

(** With at most one recording per attempt and part, the files shown for
    an attempt are its recordings. *)
Lemma shown_recordings (db : Database) (attempt_id part : Z) (file : string) :
  unique_on audio_key (attempt_audios db) ->
  fold_left (fun (files : gmap Z string) row =>
               <[ part_id (snd row) := audio_file (snd row) ]> files)
    (rows_where (fun audio => audio_attempt audio =? attempt_id) (attempt_audios db)) ∅
    !! part = Some file
  <-> recording db attempt_id part file.
Proof.
  intros Huniq. rewrite fold_audio_files.
  - unfold recording. split.
    + intros [([pk [a p f]] & Hin & Hp & Hf) | [Hlook _]];
        [|rewrite lookup_empty in Hlook; discriminate].
      apply rows_where_elem in Hin as [Hrow Ha]. cbn in Hp, Hf, Ha.
      apply Z.eqb_eq in Ha. subst. exists pk. assumption.
    + intros (pk & Hrow). left.
      exists (pk, {| audio_attempt := attempt_id; part_id := part; audio_file := file |}).
      split; [|split; reflexivity].
      apply rows_where_elem. split; [exact Hrow|]. apply Z.eqb_refl.
  - intros [pk1 r1] [pk2 r2] H1 H2 Hp.
    apply rows_where_elem in H1 as [H1 Ha1], H2 as [H2 Ha2].
    apply Z.eqb_eq in Ha1, Ha2. cbn [snd] in *.
    assert (pk1 = pk2).
    { eapply Huniq; eauto. unfold audio_key. congruence. }
    congruence.
Qed.

Lemma task_views_dict (answers : answers_t) (tasks : list (Z * WritingTask)) :
  task_views (JsonDict answers) tasks = Done (map (task_view_of answers) tasks).
Proof.
  induction tasks as [| [pk task] tasks IH]; cbn [task_views map json_get].
  - reflexivity.
  - rewrite IH. reflexivity.
Qed.

(** X27.  The recordings on the review page: for an attempt at a speaking
    exam, on a table with at most one recording per attempt and part, the
    page that a mentor gets shows under each part the file recorded for
    that part of the attempt, and nothing else; it shows the attempt, the
    listed bands and no writing task, and the database is as it was. *)
Theorem X27_review_shows_recordings (req : Request) (attempt_id : Z) (db : Database)
    (attempt : Attempt) (exam : Exam) :
  unique_on audio_key (attempt_audios db) ->
  method req <> "POST"%string ->
  role (user req) = "mentor"%string ->
  attempts db !! attempt_id = Some attempt ->
  exams db !! attempt_exam attempt = Some exam ->
  section_type exam = "speaking"%string ->
  exists ctx,
    review_attempt json_loads py_float req attempt_id db = (Done (RenderReview ctx), db)
    /\ ctx_attempt ctx = attempt
    /\ ctx_band_scores ctx = band_scores
    /\ ctx_writing_tasks ctx = []
    /\ forall part file,
         ctx_audio_files ctx !! part = Some file <-> recording db attempt_id part file.
Proof.
  intros Huniq Hmethod Hrole Hattempt Hexam Hspeaking.
  rewrite (review_get req attempt_id db attempt exam Hmethod Hrole Hattempt Hexam).
  rewrite Hspeaking. cbn [String.eqb Ascii.eqb Bool.eqb].
  eexists. split; [reflexivity|]. cbn [ctx_attempt ctx_band_scores ctx_writing_tasks
                                       ctx_audio_files].
  do 3 (split; [reflexivity|]).
  intros part file. apply shown_recordings. assumption.
Qed.

(** X28.  From the upload to the review page: after a submission to a
    speaking exam that is answered with success, the page that a mentor
    gets for the attempt shows, for a part, the file of the last upload for
    that part. *)
Theorem X28_last_upload_shown (req viewer : Request) (exam_id : Z) (db db' : Database)
    (msg url : string) (exam : Exam) (part : Z) (key file : string)
    (before after : list (string * string)) :
  submit_attempt json_dumps attempt_defaults part_id_column req exam_id db = (JsonSuccess msg url, db') ->
  unique_on audio_key (attempt_audios db) ->
  exams db !! exam_id = Some exam ->
  section_type exam = "speaking"%string ->
  FILES req = before ++ (key, file) :: after ->
  upload_part key = Some part ->
  Forall (fun upload => upload_part (fst upload) <> Some part) after ->
  method viewer <> "POST"%string ->
  role (user viewer) = "mentor"%string ->
  exists pk ctx,
    review_attempt json_loads py_float viewer pk db' = (Done (RenderReview ctx), db')
    /\ attempt_exam (ctx_attempt ctx) = exam_id
    /\ attempt_student (ctx_attempt ctx) = user_pk (user req)
    /\ ctx_audio_files ctx !! part = Some file.
Proof.
  intros Hrun Huniq Hexam Hspeaking Hfiles Hkey Hafter Hmethod Hrole.
  apply submit_success in Hrun
    as (exam' & group & pk & attempt0 & created & db1 & answers & db2 & final
        & _ & _ & Hexam' & _ & Hfound & _ & _ & Hloop & Hfinal & ->).
  assert (exam' = exam) as -> by congruence.
  apply attempt_get_or_create in Hfound as (Hkey0 & _ & _ & Hcreated); [|reflexivity].
  assert (Hdb1 : attempt_audios db1 = attempt_audios db /\ exams db1 = exams db).
  { destruct created; [destruct Hcreated as (_ & _ & ->) | subst db1]; auto. }
  destruct Hdb1 as [Haudios Hexams1].
  rewrite Hfiles in Hloop.
  pose proof (audio_loop_tables part_id_column pk (before ++ (key, file) :: after) db1) as Hsame.
  rewrite Hloop in Hsame. cbn [snd] in Hsame. destruct Hsame as (Hexams2 & _).
  apply (last_upload_recorded part_id_column) with (part := part) in Hloop as [Hrec Huniq2];
    [| rewrite Haudios; assumption | assumption | assumption].
  apply final_attempt in Hfinal as (Hkey' & _).
  rewrite Hkey0 in Hkey'. injection Hkey' as Hfinal_exam Hfinal_student.
  exists pk. eexists.
  rewrite (review_get viewer pk _ final exam Hmethod Hrole).
  - rewrite Hspeaking. cbn [String.eqb Ascii.eqb Bool.eqb].
    split; [reflexivity|].
    cbn [ctx_attempt ctx_audio_files attempt_audios with_attempts].
    split; [assumption|]. split; [assumption|].
    apply (shown_recordings db2); assumption.
  - cbn [attempts with_attempts]. apply lookup_insert_eq.
  - cbn [exams with_attempts]. rewrite Hfinal_exam, Hexams2, Hexams1. assumption.
Qed.

(** X29.  From the form to the review page: after a submission to a
    writing exam that is answered with success, when [json.loads] gives
    back the dict that [json.dumps] was given, the page that a mentor gets
    for the attempt lists the writing tasks of the exam, each with the
    answer that was collected from the field [task_<id>] of the form, and
    none where there was no such field. *)
Theorem X29_essay_shown (req viewer : Request) (exam_id : Z) (db db' : Database)
    (msg url : string) (exam : Exam) (answers : answers_t) :
  submit_attempt json_dumps attempt_defaults part_id_column req exam_id db = (JsonSuccess msg url, db') ->
  exams db !! exam_id = Some exam ->
  section_type exam = "writing"%string ->
  collect_answers (POST req) = Ok answers ->
  json_dumps answers <> ""%string ->
  json_loads (json_dumps answers) = Some (JsonDict answers) ->
  method viewer <> "POST"%string ->
  role (user viewer) = "mentor"%string ->
  exists pk ctx,
    review_attempt json_loads py_float viewer pk db' = (Done (RenderReview ctx), db')
    /\ attempt_exam (ctx_attempt ctx) = exam_id
    /\ attempt_student (ctx_attempt ctx) = user_pk (user req)
    /\ ctx_answers ctx = JsonDict answers
    /\ ctx_audio_files ctx = ∅
    /\ ctx_writing_tasks ctx
       = map (task_view_of answers)
           (rows_where (fun task => task_exam task =? exam_id) (writing_tasks db)).
Proof.
  intros Hrun Hexam Hwriting Hcollect Hnonempty Hround Hmethod Hrole.
  apply submit_success_state in Hrun
    as (exam' & group & pk & attempt0 & answers' & final
        & _ & _ & Hexam' & _ & Hcollect' & Hkey & _ & Hfinal & Hrow & _ & _
        & Hexams & _ & _ & Htasks).
  assert (exam' = exam) as -> by congruence.
  assert (answers' = answers) as -> by congruence.
  apply final_attempt in Hfinal as (Hkey' & _ & Hanswers & _).
  rewrite Hkey in Hkey'. injection Hkey' as Hfinal_exam Hfinal_student.
  assert (Hparsed : parsed_answers json_loads final = JsonDict answers).
  { unfold parsed_answers. rewrite Hanswers.
    apply String.eqb_neq in Hnonempty. rewrite Hnonempty. cbn [negb].
    rewrite Hround. reflexivity. }
  exists pk. eexists.
  rewrite (review_get viewer pk db' final exam Hmethod Hrole Hrow).
  - rewrite Hwriting, Hparsed, task_views_dict.
    cbn [String.eqb Ascii.eqb Bool.eqb].
    split; [reflexivity|].
    cbn [ctx_attempt ctx_answers ctx_audio_files ctx_writing_tasks].
    rewrite Hfinal_exam, Htasks. auto.
  - rewrite Hfinal_exam, Hexams. assumption.
Qed.

End ReviewPage.

Lemma spoken_db_consistent : consistent spoken_db.
Proof. apply submit_consistent, sample_db_consistent. Qed.

Lemma X27_review_shows_recordings_witness :
  exists ctx,
    review_attempt sample_loads sample_float (mentor_request "GET" []) 1 spoken_db
    = (Done (RenderReview ctx), spoken_db)
    /\ ctx_attempt ctx = spoken_attempt
    /\ ctx_band_scores ctx = band_scores
    /\ ctx_writing_tasks ctx = []
    /\ forall part file,
         ctx_audio_files ctx !! part = Some file <-> recording spoken_db 1 part file.
Proof.
  apply (X27_review_shows_recordings sample_loads sample_float (mentor_request "GET" []) 1
           spoken_db spoken_attempt speaking_exam).
  - apply spoken_db_consistent.
  - discriminate.
  - reflexivity.
  - vm_compute. reflexivity.
  - vm_compute. reflexivity.
  - reflexivity.
Defined.

Lemma X28_last_upload_shown_witness :
  exists pk ctx,
    review_attempt sample_loads sample_float (mentor_request "GET" []) pk spoken_db
    = (Done (RenderReview ctx), spoken_db)
    /\ attempt_exam (ctx_attempt ctx) = 3
    /\ attempt_student (ctx_attempt ctx) = user_pk (user sample_submission)
    /\ ctx_audio_files ctx !! 2 = Some "take2.webm"%string.
Proof.
  apply (X28_last_upload_shown sample_dumps sample_loads sample_float sample_defaults sample_column
           sample_submission (mentor_request "GET" []) 3 sample_db spoken_db
           success_message "/exams/3/" speaking_exam 2 "retake_part_2_audio" "take2.webm"
           [ ("speaking_part_2_audio", "take1.webm"); ("notes", "n.txt");
             ("speaking_part_x_audio", "bad.webm") ]%string []).
  - vm_compute. reflexivity.
  - apply sample_db_consistent.
  - vm_compute. reflexivity.
  - reflexivity.
  - reflexivity.
  - reflexivity.
  - constructor.
  - discriminate.
  - reflexivity.
Defined.

Lemma X29_essay_shown_witness :
  exists pk ctx,
    review_attempt essay_loads sample_float (mentor_request "GET" []) pk essay_db
    = (Done (RenderReview ctx), essay_db)
    /\ attempt_exam (ctx_attempt ctx) = 2
    /\ attempt_student (ctx_attempt ctx) = user_pk (user (student_request essay_post []))
    /\ ctx_answers ctx = JsonDict essay_answers
    /\ ctx_audio_files ctx = ∅
    /\ ctx_writing_tasks ctx
       = map (task_view_of essay_answers)
           (rows_where (fun task => task_exam task =? 2) (writing_tasks writing_db)).
Proof.
  apply (X29_essay_shown essay_dumps essay_loads sample_float sample_defaults sample_column
           (student_request essay_post []) (mentor_request "GET" []) 2 writing_db essay_db
           success_message "/exams/2/" writing_exam essay_answers).
  - vm_compute. reflexivity.
  - vm_compute. reflexivity.
  - reflexivity.
  - vm_compute. reflexivity.
  - discriminate.
  - reflexivity.
  - discriminate.
  - reflexivity.
Defined.
